(** * semu.xr.openxr: the OpenXR facade of [openxr.py]

    A shallow embedding of the Python class [OpenXR] and of the helpers it
    is built from, followed by the properties of the pose pipeline, the
    stereo rectification, the frame transformer, the action registry and
    the session facade.

    Conventions of the embedding.
    - Python [float] values are real numbers ([R]) where the code uses
      trigonometry and scalar division (poses, quaternions), an
      idealisation; in the aspect-ratio arithmetic of [_transform], whose
      result is truncated to an integer margin, they are IEEE 754 doubles
      ([float]), rounded as the code rounds them.
    - A method is a computation in the monad [M]: it reads and writes the
      attributes of [self], may raise, and appends the calls it makes on
      its collaborators (action callbacks, scene graph, preview windows)
      to a trace.  What the native runtime answers is an argument of the
      method (named [rt_...]): the runtime library is not part of this
      module.
    - Callbacks are opaque references; invoking one is an event of the
      trace.  A callback is assumed not to call back into the facade. *)

From Stdlib Require Import Floats.
From Stdlib Require Import ZArith Reals Lra Lia List String Ascii Bool.
From stdpp Require Import gmap strings.

Import ListNotations.

(** ** Exceptions and the method monad *)

Inductive exn :=
| ValueError | AssertionError | KeyError | TypeError | AttributeError
| ZeroDivisionError | IndexError | AxisError | Cv2Error | NotImplementedError
| OverflowError.

Inductive outcome (A : Type) :=
| Ok (a : A)
| Raise (e : exn).
Arguments Ok {A} a.
Arguments Raise {A} e.

(** ** pxr.Gf: the vector and quaternion types of the scene graph

    [Gf.Vec3d] and [Gf.Quatd] belong to the host's library.  Division of
    a vector by a scalar multiplies by the reciprocal; [*] on quaternions
    is the Hamilton product, real part first. *)

Module Gf.
Local Open Scope R_scope.

Record Vec3d := mkVec3d { vx : R; vy : R; vz : R }.
Record Quatd := mkQuatd { real : R; imag_i : R; imag_j : R; imag_k : R }.

Definition vec_scale (v : Vec3d) (s : R) : Vec3d :=
  mkVec3d (vx v * s) (vy v * s) (vz v * s).

Definition vec_div (v : Vec3d) (s : R) : Vec3d := vec_scale v (1 / s).

Definition vec_add (a b : Vec3d) : Vec3d :=
  mkVec3d (vx a + vx b) (vy a + vy b) (vz a + vz b).

Definition quat_mul (p q : Quatd) : Quatd :=
  let r1 := real p in
  let r2 := real q in
  mkQuatd
    (r1 * r2 - (imag_i p * imag_i q + imag_j p * imag_j q + imag_k p * imag_k q))
    (r1 * imag_i q + r2 * imag_i p + (imag_j p * imag_k q - imag_k p * imag_j q))
    (r1 * imag_j q + r2 * imag_j p + (imag_k p * imag_i q - imag_i p * imag_k q))
    (r1 * imag_k q + r2 * imag_k p + (imag_i p * imag_j q - imag_j p * imag_i q)).

Definition quat_identity : Quatd := mkQuatd 1 0 0 0.
End Gf.

(** ** Constants *)

Definition XR_FORM_FACTOR_HEAD_MOUNTED_DISPLAY : Z := 1.
Definition XR_FORM_FACTOR_HANDHELD_DISPLAY : Z := 2.

Definition XR_ENVIRONMENT_BLEND_MODE_OPAQUE : Z := 1.
Definition XR_ENVIRONMENT_BLEND_MODE_ADDITIVE : Z := 2.
Definition XR_ENVIRONMENT_BLEND_MODE_ALPHA_BLEND : Z := 3.

Definition XR_VIEW_CONFIGURATION_TYPE_PRIMARY_MONO : Z := 1.
Definition XR_VIEW_CONFIGURATION_TYPE_PRIMARY_STEREO : Z := 2.

Definition XR_REFERENCE_SPACE_TYPE_VIEW : Z := 1.
Definition XR_REFERENCE_SPACE_TYPE_LOCAL : Z := 2.
Definition XR_REFERENCE_SPACE_TYPE_STAGE : Z := 3.

Definition XR_ACTION_TYPE_BOOLEAN_INPUT : Z := 1.
Definition XR_ACTION_TYPE_FLOAT_INPUT : Z := 2.
Definition XR_ACTION_TYPE_VECTOR2F_INPUT : Z := 3.
Definition XR_ACTION_TYPE_POSE_INPUT : Z := 4.
Definition XR_ACTION_TYPE_VIBRATION_OUTPUT : Z := 100.

Definition XR_KHR_OPENGL_ENABLE_EXTENSION_NAME : string := "XR_KHR_opengl_enable".
Definition XR_KHR_OPENGL_ES_ENABLE_EXTENSION_NAME : string := "XR_KHR_opengl_es_enable".
Definition XR_KHR_VULKAN_ENABLE_EXTENSION_NAME : string := "XR_KHR_vulkan_enable".
Definition XR_KHR_D3D11_ENABLE_EXTENSION_NAME : string := "XR_KHR_D3D11_enable".
Definition XR_KHR_D3D12_ENABLE_EXTENSION_NAME : string := "XR_KHR_D3D12_enable".

(** ** Structures exchanged with the runtime *)

(** [XrQuaternionf] stores the real component last. *)
Record XrQuaternionf := mkXrQuaternionf { qx : R; qy : R; qz : R; qw : R }.
Record XrVector3f := mkXrVector3f { px : R; py : R; pz : R }.
Record XrPosef := mkXrPosef { orientation : XrQuaternionf; position : XrVector3f }.
Record XrFovf := mkXrFovf { angleLeft : R; angleRight : R; angleUp : R; angleDown : R }.
Record XrView := mkXrView { view_pose : XrPosef; fov : XrFovf }.

(** The image sizes are [c_uint32] fields: natural numbers. *)
Record XrViewConfigurationView := mkXrViewConfigurationView {
  recommendedImageRectWidth : nat;
  maxImageRectWidth : nat;
  recommendedImageRectHeight : nat;
  maxImageRectHeight : nat;
  recommendedSwapchainSampleCount : nat;
  maxSwapchainSampleCount : nat
}.

(** One record of [pollActions].  The ctypes structure and the pybind11
    dictionary carry the same fields. *)
Record ActionState := mkActionState {
  as_type : Z;
  as_path : string;
  as_isActive : bool;
  stateBool : bool;
  stateFloat : R;
  stateVectorX : R;
  stateVectorY : R
}.

(** One record of [renderViews]. *)
Record ActionPoseState := mkActionPoseState {
  aps_type : Z;
  aps_path : string;
  aps_isActive : bool;
  aps_pose : XrPosef
}.

(** A zero-initialised element of a ctypes array. *)
Definition ActionState_zero : ActionState :=
  mkActionState 0 "" false false 0%R 0%R 0%R.

Definition ActionPoseState_zero : ActionPoseState :=
  mkActionPoseState 0 "" false
    (mkXrPosef (mkXrQuaternionf 0 0 0 0) (mkXrVector3f 0 0 0)).

(** ** Values handed to callbacks, and the trace of collaborator calls *)

Definition callback := nat.
Definition prim := nat.

Inductive value :=
| VNone
| VBool (b : bool)
| VFloat (f : R)
| VVector2 (x y : R)
| VPose (p : Gf.Vec3d) (q : Gf.Quatd).

Inductive event :=
| Invoke (cb : callback) (path : string) (v : value)
| Teleport (target : prim) (translate : Gf.Vec3d) (rotate : option Gf.Vec3d)
           (transform : Gf.Quatd)
| ImShow (window : string).

Inductive render_callback :=
| InternalRender
| UserRender (cb : callback).

(** [np.flip]'s [axis] argument as [set_frame_transformations] takes it. *)
(** What [_callback_middle_render] holds: the C function pointer that
    ctypes builds around the render callback of the moment, or the
    [_middle_callback] closure handed to pybind11. *)
Inductive middle_callback :=
| CFunction (c : render_callback)
| MiddleCallback.

Inductive flip_axis :=
| FlipInt (a : Z)
| FlipTuple (axes : list Z).

(** ** The attributes of an [OpenXR] object *)

Record OpenXR := mkOpenXR {
  _disable_openxr : bool;
  _app : option unit;
  _graphics : option string;
  _use_ctypes : bool;
  _prim_left : option prim;
  _prim_right : option prim;
  _cam_left : option nat;
  _cam_right : option nat;
  _viewport_window_left : option nat;
  _viewport_window_right : option nat;
  _meters_per_unit : R;
  _reference_position : option Gf.Vec3d;
  _reference_rotation : option Gf.Vec3d;
  _rectification_quat_left : Gf.Quatd;
  _rectification_quat_right : Gf.Quatd;
  _transform_fit : bool;
  _transform_flip : option flip_axis;
  _callback_action_events : gmap string (option callback);
  _callback_action_pose_events : gmap string (option callback);
  _callback_middle_render : option middle_callback;
  _callback_render : option render_callback
}.

(** [OpenXR.__init__].  [_transform_fit] starts as [None], which the code
    only ever tests for truth: it is [false] here.  The library handle
    [_lib] is assigned together with [_app] and is represented by it; the
    frames kept in [_frame_left] and [_frame_right] are what [set_frames]
    submits. *)
Definition acquire_openxr_interface (disable_openxr : bool) : OpenXR :=
  {| _disable_openxr := disable_openxr;
     _app := None;
     _graphics := None;
     _use_ctypes := false;
     _prim_left := None;
     _prim_right := None;
     _cam_left := None;
     _cam_right := None;
     _viewport_window_left := None;
     _viewport_window_right := None;
     _meters_per_unit := 1%R;
     _reference_position := Some (Gf.mkVec3d 0 0 0);
     _reference_rotation := Some (Gf.mkVec3d 0 0 0);
     _rectification_quat_left := Gf.mkQuatd 1 0 0 0;
     _rectification_quat_right := Gf.mkQuatd 1 0 0 0;
     _transform_fit := false;
     _transform_flip := None;
     _callback_action_events := ∅;
     _callback_action_pose_events := ∅;
     _callback_middle_render := None;
     _callback_render := None |}.

(** Attribute assignments. *)

Definition set__app (v : option unit) (o : OpenXR) : OpenXR :=
  mkOpenXR (_disable_openxr o) v (_graphics o) (_use_ctypes o)
    (_prim_left o) (_prim_right o) (_cam_left o) (_cam_right o)
    (_viewport_window_left o) (_viewport_window_right o)
    (_meters_per_unit o) (_reference_position o) (_reference_rotation o)
    (_rectification_quat_left o) (_rectification_quat_right o)
    (_transform_fit o) (_transform_flip o)
    (_callback_action_events o) (_callback_action_pose_events o)
    (_callback_middle_render o) (_callback_render o).

Definition set__graphics (v : option string) (o : OpenXR) : OpenXR :=
  mkOpenXR (_disable_openxr o) (_app o) v (_use_ctypes o)
    (_prim_left o) (_prim_right o) (_cam_left o) (_cam_right o)
    (_viewport_window_left o) (_viewport_window_right o)
    (_meters_per_unit o) (_reference_position o) (_reference_rotation o)
    (_rectification_quat_left o) (_rectification_quat_right o)
    (_transform_fit o) (_transform_flip o)
    (_callback_action_events o) (_callback_action_pose_events o)
    (_callback_middle_render o) (_callback_render o).

Definition set__use_ctypes (v : bool) (o : OpenXR) : OpenXR :=
  mkOpenXR (_disable_openxr o) (_app o) (_graphics o) v
    (_prim_left o) (_prim_right o) (_cam_left o) (_cam_right o)
    (_viewport_window_left o) (_viewport_window_right o)
    (_meters_per_unit o) (_reference_position o) (_reference_rotation o)
    (_rectification_quat_left o) (_rectification_quat_right o)
    (_transform_fit o) (_transform_flip o)
    (_callback_action_events o) (_callback_action_pose_events o)
    (_callback_middle_render o) (_callback_render o).

Definition set__meters_per_unit (v : R) (o : OpenXR) : OpenXR :=
  mkOpenXR (_disable_openxr o) (_app o) (_graphics o) (_use_ctypes o)
    (_prim_left o) (_prim_right o) (_cam_left o) (_cam_right o)
    (_viewport_window_left o) (_viewport_window_right o)
    v (_reference_position o) (_reference_rotation o)
    (_rectification_quat_left o) (_rectification_quat_right o)
    (_transform_fit o) (_transform_flip o)
    (_callback_action_events o) (_callback_action_pose_events o)
    (_callback_middle_render o) (_callback_render o).

Definition set__reference (p r : option Gf.Vec3d) (o : OpenXR) : OpenXR :=
  mkOpenXR (_disable_openxr o) (_app o) (_graphics o) (_use_ctypes o)
    (_prim_left o) (_prim_right o) (_cam_left o) (_cam_right o)
    (_viewport_window_left o) (_viewport_window_right o)
    (_meters_per_unit o) p r
    (_rectification_quat_left o) (_rectification_quat_right o)
    (_transform_fit o) (_transform_flip o)
    (_callback_action_events o) (_callback_action_pose_events o)
    (_callback_middle_render o) (_callback_render o).

Definition set__rectification_quat_left (v : Gf.Quatd) (o : OpenXR) : OpenXR :=
  mkOpenXR (_disable_openxr o) (_app o) (_graphics o) (_use_ctypes o)
    (_prim_left o) (_prim_right o) (_cam_left o) (_cam_right o)
    (_viewport_window_left o) (_viewport_window_right o)
    (_meters_per_unit o) (_reference_position o) (_reference_rotation o)
    v (_rectification_quat_right o)
    (_transform_fit o) (_transform_flip o)
    (_callback_action_events o) (_callback_action_pose_events o)
    (_callback_middle_render o) (_callback_render o).

Definition set__rectification_quat_right (v : Gf.Quatd) (o : OpenXR) : OpenXR :=
  mkOpenXR (_disable_openxr o) (_app o) (_graphics o) (_use_ctypes o)
    (_prim_left o) (_prim_right o) (_cam_left o) (_cam_right o)
    (_viewport_window_left o) (_viewport_window_right o)
    (_meters_per_unit o) (_reference_position o) (_reference_rotation o)
    (_rectification_quat_left o) v
    (_transform_fit o) (_transform_flip o)
    (_callback_action_events o) (_callback_action_pose_events o)
    (_callback_middle_render o) (_callback_render o).

Definition set__transform (fit : bool) (flip : option flip_axis) (o : OpenXR) : OpenXR :=
  mkOpenXR (_disable_openxr o) (_app o) (_graphics o) (_use_ctypes o)
    (_prim_left o) (_prim_right o) (_cam_left o) (_cam_right o)
    (_viewport_window_left o) (_viewport_window_right o)
    (_meters_per_unit o) (_reference_position o) (_reference_rotation o)
    (_rectification_quat_left o) (_rectification_quat_right o)
    fit flip
    (_callback_action_events o) (_callback_action_pose_events o)
    (_callback_middle_render o) (_callback_render o).

Definition set__callback_action_events
    (v : gmap string (option callback)) (o : OpenXR) : OpenXR :=
  mkOpenXR (_disable_openxr o) (_app o) (_graphics o) (_use_ctypes o)
    (_prim_left o) (_prim_right o) (_cam_left o) (_cam_right o)
    (_viewport_window_left o) (_viewport_window_right o)
    (_meters_per_unit o) (_reference_position o) (_reference_rotation o)
    (_rectification_quat_left o) (_rectification_quat_right o)
    (_transform_fit o) (_transform_flip o)
    v (_callback_action_pose_events o)
    (_callback_middle_render o) (_callback_render o).

Definition set__callback_action_pose_events
    (v : gmap string (option callback)) (o : OpenXR) : OpenXR :=
  mkOpenXR (_disable_openxr o) (_app o) (_graphics o) (_use_ctypes o)
    (_prim_left o) (_prim_right o) (_cam_left o) (_cam_right o)
    (_viewport_window_left o) (_viewport_window_right o)
    (_meters_per_unit o) (_reference_position o) (_reference_rotation o)
    (_rectification_quat_left o) (_rectification_quat_right o)
    (_transform_fit o) (_transform_flip o)
    (_callback_action_events o) v
    (_callback_middle_render o) (_callback_render o).

Definition set__callback_render (v : option render_callback) (o : OpenXR) : OpenXR :=
  mkOpenXR (_disable_openxr o) (_app o) (_graphics o) (_use_ctypes o)
    (_prim_left o) (_prim_right o) (_cam_left o) (_cam_right o)
    (_viewport_window_left o) (_viewport_window_right o)
    (_meters_per_unit o) (_reference_position o) (_reference_rotation o)
    (_rectification_quat_left o) (_rectification_quat_right o)
    (_transform_fit o) (_transform_flip o)
    (_callback_action_events o) (_callback_action_pose_events o)
    (_callback_middle_render o) v.

Definition set__callback_middle_render (v : option middle_callback) (o : OpenXR) : OpenXR :=
  mkOpenXR (_disable_openxr o) (_app o) (_graphics o) (_use_ctypes o)
    (_prim_left o) (_prim_right o) (_cam_left o) (_cam_right o)
    (_viewport_window_left o) (_viewport_window_right o)
    (_meters_per_unit o) (_reference_position o) (_reference_rotation o)
    (_rectification_quat_left o) (_rectification_quat_right o)
    (_transform_fit o) (_transform_flip o)
    (_callback_action_events o) (_callback_action_pose_events o)
    v (_callback_render o).

(** The views are set up by [setup_stereo_view], which only talks to the
    scene graph; its effect on [self] is all that is kept. *)
Definition set__views (pl pr cl cr wl wr : option nat) (o : OpenXR) : OpenXR :=
  mkOpenXR (_disable_openxr o) (_app o) (_graphics o) (_use_ctypes o)
    pl pr cl cr wl wr
    (_meters_per_unit o) (_reference_position o) (_reference_rotation o)
    (_rectification_quat_left o) (_rectification_quat_right o)
    (_transform_fit o) (_transform_flip o)
    (_callback_action_events o) (_callback_action_pose_events o)
    (_callback_middle_render o) (_callback_render o).

(** ** The monad of methods: state of [self], trace, exceptions *)

Record world := mkWorld { self : OpenXR; trace : list event }.

Definition M (A : Type) : Type := world -> outcome A * world.

Definition ret {A} (a : A) : M A := fun w => (Ok a, w).

Definition raise {A} (e : exn) : M A := fun w => (Raise e, w).

Definition bind {A B} (m : M A) (k : A -> M B) : M B :=
  fun w =>
    match m w with
    | (Ok a, w') => k a w'
    | (Raise e, w') => (Raise e, w')
    end.

Notation "'do' x <- m ; k" := (bind m (fun x => k))
  (at level 10, x name, m at level 100, k at level 200).
Notation "m ;; k" := (bind m (fun _ => k))
  (at level 100, k at level 200, right associativity).

Definition get_self : M OpenXR := fun w => (Ok (self w), w).

Definition assign (f : OpenXR -> OpenXR) : M unit :=
  fun w => (Ok tt, mkWorld (f (self w)) (trace w)).

Definition emit (e : event) : M unit :=
  fun w => (Ok tt, mkWorld (self w) (trace w ++ [e])).

(** A method call on [self._app] (or on [self._lib] with [self._app]):
    it raises [AttributeError] while the application object is [None],
    and otherwise yields what the runtime answers. *)
Definition call_runtime {A} (answer : A) : M A :=
  do o <- get_self;
  match _app o with
  | None => raise AttributeError
  | Some _ => ret answer
  end.

Definition run {A} (m : M A) (o : OpenXR) : outcome A * world :=
  m (mkWorld o []).

(** ** Session set-up and the per-frame cycle *)

(** [OpenXR.init].  [rt_loaded] tells whether the native libraries could
    be loaded and the application object created; [_lib] and [_app] are
    then assigned one after the other. *)
Definition init (graphics : string) (use_ctypes : bool) (rt_loaded : bool) : M bool :=
  assign (set__use_ctypes use_ctypes) ;;
  (if bool_decide (graphics ∈ ["OpenGL"; XR_KHR_OPENGL_ENABLE_EXTENSION_NAME]) then
     assign (set__graphics (Some XR_KHR_OPENGL_ENABLE_EXTENSION_NAME))
   else if bool_decide (graphics ∈ ["OpenGLES"; XR_KHR_OPENGL_ES_ENABLE_EXTENSION_NAME]) then
     assign (set__graphics (Some XR_KHR_OPENGL_ES_ENABLE_EXTENSION_NAME)) ;;
     raise NotImplementedError
   else if bool_decide (graphics ∈ ["Vulkan"; XR_KHR_VULKAN_ENABLE_EXTENSION_NAME]) then
     assign (set__graphics (Some XR_KHR_VULKAN_ENABLE_EXTENSION_NAME)) ;;
     raise NotImplementedError
   else if bool_decide (graphics ∈ ["D3D11"; XR_KHR_D3D11_ENABLE_EXTENSION_NAME]) then
     assign (set__graphics (Some XR_KHR_D3D11_ENABLE_EXTENSION_NAME)) ;;
     raise NotImplementedError
   else if bool_decide (graphics ∈ ["D3D12"; XR_KHR_D3D12_ENABLE_EXTENSION_NAME]) then
     assign (set__graphics (Some XR_KHR_D3D12_ENABLE_EXTENSION_NAME)) ;;
     raise NotImplementedError
   else raise ValueError) ;;
  do o <- get_self;
  if _disable_openxr o then ret true
  else if rt_loaded then assign (set__app (Some tt)) ;; ret true
  else ret false.

(** [OpenXR.create_instance], for a call whose [api_layers] and
    [extensions] lists hold names.  Past the stub test the code appends
    the graphics extension to [extensions] when it is missing and hands
    the names and lists to the runtime.  The lists are the caller's, or
    the defaults of the function, and no attribute of the object: they
    are not represented, and neither is what the call leaves in them. *)
Definition create_instance (rt_created : bool) : M bool :=
  do o <- get_self;
  if _disable_openxr o then ret true
  else call_runtime rt_created.

(** [OpenXR.get_system]. *)
Definition get_system (form_factor blend_mode view_configuration_type : Z)
    (rt_obtained : bool) : M bool :=
  if negb (bool_decide (form_factor ∈
       [XR_FORM_FACTOR_HEAD_MOUNTED_DISPLAY; XR_FORM_FACTOR_HANDHELD_DISPLAY]))
  then raise ValueError
  else if negb (bool_decide (blend_mode ∈
       [XR_ENVIRONMENT_BLEND_MODE_OPAQUE; XR_ENVIRONMENT_BLEND_MODE_ADDITIVE;
        XR_ENVIRONMENT_BLEND_MODE_ALPHA_BLEND]))
  then raise ValueError
  else if negb (bool_decide (view_configuration_type ∈
       [XR_VIEW_CONFIGURATION_TYPE_PRIMARY_MONO; XR_VIEW_CONFIGURATION_TYPE_PRIMARY_STEREO]))
  then raise ValueError
  else
    do o <- get_self;
    if _disable_openxr o then ret true
    else call_runtime rt_obtained.

(** [OpenXR.create_session]. *)
Definition create_session (rt_created : bool) : M bool :=
  do o <- get_self;
  if _disable_openxr o then ret true
  else call_runtime rt_created.

(** [OpenXR.poll_events]; the runtime answers a result and an exit flag. *)
Definition poll_events (rt_polled : bool * bool) : M bool :=
  do o <- get_self;
  if _disable_openxr o then ret true
  else
    do result <- call_runtime rt_polled;
    ret (fst result && negb (snd result)).

(** [self._callback_action_events[path](path, value)] and its pose twin:
    a missing key raises [KeyError], a stored [None] is not callable. *)
Definition invoke_callback (callbacks : OpenXR -> gmap string (option callback))
    (path : string) (v : value) : M unit :=
  do o <- get_self;
  match callbacks o !! path with
  | None => raise KeyError
  | Some None => raise TypeError
  | Some (Some cb) => emit (Invoke cb path v)
  end.

(** The value chosen in the body of the [poll_actions] loops, [None] for
    the two types that [continue]. *)
Definition decode_action (state : ActionState) : option value :=
  if (as_type state =? XR_ACTION_TYPE_BOOLEAN_INPUT)%Z then
    Some (VBool (stateBool state))
  else if (as_type state =? XR_ACTION_TYPE_FLOAT_INPUT)%Z then
    Some (VFloat (stateFloat state))
  else if (as_type state =? XR_ACTION_TYPE_VECTOR2F_INPUT)%Z then
    Some (VVector2 (stateVectorX state) (stateVectorY state))
  else if (as_type state =? XR_ACTION_TYPE_POSE_INPUT)%Z then None
  else if (as_type state =? XR_ACTION_TYPE_VIBRATION_OUTPUT)%Z then None
  else Some VNone.

(** The [for state in ...] loop of [poll_actions].  Only the ctypes loop
    has the [if not state.type: break] test. *)
Fixpoint poll_actions_loop (use_ctypes : bool) (states : list ActionState) : M unit :=
  match states with
  | [] => ret tt
  | state :: rest =>
      if use_ctypes && (as_type state =? 0)%Z then ret tt
      else
        match decode_action state with
        | None => poll_actions_loop use_ctypes rest
        | Some v =>
            invoke_callback _callback_action_events (as_path state) v ;;
            poll_actions_loop use_ctypes rest
        end
  end.

(** [(ActionState * n)()] after the runtime has written [written] into it:
    exactly [n] records, the ones not written left zero. *)
Definition ctypes_array {A} (zero : A) (n : nat) (written : list A) : list A :=
  take n (written ++ replicate n zero).

(** [OpenXR.poll_actions]. *)
Definition poll_actions (rt_result : bool) (rt_states : list ActionState) : M bool :=
  do o <- get_self;
  if _disable_openxr o then ret true
  else if _use_ctypes o then
    do requested_action_states <-
      call_runtime (ctypes_array ActionState_zero
                      (size (_callback_action_events o)) rt_states);
    poll_actions_loop true requested_action_states ;;
    ret rt_result
  else
    do result <- call_runtime (rt_result, rt_states);
    poll_actions_loop false (snd result) ;;
    ret (fst result).

(** The pose conversion written twice in [render_views] and twice in
    [_internal_render]. *)
Definition convert_position (m : R) (p : XrVector3f) : Gf.Vec3d :=
  Gf.vec_div (Gf.mkVec3d (px p) (- pz p) (py p)) m.

Definition convert_orientation (q : XrQuaternionf) : Gf.Quatd :=
  Gf.mkQuatd (qw q) (qx q) (qy q) (qz q).

(** The [for state in ...] loop of [render_views], the same on both
    transports. *)
Fixpoint render_views_loop (states : list ActionPoseState) : M unit :=
  match states with
  | [] => ret tt
  | state :: rest =>
      (if (aps_type state =? XR_ACTION_TYPE_POSE_INPUT)%Z && aps_isActive state then
         do o <- get_self;
         let v := VPose (convert_position (_meters_per_unit o) (position (aps_pose state)))
                        (convert_orientation (orientation (aps_pose state))) in
         invoke_callback _callback_action_pose_events (aps_path state) v
       else ret tt) ;;
      render_views_loop rest
  end.

(** [OpenXR.subscribe_render_event]. *)
Definition subscribe_render_event (cb : option callback) : M unit :=
  let callback :=
    match cb with
    | None => InternalRender
    | Some f => UserRender f
    end in
  assign (set__callback_render (Some callback)) ;;
  do o <- get_self;
  if _disable_openxr o then ret tt
  else
    assign (set__callback_middle_render
              (Some (if _use_ctypes o then CFunction callback else MiddleCallback))) ;;
    call_runtime tt.

(** The preview branch of [render_views] for one eye; the camera is taken
    to deliver its image. *)
Definition preview (window cam : OpenXR -> option nat) (title : string) : M unit :=
  do o <- get_self;
  match window o with
  | None => ret tt
  | Some _ =>
      match cam o with
      | None => raise AttributeError
      | Some _ => emit (ImShow title)
      end
  end.

(** [OpenXR.render_views]. *)
Definition render_views (reference_space : Z) (rt_result : bool)
    (rt_states : list ActionPoseState) : M bool :=
  do o <- get_self;
  (match _callback_render o with
   | None => subscribe_render_event None
   | Some _ => ret tt
   end) ;;
  do o <- get_self;
  if _disable_openxr o then
    preview _viewport_window_left _cam_left "frame_left" ;;
    preview _viewport_window_right _cam_right "frame_right" ;;
    ret true
  else if _use_ctypes o then
    do requested_action_pose_states <-
      call_runtime (ctypes_array ActionPoseState_zero
                      (size (_callback_action_pose_events o)) rt_states);
    render_views_loop requested_action_pose_states ;;
    ret rt_result
  else
    do result <- call_runtime (rt_result, rt_states);
    render_views_loop (snd result) ;;
    ret (fst result).

(** ** Action registry *)

(** [str.split(sep)] for a one-character separator. *)
Fixpoint split_from (sep : ascii) (current : string) (s : string) : list string :=
  match s with
  | EmptyString => [current]
  | String c rest =>
      if Ascii.eqb c sep then current :: split_from sep EmptyString rest
      else split_from sep (current +:+ String c EmptyString) rest
  end.

Definition split (sep : ascii) (s : string) : list string :=
  split_from sep EmptyString s.

(** [path.split("/")[-1]]. *)
Definition last_segment (path : string) : string :=
  List.last (split "/"%char path) EmptyString.

(** The [if action_type is None] block of [subscribe_action_event]. *)
Definition infer_action_type (path : string) : outcome Z :=
  if bool_decide (last_segment path ∈ ["click"; "touch"]) then
    Ok XR_ACTION_TYPE_BOOLEAN_INPUT
  else if bool_decide (last_segment path ∈ ["value"; "force"]) then
    Ok XR_ACTION_TYPE_FLOAT_INPUT
  else if bool_decide (last_segment path ∈ ["x"; "y"]) then
    Ok XR_ACTION_TYPE_VECTOR2F_INPUT
  else if bool_decide (last_segment path ∈ ["pose"]) then
    Ok XR_ACTION_TYPE_POSE_INPUT
  else if bool_decide (last_segment path ∈
            ["haptic"; "haptic_left"; "haptic_right";
             "haptic_left_trigger"; "haptic_right_trigger"]) then
    Ok XR_ACTION_TYPE_VIBRATION_OUTPUT
  else Raise ValueError.

(** [OpenXR.subscribe_action_event]. *)
Definition subscribe_action_event (path : string) (cb : option callback)
    (action_type : option Z) (reference_space : option Z) (rt_added : bool) : M bool :=
  do action_type <-
    match action_type with
    | Some t => ret t
    | None =>
        match infer_action_type path with
        | Ok t => ret t
        | Raise e => raise e
        end
    end;
  if bool_decide (cb = None) && negb (action_type =? XR_ACTION_TYPE_VIBRATION_OUTPUT)%Z
  then raise ValueError
  else
    do o <- get_self;
    assign (set__callback_action_events (<[path := cb]> (_callback_action_events o))) ;;
    (if (action_type =? XR_ACTION_TYPE_POSE_INPUT)%Z then
       do o <- get_self;
       assign (set__callback_action_pose_events
                 (<[path := cb]> (_callback_action_pose_events o)))
     else ret tt) ;;
    do o <- get_self;
    if _disable_openxr o then ret true
    else call_runtime rt_added.

(** ** Configuration of the pose pipeline *)

(** [OpenXR.set_reference_system_pose]. *)
Definition set_reference_system_pose (pos rot : option Gf.Vec3d) : M unit :=
  assign (set__reference pos rot).

(** Truth value of a Python float: anything but zero. *)
Definition truthy (a : R) : bool := if Req_dec_T a 0 then false else true.

(** [self._rectification_quat_left *= q] and its right twin. *)
Definition imul_left (q : Gf.Quatd) : M unit :=
  do o <- get_self;
  assign (set__rectification_quat_left (Gf.quat_mul (_rectification_quat_left o) q)).

Definition imul_right (q : Gf.Quatd) : M unit :=
  do o <- get_self;
  assign (set__rectification_quat_right (Gf.quat_mul (_rectification_quat_right o) q)).

(** [OpenXR.set_stereo_rectification]. *)
Definition set_stereo_rectification (x y z : R) : M unit :=
  assign (set__rectification_quat_left (Gf.mkQuatd 1 0 0 0)) ;;
  assign (set__rectification_quat_right (Gf.mkQuatd 1 0 0 0)) ;;
  (if truthy x then
     imul_left (Gf.mkQuatd (cos (x / 2)) (sin (x / 2)) 0 0) ;;
     imul_right (Gf.mkQuatd (cos (- x / 2)) (sin (- x / 2)) 0 0)
   else ret tt) ;;
  (if truthy y then
     imul_left (Gf.mkQuatd (cos (y / 2)) 0 (sin (y / 2)) 0) ;;
     imul_right (Gf.mkQuatd (cos (- y / 2)) 0 (sin (- y / 2)) 0)
   else ret tt) ;;
  (if truthy z then
     imul_left (Gf.mkQuatd (cos (z / 2)) 0 0 (sin (z / 2))) ;;
     imul_right (Gf.mkQuatd (cos (- z / 2)) 0 0 (sin (- z / 2)))
   else ret tt).

(** [OpenXR.set_meters_per_unit]. *)
Definition set_meters_per_unit (meters_per_unit : R) : M unit :=
  if Req_dec_T meters_per_unit 0 then raise AssertionError
  else assign (set__meters_per_unit meters_per_unit).

(** [OpenXR.set_frame_transformations]. *)
Definition set_frame_transformations (fit : bool) (flip : option flip_axis) : M unit :=
  assign (set__transform fit flip).

(** ** The internal render callback *)

(** [OpenXR.teleport_prim], seen from the scene graph: the translate
    operation receives the reference position plus the position, the
    rotate operation is written only when a reference rotation is given,
    and the transform operation receives the rotation. *)
Definition teleport_prim (target : option prim) (pos : Gf.Vec3d) (rot : Gf.Quatd)
    (reference_position reference_rotation : option Gf.Vec3d) : M unit :=
  match target with
  | None => raise AttributeError
  | Some p =>
      emit (Teleport p
              match reference_position with
              | Some r => Gf.vec_add r pos
              | None => pos
              end
              reference_rotation rot)
  end.

(** [OpenXR.get_recommended_resolutions]; [rt_ok] is the status of the
    ctypes call. *)
Definition get_recommended_resolutions (rt_ok : bool)
    (rt_views : list XrViewConfigurationView) : M (list (nat * nat)) :=
  do o <- get_self;
  if _disable_openxr o then ret [(512, 512); (1024, 1024)]%nat
  else
    do views <- call_runtime rt_views;
    if _use_ctypes o && negb rt_ok then ret []
    else ret (map (fun v => (recommendedImageRectWidth v, recommendedImageRectHeight v)) views).

(** The [views] argument of a render callback.  On the pybind11 transport
    [_middle_callback] builds a Python list; on the ctypes transport the
    runtime calls the C function pointer with a [POINTER(XrView)], which
    is null or gives access to the memory behind it: indexing a null
    pointer raises [ValueError], indexing any other reads the cell at that
    offset, whatever the length of the array the runtime filled. *)
Inductive view_array :=
| ViewList (views : list XrView)
| ViewPointer (memory : option (nat -> XrView)).

#[warning="-uniform-inheritance"]
Coercion ViewList : list >-> view_array.

(** [views[i]]. *)
Definition view_at (views : view_array) (i : nat) : M XrView :=
  match views with
  | ViewList l =>
      match l !! i with
      | Some v => ret v
      | None => raise IndexError
      end
  | ViewPointer None => raise ValueError
  | ViewPointer (Some memory) => ret (memory i)
  end.

(** [_internal_render], the callback that [subscribe_render_event]
    installs by default.  After the teleports and the resolution query the
    source reads the two cameras and submits the frames inside a
    [try]/[except Exception] block, which neither raises nor touches the
    pose pipeline; that block is left out. *)
Definition _internal_render (num_views : Z) (views : view_array)
    (rt_ok : bool) (rt_views : list XrViewConfigurationView) : M unit :=
  do o <- get_self;
  (do v <- view_at views 0%nat;
   teleport_prim (_prim_left o)
     (convert_position (_meters_per_unit o) (position (view_pose v)))
     (Gf.quat_mul (convert_orientation (orientation (view_pose v)))
                  (_rectification_quat_left o))
     (_reference_position o) (_reference_rotation o)) ;;
  (if (num_views =? 2)%Z then
     do v <- view_at views 1%nat;
     teleport_prim (_prim_right o)
       (convert_position (_meters_per_unit o) (position (view_pose v)))
       (Gf.quat_mul (convert_orientation (orientation (view_pose v)))
                    (_rectification_quat_right o))
       (_reference_position o) (_reference_rotation o)
   else ret tt) ;;
  get_recommended_resolutions rt_ok rt_views ;;
  ret tt.

(** ** Frames

    An image is a list of rows of pixels, a pixel the list of its channel
    bytes.  A numpy array is a window on a buffer of the heap: [np.flip]
    and slicing return views that share the buffer of their argument,
    [cv2.resize] and [np.array(..., copy=True)] allocate. *)

Definition pixel := list Z.
Definition image := list (list pixel).

Definition shape0 (img : image) : nat := length img.
Definition shape1 (img : image) : nat :=
  match img with
  | [] => 0
  | row :: _ => length row
  end.

Inductive view_op :=
| Flipped (axis : nat)
| Columns (m : nat)
| Rows (m : nat).

Record ndarray := mkNdarray { base : nat; view : list view_op }.

Abbreviation heap := (list image).

(** [l[m:-m]] for [m >= 0]. *)
Definition py_slice {A} (m : nat) (l : list A) : list A :=
  if (m =? 0)%nat then [] else take (length l - m - m) (drop m l).

Definition flip_content (axis : nat) (img : image) : image :=
  match axis with
  | 0%nat => rev img
  | 1%nat => map (@rev pixel) img
  | _ => map (map (@rev Z)) img
  end.

Definition apply_view_op (img : image) (op : view_op) : image :=
  match op with
  | Flipped axis => flip_content axis img
  | Columns m => map (py_slice m) img
  | Rows m => py_slice m img
  end.

(** What an array shows of the heap. *)
Definition content (h : heap) (a : ndarray) : option image :=
  match h !! base a with
  | None => None
  | Some img => Some (fold_left apply_view_op (view a) img)
  end.

Definition alloc (h : heap) (img : image) : ndarray * heap :=
  (mkNdarray (length h) [], h ++ [img]).

(** An axis of a three-dimensional array, counted from the end when
    negative. *)
Definition normalize_axis_index (a : Z) : outcome nat :=
  if ((-3 <=? a) && (a <? 3))%Z then Ok (Z.to_nat (a mod 3)) else Raise AxisError.

Fixpoint normalize_axes (axes : list Z) : outcome (list nat) :=
  match axes with
  | [] => Ok []
  | a :: rest =>
      match normalize_axis_index a with
      | Raise e => Raise e
      | Ok n =>
          match normalize_axes rest with
          | Raise e => Raise e
          | Ok ns => if bool_decide (n ∈ ns) then Raise ValueError else Ok (n :: ns)
          end
      end
  end.

Definition normalize_axis_tuple (axis : flip_axis) : outcome (list nat) :=
  match axis with
  | FlipInt a =>
      match normalize_axis_index a with
      | Raise e => Raise e
      | Ok n => Ok [n]
      end
  | FlipTuple axes => normalize_axes axes
  end.

(** [np.flip(frame, axis=...)]: a view of the same buffer. *)
Definition np_flip (frame : ndarray) (axis : flip_axis) : outcome ndarray :=
  match normalize_axis_tuple axis with
  | Raise e => Raise e
  | Ok axes => Ok (mkNdarray (base frame) (view frame ++ map Flipped axes))
  end.

(** Python's [float] in the aspect-ratio arithmetic: IEEE 754 binary64.
    [float_of_nat] is the conversion of an [int] operand, to the nearest
    double. *)
Definition float_of_nat (n : nat) : float :=
  SF2Prim (binary_normalize prec emax (Z.of_nat n) 0 false).

(** The quotient of two positive integers, rounded once to the nearest
    double. *)
Definition true_div (a b : nat) : float :=
  SF2Prim (SFdiv prec emax (S754_finite false (Z.to_pos (Z.of_nat a)) 0)
                           (S754_finite false (Z.to_pos (Z.of_nat b)) 0)).

(** [a / b] on two [int]: a zero divisor raises, a zero dividend gives
    [0.0], otherwise the quotient of the two integers is rounded once. *)
Definition py_div_int (a b : nat) : outcome float :=
  if (b =? 0)%nat then Raise ZeroDivisionError
  else if (a =? 0)%nat then Ok PrimFloat.zero
  else Ok (true_div a b).

(** [a / b] with a [float] divisor. *)
Definition py_div (a b : float) : outcome float :=
  if PrimFloat.eqb b PrimFloat.zero then Raise ZeroDivisionError
  else Ok (PrimFloat.div a b).

(** [int(x)]: truncation towards zero. *)
Definition py_int (x : float) : outcome Z :=
  match Prim2SF x with
  | S754_zero _ => Ok 0%Z
  | S754_finite s m e =>
      let magnitude :=
        if (0 <=? e)%Z then (Z.pos m * 2 ^ e)%Z else (Z.pos m / 2 ^ (- e))%Z in
      Ok (if s then (- magnitude)%Z else magnitude)
  | S754_infinity _ => Raise OverflowError
  | S754_nan => Raise ValueError
  end.

Section Transform.
(** The pixels [cv2.resize] computes with [INTER_LINEAR] for a source
    image and a target width and height. *)
Variable interpolate : image -> nat -> nat -> image.

(** [cv2.resize(src, dsize, interpolation=cv2.INTER_LINEAR)]: a new
    array; an empty source or an empty size is an error. *)
Definition cv2_resize (h : heap) (src : ndarray) (dsize : nat * nat)
    : outcome (ndarray * heap) :=
  match content h src with
  | None => Raise Cv2Error
  | Some img =>
      if (shape0 img =? 0)%nat || (shape1 img =? 0)%nat
         || (fst dsize =? 0)%nat || (snd dsize =? 0)%nat
      then Raise Cv2Error
      else Ok (alloc h (interpolate img (fst dsize) (snd dsize)))
  end.

(** The body of [if self._transform_fit:]. *)
Definition fit (h : heap) (configuration_view : XrViewConfigurationView)
    (frame : ndarray) : outcome (ndarray * heap) :=
  match content h frame with
  | None => Raise Cv2Error
  | Some img =>
      match py_div_int (shape1 img) (shape0 img) with
      | Raise e => Raise e
      | Ok current_ratio =>
      match py_div_int (recommendedImageRectWidth configuration_view)
                       (recommendedImageRectHeight configuration_view) with
      | Raise e => Raise e
      | Ok recommended_ratio =>
          let recommended_size :=
            (recommendedImageRectWidth configuration_view,
             recommendedImageRectHeight configuration_view) in
          if PrimFloat.ltb recommended_ratio current_ratio then
            match py_int (PrimFloat.abs (recommended_ratio * float_of_nat (shape0 img)
                                         - float_of_nat (shape1 img)) / 2)%float with
            | Raise e => Raise e
            | Ok m =>
                cv2_resize h
                  (if (m =? 0)%Z then frame
                   else mkNdarray (base frame) (view frame ++ [Columns (Z.to_nat m)]))
                  recommended_size
            end
          else
            match py_div (float_of_nat (shape1 img)) recommended_ratio with
            | Raise e => Raise e
            | Ok scaled =>
                match py_int (PrimFloat.abs (scaled - float_of_nat (shape0 img)) / 2)%float with
                | Raise e => Raise e
                | Ok m =>
                    cv2_resize h
                      (if (m =? 0)%Z then frame
                       else mkNdarray (base frame) (view frame ++ [Rows (Z.to_nat m)]))
                      recommended_size
                end
            end
      end
      end
  end.

(** [OpenXR._transform]. *)
Definition _transform (o : OpenXR) (h : heap)
    (configuration_view : XrViewConfigurationView) (frame : ndarray)
    : outcome (ndarray * heap) :=
  let transformed := false in
  match
    match _transform_flip o with
    | Some axis =>
        match np_flip frame axis with
        | Raise e => Raise e
        | Ok flipped => Ok (true, flipped)
        end
    | None => Ok (transformed, frame)
    end
  with
  | Raise e => Raise e
  | Ok (transformed, frame) =>
      match
        if _transform_fit o then
          match fit h configuration_view frame with
          | Raise e => Raise e
          | Ok (fitted, h') => Ok (true, fitted, h')
          end
        else Ok (transformed, frame, h)
      with
      | Raise e => Raise e
      | Ok (transformed, frame, h) =>
          if transformed then
            match content h frame with
            | None => Raise Cv2Error
            | Some img => Ok (alloc h img)
            end
          else Ok (frame, h)
      end
  end.
End Transform.

(** ** Sequences of calls on the facade *)

Inductive call :=
| Call_init (graphics : string) (use_ctypes : bool) (rt_loaded : bool)
| Call_create_instance (rt_created : bool)
| Call_get_system (form_factor blend_mode view_configuration_type : Z) (rt_obtained : bool)
| Call_create_session (rt_created : bool)
| Call_poll_events (rt_polled : bool * bool)
| Call_poll_actions (rt_result : bool) (rt_states : list ActionState)
| Call_render_views (reference_space : Z) (rt_result : bool)
                    (rt_states : list ActionPoseState)
| Call_subscribe_action_event (path : string) (cb : option callback)
                              (action_type reference_space : option Z) (rt_added : bool)
| Call_subscribe_render_event (cb : option callback)
| Call_set_reference_system_pose (pos rot : option Gf.Vec3d)
| Call_set_stereo_rectification (x y z : R)
| Call_set_meters_per_unit (meters_per_unit : R)
| Call_set_frame_transformations (fit : bool) (flip : option flip_axis)
| Call_setup_stereo_view (prim_left prim_right cam_left cam_right
                          window_left window_right : option nat).

Definition discard {A} (m : M A) : M unit := do _ <- m; ret tt.

Definition perform (c : call) : M unit :=
  match c with
  | Call_init g u l => discard (init g u l)
  | Call_create_instance r => discard (create_instance r)
  | Call_get_system f b v r => discard (get_system f b v r)
  | Call_create_session r => discard (create_session r)
  | Call_poll_events r => discard (poll_events r)
  | Call_poll_actions r s => discard (poll_actions r s)
  | Call_render_views rs r s => discard (render_views rs r s)
  | Call_subscribe_action_event p cb t rs r => discard (subscribe_action_event p cb t rs r)
  | Call_subscribe_render_event cb => subscribe_render_event cb
  | Call_set_reference_system_pose p r => set_reference_system_pose p r
  | Call_set_stereo_rectification x y z => set_stereo_rectification x y z
  | Call_set_meters_per_unit m => set_meters_per_unit m
  | Call_set_frame_transformations f fl => set_frame_transformations f fl
  | Call_setup_stereo_view pl pr cl cr wl wr => assign (set__views pl pr cl cr wl wr)
  end.

(** The caller goes on after an exception: the state a call leaves behind
    is the state the next call finds. *)
Definition perform_all (calls : list call) (w : world) : world :=
  fold_left (fun w c => snd (perform c w)) calls w.

(** The states of [self] a caller can bring about. *)
Definition reachable (o : OpenXR) : Prop :=
  exists disable_openxr calls,
    o = self (perform_all calls (mkWorld (acquire_openxr_interface disable_openxr) [])).

(** ** Further methods: shutdown, session status, haptics, frame submission *)

Definition XR_NO_DURATION : Z := 0.
Definition XR_INFINITE_DURATION : Z := 2 ^ 32.
Definition XR_MIN_HAPTIC_DURATION : Z := -1.
Definition XR_FREQUENCY_UNSPECIFIED : Z := 0.

(** [OpenXR.destroy].  With an application object the runtime's answer is
    returned at once; the two assignments, of [_lib] and of [_app], are
    reached only without one. *)
Definition destroy (rt_destroyed : bool) : M bool :=
  do o <- get_self;
  match _app o with
  | Some _ => call_runtime rt_destroyed
  | None => assign (set__app None) ;; ret true
  end.

(** [OpenXR.is_session_running]. *)
Definition is_session_running (rt_running : bool) : M bool :=
  do o <- get_self;
  if _disable_openxr o then ret true
  else call_runtime rt_running.

(** A Python number, as the values of a haptic dictionary are. *)
Inductive number :=
| Int (z : Z)
| Float (f : R).

(** [ctypes.c_float(v)] and [ctypes.c_int64(v)]: the first takes any
    number, the second takes integers only and keeps their low 64 bits,
    read as a signed value. *)
Definition c_float (v : number) : R :=
  match v with
  | Int z => IZR z
  | Float f => f
  end.

Definition c_int64 (v : number) : outcome Z :=
  match v with
  | Int z => Ok ((z + 2 ^ 63) mod 2 ^ 64 - 2 ^ 63)%Z
  | Float _ => Raise TypeError
  end.

(** The three values [apply_haptic_feedback] hands to the runtime:
    amplitude, duration and frequency, read from the dictionary with their
    defaults and, on the ctypes transport, converted. *)
Definition haptic_arguments (use_ctypes : bool) (haptic_feedback : gmap string number)
    : outcome (number * number * number) :=
  let amplitude := default (Float (1 / 2)) (haptic_feedback !! "amplitude") in
  let duration := default (Int XR_MIN_HAPTIC_DURATION) (haptic_feedback !! "duration") in
  let frequency := default (Int XR_FREQUENCY_UNSPECIFIED) (haptic_feedback !! "frequency") in
  if use_ctypes then
    match c_int64 duration with
    | Raise e => Raise e
    | Ok d => Ok (Float (c_float amplitude), Int d, Float (c_float frequency))
    end
  else Ok (amplitude, duration, frequency).

(** [OpenXR.apply_haptic_feedback]. *)
Definition apply_haptic_feedback (path : string) (haptic_feedback : gmap string number)
    (rt_applied : bool) : M bool :=
  do o <- get_self;
  if _disable_openxr o then ret true
  else
    match haptic_arguments (_use_ctypes o) haptic_feedback with
    | Raise e => raise e
    | Ok _ => call_runtime rt_applied
    end.

(** [OpenXR.stop_haptic_feedback]. *)
Definition stop_haptic_feedback (path : string) (rt_stopped : bool) : M bool :=
  do o <- get_self;
  if _disable_openxr o then ret true
  else call_runtime rt_stopped.

(** [frame.shape[2]] of an image with at least one pixel. *)
Definition shape2 (img : image) : nat :=
  match img with
  | (p :: _) :: _ => length p
  | _ => 0
  end.

(** What [set_frames] leaves behind: its result, the arrays it keeps in
    [self._frame_left] and [self._frame_right] (the ones it submits), the
    flag it submits with them, and the heap. *)
Record submission := mkSubmission {
  submitted : bool;
  frame_left : option ndarray;
  frame_right : option ndarray;
  use_rgba : bool;
  heap_after : heap
}.

(** [OpenXR.set_frames].  The two transports differ only in how the
    arrays are handed over.  In stub mode nothing is kept. *)
Definition set_frames (interpolate : image -> nat -> nat -> image) (o : OpenXR)
    (h : heap) (configuration_views : list XrViewConfigurationView)
    (left : ndarray) (right : option ndarray) (rt_set : bool) : outcome submission :=
  match content h left with
  | None => Raise IndexError
  | Some left_image =>
      let use_rgba := (shape2 left_image =? 4)%nat in
      if _disable_openxr o then Ok (mkSubmission true None None use_rgba h)
      else
        match configuration_views !! 0%nat with
        | None => Raise IndexError
        | Some view0 =>
            match _transform interpolate o h view0 left with
            | Raise e => Raise e
            | Ok (frame_left, h) =>
                match right with
                | None =>
                    match _app o with
                    | None => Raise AttributeError
                    | Some _ => Ok (mkSubmission rt_set (Some frame_left) None use_rgba h)
                    end
                | Some right_frame =>
                    match configuration_views !! 1%nat with
                    | None => Raise IndexError
                    | Some view1 =>
                        match _transform interpolate o h view1 right_frame with
                        | Raise e => Raise e
                        | Ok (frame_right, h) =>
                            match _app o with
                            | None => Raise AttributeError
                            | Some _ =>
                                Ok (mkSubmission rt_set (Some frame_left)
                                      (Some frame_right) use_rgba h)
                            end
                        end
                    end
                end
            end
        end
  end.

(** ** Reference descriptions used by the statements below *)

(** Host-space pose of a tracking pose, as the specification writes it. *)
Definition host_position (m : R) (P : XrVector3f) : Gf.Vec3d :=
  Gf.mkVec3d (px P / m) (- pz P / m) (py P / m).

Definition host_orientation (q : XrQuaternionf) : Gf.Quatd :=
  Gf.mkQuatd (qw q) (qx q) (qy q) (qz q).

(** The callback invocations one render cycle owes to a list of pose
    records: one per active pose-typed record, in order. *)
Definition pose_dispatch (o : OpenXR) (state : ActionPoseState) : list event :=
  if (aps_type state =? XR_ACTION_TYPE_POSE_INPUT)%Z && aps_isActive state then
    match _callback_action_pose_events o !! aps_path state with
    | Some (Some cb) =>
        [Invoke cb (aps_path state)
           (VPose (host_position (_meters_per_unit o) (position (aps_pose state)))
                  (host_orientation (orientation (aps_pose state))))]
    | _ => []
    end
  else [].

(** Every active pose-typed record names a path with a callback. *)
Definition pose_registered (o : OpenXR) (state : ActionPoseState) : bool :=
  if (aps_type state =? XR_ACTION_TYPE_POSE_INPUT)%Z && aps_isActive state then
    match _callback_action_pose_events o !! aps_path state with
    | Some (Some _) => true
    | _ => false
    end
  else true.

(** The factor [quat(cos(a/2), sin(a/2)·axis)] of the rectification, for
    the axes X (0), Y (1) and Z (2). *)
Definition axis_quat (axis : nat) (a : R) : Gf.Quatd :=
  match axis with
  | 0%nat => Gf.mkQuatd (cos (a / 2)) (sin (a / 2)) 0 0
  | 1%nat => Gf.mkQuatd (cos (a / 2)) 0 (sin (a / 2)) 0
  | _ => Gf.mkQuatd (cos (a / 2)) 0 0 (sin (a / 2))
  end.

(** One step of the composition: a non-zero angle multiplies the running
    product on the right, a zero angle leaves it alone. *)
Definition rectify_step (axis : nat) (a : R) (q : Gf.Quatd) : Gf.Quatd :=
  if truthy a then Gf.quat_mul q (axis_quat axis a) else q.

(** What every call keeps true of [self]: the unit scale is not zero and
    every path of the pose map is a path of the action map. *)
Definition facade_invariant (o : OpenXR) : Prop :=
  _meters_per_unit o <> 0%R
  /\ dom (_callback_action_pose_events o) ⊆ dom (_callback_action_events o).

(** A computation keeps a property of [self], whether it returns or
    raises. *)
Definition preserves {A} (I : OpenXR -> Prop) (m : M A) : Prop :=
  forall w, I (self w) -> I (self (snd (m w))).

(** The action type [subscribe_action_event] works with: the one given,
    or else the one inferred from the path. *)
Definition resolved_action_type (path : string) (action_type : option Z) : outcome Z :=
  match action_type with
  | Some t => Ok t
  | None => infer_action_type path
  end.

(** Whether a character occurs in a string. *)
Fixpoint occurs (c : ascii) (s : string) : bool :=
  match s with
  | EmptyString => false
  | String c' rest => Ascii.eqb c' c || occurs c rest
  end.

(** The suffixes from which an action type is inferred. *)
Definition known_suffixes : list string :=
  ["click"; "touch"; "value"; "force"; "x"; "y"; "pose";
   "haptic"; "haptic_left"; "haptic_right"; "haptic_left_trigger"; "haptic_right_trigger"].

(** The records one poll cycle looks at: all of them on the pybind11
    transport, those before the first record without a type on the ctypes
    transport. *)
Fixpoint scan_prefix (states : list ActionState) : list ActionState :=
  match states with
  | [] => []
  | state :: rest =>
      if (as_type state =? 0)%Z then [] else state :: scan_prefix rest
  end.

Definition scanned (use_ctypes : bool) (states : list ActionState) : list ActionState :=
  if use_ctypes then scan_prefix states else states.

(** The callback invocation one poll cycle owes to a record: none for a
    pose or a vibration record, one with the decoded value otherwise. *)
Definition action_dispatch (o : OpenXR) (state : ActionState) : list event :=
  match decode_action state with
  | None => []
  | Some v =>
      match _callback_action_events o !! as_path state with
      | Some (Some cb) => [Invoke cb (as_path state) v]
      | _ => []
      end
  end.

(** The record is not dispatched, or it names a path with a callback. *)
Definition action_registered (o : OpenXR) (state : ActionState) : bool :=
  match decode_action state with
  | None => true
  | Some _ =>
      match _callback_action_events o !! as_path state with
      | Some (Some _) => true
      | _ => false
      end
  end.

(** Set-up followed by one cycle of the frame loop. *)
Definition setup_and_cycle (use_ctypes rt_loaded rt_instance rt_system rt_session : bool)
    (rt_events : bool * bool) (rt_actions : bool) (rt_action_states : list ActionState)
    (rt_render : bool) (rt_pose_states : list ActionPoseState) : M (list bool) :=
  do initialized <- init "OpenGL" use_ctypes rt_loaded;
  do instance <- create_instance rt_instance;
  do system <- get_system XR_FORM_FACTOR_HEAD_MOUNTED_DISPLAY
                 XR_ENVIRONMENT_BLEND_MODE_OPAQUE
                 XR_VIEW_CONFIGURATION_TYPE_PRIMARY_STEREO rt_system;
  do session <- create_session rt_session;
  do events <- poll_events rt_events;
  do actions <- poll_actions rt_actions rt_action_states;
  do rendered <- render_views XR_REFERENCE_SPACE_TYPE_LOCAL rt_render rt_pose_states;
  ret [initialized; instance; system; session; events; actions; rendered].

(** An image of [h] rows of [w] pixels each. *)
Definition rectangular (img : image) (h w : nat) : bool :=
  (length img =? h)%nat && forallb (fun row => (length row =? w)%nat) img.

(** Symmetric crops: [m] columns off the left and the right, [m] rows off
    the top and the bottom. *)
Definition crop_columns (m : nat) (img : image) : image :=
  map (fun row => take (length row - 2 * m) (drop m row)) img.

Definition crop_rows (m : nat) (img : image) : image :=
  take (length img - 2 * m) (drop m img).

(** The image the fit transform computes for a frame that shows [img]:
    what [fit] answers on a heap that holds [img] alone. *)
Definition fitted_image (interpolate : image -> nat -> nat -> image) (img : image)
    (configuration_view : XrViewConfigurationView) : outcome image :=
  match fit interpolate [img] configuration_view (mkNdarray 0 []) with
  | Raise e => Raise e
  | Ok (out, h') =>
      match content h' out with
      | Some scaled => Ok scaled
      | None => Raise Cv2Error
      end
  end.

(** An image mirrored along each of the given axes in turn. *)
Definition flipped (axes : list nat) (img : image) : image :=
  fold_left (fun acc axis => flip_content axis acc) axes img.

(** The axes configured by [set_frame_transformations], none when no flip
    is configured. *)
Definition flip_axes (o : OpenXR) : outcome (list nat) :=
  match _transform_flip o with
  | None => Ok []
  | Some axis => normalize_axis_tuple axis
  end.

(** The squared norm of a quaternion and its conjugate. *)
Definition norm2 (q : Gf.Quatd) : R :=
  (Gf.real q * Gf.real q + Gf.imag_i q * Gf.imag_i q
   + Gf.imag_j q * Gf.imag_j q + Gf.imag_k q * Gf.imag_k q)%R.

Definition conjugate (q : Gf.Quatd) : Gf.Quatd :=
  Gf.mkQuatd (Gf.real q) (- Gf.imag_i q) (- Gf.imag_j q) (- Gf.imag_k q).

(** The arguments [get_system] accepts. *)
Definition valid_system (form_factor blend_mode view_configuration_type : Z) : Prop :=
  form_factor ∈ [XR_FORM_FACTOR_HEAD_MOUNTED_DISPLAY; XR_FORM_FACTOR_HANDHELD_DISPLAY]
  /\ blend_mode ∈ [XR_ENVIRONMENT_BLEND_MODE_OPAQUE; XR_ENVIRONMENT_BLEND_MODE_ADDITIVE;
                   XR_ENVIRONMENT_BLEND_MODE_ALPHA_BLEND]
  /\ view_configuration_type ∈
       [XR_VIEW_CONFIGURATION_TYPE_PRIMARY_MONO; XR_VIEW_CONFIGURATION_TYPE_PRIMARY_STEREO].

(** The graphics names [init] knows but does not implement. *)
Definition unimplemented_graphics : list string :=
  ["OpenGLES"; XR_KHR_OPENGL_ES_ENABLE_EXTENSION_NAME;
   "Vulkan"; XR_KHR_VULKAN_ENABLE_EXTENSION_NAME;
   "D3D11"; XR_KHR_D3D11_ENABLE_EXTENSION_NAME;
   "D3D12"; XR_KHR_D3D12_ENABLE_EXTENSION_NAME].

(** Whether a call is a call of [init]. *)
Definition is_init (c : call) : bool :=
  match c with
  | Call_init _ _ _ => true
  | _ => false
  end.

(** [render_views] after its first statement: the preview in stub mode,
    the runtime call and the dispatch of the pose records otherwise. *)
Definition render_dispatch (rt_result : bool) (rt_states : list ActionPoseState)
    : M bool :=
  do o <- get_self;
  if _disable_openxr o then
    preview _viewport_window_left _cam_left "frame_left" ;;
    preview _viewport_window_right _cam_right "frame_right" ;;
    ret true
  else if _use_ctypes o then
    do requested_action_pose_states <-
      call_runtime (ctypes_array ActionPoseState_zero
                      (size (_callback_action_pose_events o)) rt_states);
    render_views_loop requested_action_pose_states ;;
    ret rt_result
  else
    do result <- call_runtime (rt_result, rt_states);
    render_views_loop (snd result) ;;
    ret (fst result).

(** The render callback in place after [render_views]. *)
Definition installed (o : OpenXR) : render_callback :=
  match _callback_render o with
  | Some c => c
  | None => InternalRender
  end.

(** The object after the first [render_views]: with no render callback
    registered, the internal one is installed and, unless the runtime is
    disabled, the transport's wrapper is recorded with it. *)
Definition with_render_callback (o : OpenXR) : OpenXR :=
  match _callback_render o with
  | Some _ => o
  | None =>
      let installed := set__callback_render (Some InternalRender) o in
      if _disable_openxr o then installed
      else set__callback_middle_render
             (Some (if _use_ctypes o then CFunction InternalRender else MiddleCallback))
             installed
  end.

(** Whether a call subscribes an action on the given path. *)
Definition subscribes (path : string) (c : call) : bool :=
  match c with
  | Call_subscribe_action_event p _ _ _ _ => bool_decide (p = path)
  | _ => false
  end.

(** Whether a call is a call of [set_stereo_rectification]. *)
Definition is_rectification (c : call) : bool :=
  match c with
  | Call_set_stereo_rectification _ _ _ => true
  | _ => false
  end.

(** * Properties *)

Ltac run_monad :=
  unfold call_runtime, discard;
  unfold bind, ret, raise, get_self, assign, emit; simpl.

(** ** Pose conversion *)

Lemma convert_position_host (m : R) (P : XrVector3f) :
  convert_position m P = host_position m P.
Proof.
  unfold convert_position, host_position, Gf.vec_div, Gf.vec_scale; simpl.
  f_equal; unfold Rdiv; ring.
Qed.

Lemma convert_orientation_host (q : XrQuaternionf) :
  convert_orientation q = host_orientation q.
Proof. reflexivity. Qed.

Lemma quat_mul_identity_r (q : Gf.Quatd) : Gf.quat_mul q (Gf.mkQuatd 1 0 0 0) = q.
Proof.
  destruct q as [a b c d]; unfold Gf.quat_mul; simpl.
  f_equal; ring.
Qed.

Lemma quat_mul_identity_l (q : Gf.Quatd) : Gf.quat_mul (Gf.mkQuatd 1 0 0 0) q = q.
Proof.
  destruct q as [a b c d]; unfold Gf.quat_mul; simpl.
  f_equal; ring.
Qed.

Lemma render_views_loop_trace (states : list ActionPoseState) (w : world) :
  forallb (pose_registered (self w)) states = true ->
  render_views_loop states w =
    (Ok tt, mkWorld (self w) (trace w ++ flat_map (pose_dispatch (self w)) states)).
Proof.
  revert w; induction states as [|state rest IH]; intros w Hreg.
  - simpl. unfold ret. rewrite app_nil_r. by destruct w.
  - simpl in Hreg. apply andb_prop in Hreg as [Hstate Hrest].
    simpl. unfold pose_registered in Hstate. unfold pose_dispatch at 1.
    unfold bind at 1.
    destruct ((aps_type state =? XR_ACTION_TYPE_POSE_INPUT)%Z && aps_isActive state).
    + unfold invoke_callback. run_monad.
      destruct (_callback_action_pose_events (self w) !! aps_path state)
        as [[cb|]|]; try discriminate.
      rewrite IH by exact Hrest. simpl.
      rewrite convert_position_host, convert_orientation_host.
      by rewrite <- app_assoc.
    + run_monad. rewrite IH by exact Hrest. by destruct w.
Qed.

(** C1.  For every tracking pose and every non-zero scale [m], the
    position handed on by the pose pipeline is [(P.x, -P.z, P.y) / m] and
    the orientation is the tracking quaternion with its real component
    moved to the front: the callbacks that [render_views] dispatches
    receive exactly these two values, and the internal render callback
    teleports each camera to this position (offset by the reference
    position) with this orientation composed with the eye's rectification
    quaternion, which is the orientation itself while the rectification is
    the identity.  [(1, 2, 3)] with [m = 1] becomes [(1, -3, 2)]. *)
Theorem C1_pose_conversion (w : world) (m : R) :
  _meters_per_unit (self w) = m ->
  m <> 0%R ->
  (forall P, convert_position m P = Gf.mkVec3d (px P / m) (- pz P / m) (py P / m))
  /\ (forall q, convert_orientation q = Gf.mkQuatd (qw q) (qx q) (qy q) (qz q))
  /\ (forall states,
        forallb (pose_registered (self w)) states = true ->
        render_views_loop states w =
          (Ok tt, mkWorld (self w) (trace w ++ flat_map (pose_dispatch (self w)) states)))
  /\ (forall path cb q P,
        _callback_action_pose_events (self w) !! path = Some (Some cb) ->
        pose_dispatch (self w) (mkActionPoseState XR_ACTION_TYPE_POSE_INPUT path true
                                  (mkXrPosef q P)) =
          [Invoke cb path
             (VPose (Gf.mkVec3d (px P / m) (- pz P / m) (py P / m))
                    (Gf.mkQuatd (qw q) (qx q) (qy q) (qz q)))])
  /\ (forall target q P fv rt_ok rt_views,
        _prim_left (self w) = Some target ->
        trace (snd (_internal_render 1 [mkXrView (mkXrPosef q P) fv] rt_ok rt_views w)) =
          trace w ++
          [Teleport target
             match _reference_position (self w) with
             | Some r => Gf.vec_add r (Gf.mkVec3d (px P / m) (- pz P / m) (py P / m))
             | None => Gf.mkVec3d (px P / m) (- pz P / m) (py P / m)
             end
             (_reference_rotation (self w))
             (Gf.quat_mul (Gf.mkQuatd (qw q) (qx q) (qy q) (qz q))
                          (_rectification_quat_left (self w)))])
  /\ (forall left right q P q' P' fv fv' rt_ok rt_views,
        _prim_left (self w) = Some left ->
        _prim_right (self w) = Some right ->
        _reference_position (self w) = None ->
        trace (snd (_internal_render 2 [mkXrView (mkXrPosef q P) fv;
                                         mkXrView (mkXrPosef q' P') fv']
                      rt_ok rt_views w)) =
          trace w ++
          [Teleport left (Gf.mkVec3d (px P / m) (- pz P / m) (py P / m))
             (_reference_rotation (self w))
             (Gf.quat_mul (Gf.mkQuatd (qw q) (qx q) (qy q) (qz q))
                          (_rectification_quat_left (self w)));
           Teleport right (Gf.mkVec3d (px P' / m) (- pz P' / m) (py P' / m))
             (_reference_rotation (self w))
             (Gf.quat_mul (Gf.mkQuatd (qw q') (qx q') (qy q') (qz q'))
                          (_rectification_quat_right (self w)))])
  /\ (forall q, Gf.quat_mul (Gf.mkQuatd (qw q) (qx q) (qy q) (qz q)) (Gf.mkQuatd 1 0 0 0)
                = Gf.mkQuatd (qw q) (qx q) (qy q) (qz q))
  /\ (m = 1%R -> convert_position m (mkXrVector3f 1 2 3) = Gf.mkVec3d 1 (-3) 2).
Proof.
  intros Hm Hne. repeat split.
  - intros P. apply convert_position_host.
  - intros states Hreg. by apply render_views_loop_trace.
  - intros path cb q P Hcb. unfold pose_dispatch; simpl. by rewrite Hcb, Hm.
  - intros target q P fv rt_ok rt_views Hprim.
    unfold _internal_render, view_at, teleport_prim, get_recommended_resolutions.
    run_monad. rewrite Hprim. simpl.
    rewrite convert_position_host, Hm. unfold host_position; simpl.
    destruct (_disable_openxr (self w)); simpl; [reflexivity|].
    run_monad.
    destruct (_app (self w)); simpl; [|reflexivity].
    destruct (_use_ctypes (self w) && negb rt_ok); reflexivity.
  - intros left right q P q' P' fv fv' rt_ok rt_views Hleft Hright Href.
    unfold _internal_render, view_at, teleport_prim, get_recommended_resolutions.
    run_monad. rewrite Hleft, Hright, Href. simpl.
    rewrite !convert_position_host, Hm. unfold host_position; simpl.
    rewrite <- app_assoc. simpl.
    destruct (_disable_openxr (self w)); simpl; [reflexivity|].
    run_monad.
    destruct (_app (self w)); simpl; [|reflexivity].
    destruct (_use_ctypes (self w) && negb rt_ok); reflexivity.
  - intros q. apply quat_mul_identity_r.
  - intros ->. rewrite convert_position_host. unfold host_position; simpl.
    f_equal; lra.
Qed.

Lemma C1_pose_conversion_witness :
  let grip := "/user/hand/left/input/grip/pose" in
  let w := mkWorld
             (set__callback_action_pose_events {[ grip := Some 7%nat ]}
                (acquire_openxr_interface false)) [] in
  _meters_per_unit (self w) = 1%R
  /\ 1%R <> 0%R
  /\ convert_position 1 (mkXrVector3f 1 2 3) = Gf.mkVec3d (1 / 1) (- 3 / 1) (2 / 1)
  /\ pose_dispatch (self w)
       (mkActionPoseState XR_ACTION_TYPE_POSE_INPUT grip true
          (mkXrPosef (mkXrQuaternionf 0 0 0 1) (mkXrVector3f 1 2 3))) =
       [Invoke 7%nat grip
          (VPose (Gf.mkVec3d (1 / 1) (- 3 / 1) (2 / 1)) (Gf.mkQuatd 1 0 0 0))].
Proof.
  intros grip w.
  destruct (C1_pose_conversion w 1%R eq_refl R1_neq_R0)
    as (Hposition & _ & _ & Hdispatch & _).
  split; [reflexivity|]. split; [exact R1_neq_R0|].
  split; [exact (Hposition (mkXrVector3f 1 2 3))|].
  exact (Hdispatch grip 7%nat (mkXrQuaternionf 0 0 0 1) (mkXrVector3f 1 2 3) eq_refl).
Defined.

(** ** Stereo rectification *)

Lemma set_stereo_rectification_steps (x y z : R) (w : world) :
  let r := set_stereo_rectification x y z w in
  fst r = Ok tt
  /\ trace (snd r) = trace w
  /\ _rectification_quat_left (self (snd r)) =
       rectify_step 2 z (rectify_step 1 y (rectify_step 0 x (Gf.mkQuatd 1 0 0 0)))
  /\ _rectification_quat_right (self (snd r)) =
       rectify_step 2 (- z) (rectify_step 1 (- y) (rectify_step 0 (- x) (Gf.mkQuatd 1 0 0 0))).
Proof.
  assert (Hneg : forall a, truthy (- a) = truthy a).
  { intros a. unfold truthy.
    destruct (Req_dec_T a 0), (Req_dec_T (- a) 0); try reflexivity; exfalso; lra. }
  unfold rectify_step. rewrite !Hneg.
  unfold set_stereo_rectification, imul_left, imul_right. run_monad.
  destruct (truthy x), (truthy y), (truthy z); simpl; repeat split; reflexivity.
Qed.

Lemma axis_quat_zero (axis : nat) : axis_quat axis 0 = Gf.mkQuatd 1 0 0 0.
Proof.
  unfold axis_quat.
  replace (0 / 2)%R with 0%R by lra. rewrite cos_0, sin_0.
  by destruct axis as [|[|?]].
Qed.

Lemma truthy_false (a : R) : truthy a = false -> a = 0%R.
Proof. unfold truthy. by destruct (Req_dec_T a 0). Qed.

Lemma truthy_true (a : R) : a <> 0%R -> truthy a = true.
Proof. unfold truthy. by destruct (Req_dec_T a 0). Qed.

Lemma rectify_step_mul (axis : nat) (a : R) (q : Gf.Quatd) :
  rectify_step axis a q = Gf.quat_mul q (axis_quat axis a).
Proof.
  unfold rectify_step. destruct (truthy a) eqn:Ha; [reflexivity|].
  apply truthy_false in Ha. subst a.
  by rewrite axis_quat_zero, quat_mul_identity_r.
Qed.

Lemma sin_quarter_turn_pos : (0 < sin (PI / 2 / 2))%R.
Proof. apply sin_gt_0; pose proof PI_RGT_0; lra. Qed.

(** C2.  [set_stereo_rectification x y z] forgets the previous pair and
    rebuilds both quaternions from the identity, X first, then Y, then Z,
    skipping zero angles: the left one is multiplied by
    [quat(cos(a/2), sin(a/2)·axis)], the right one by the same with the
    angle negated.  With zero angles both are the identity; [x = π] gives
    [(0, 1, 0, 0)] on the left and [(0, -1, 0, 0)] on the right; and
    [x = y = π/2] differs from the product taken with Y before X. *)
Theorem C2_stereo_rectification (w : world) (x y z : R) :
  let left := fun x y z =>
    _rectification_quat_left (self (snd (set_stereo_rectification x y z w))) in
  let right := fun x y z =>
    _rectification_quat_right (self (snd (set_stereo_rectification x y z w))) in
  fst (set_stereo_rectification x y z w) = Ok tt
  /\ left x y z =
       rectify_step 2 z (rectify_step 1 y (rectify_step 0 x (Gf.mkQuatd 1 0 0 0)))
  /\ right x y z =
       rectify_step 2 (- z) (rectify_step 1 (- y) (rectify_step 0 (- x) (Gf.mkQuatd 1 0 0 0)))
  /\ left x y z =
       Gf.quat_mul (Gf.quat_mul (axis_quat 0 x) (axis_quat 1 y)) (axis_quat 2 z)
  /\ right x y z =
       Gf.quat_mul (Gf.quat_mul (axis_quat 0 (- x)) (axis_quat 1 (- y))) (axis_quat 2 (- z))
  /\ left 0%R 0%R 0%R = Gf.mkQuatd 1 0 0 0
  /\ right 0%R 0%R 0%R = Gf.mkQuatd 1 0 0 0
  /\ left PI 0%R 0%R = Gf.mkQuatd 0 1 0 0
  /\ right PI 0%R 0%R = Gf.mkQuatd 0 (-1) 0 0
  /\ left (PI / 2)%R (PI / 2)%R 0%R <>
       Gf.quat_mul (Gf.quat_mul (Gf.mkQuatd 1 0 0 0) (axis_quat 1 (PI / 2)))
                   (axis_quat 0 (PI / 2)).
Proof.
  intros left right.
  assert (Hl : forall a b c, left a b c =
            Gf.quat_mul (Gf.quat_mul (axis_quat 0 a) (axis_quat 1 b)) (axis_quat 2 c)).
  { intros a b c. unfold left.
    destruct (set_stereo_rectification_steps a b c w) as (_ & _ & -> & _).
    by rewrite !rectify_step_mul, quat_mul_identity_l. }
  assert (Hr : forall a b c, right a b c =
            Gf.quat_mul (Gf.quat_mul (axis_quat 0 (- a)) (axis_quat 1 (- b)))
                        (axis_quat 2 (- c))).
  { intros a b c. unfold right.
    destruct (set_stereo_rectification_steps a b c w) as (_ & _ & _ & ->).
    by rewrite !rectify_step_mul, quat_mul_identity_l. }
  destruct (set_stereo_rectification_steps x y z w) as (Hok & _ & Hleft & Hright).
  split; [exact Hok|]. split; [exact Hleft|]. split; [exact Hright|].
  split; [apply Hl|]. split; [apply Hr|].
  split; [|split; [|split; [|split]]].
  - rewrite Hl, !axis_quat_zero. by rewrite !quat_mul_identity_l.
  - rewrite Hr. replace (- 0)%R with 0%R by lra.
    rewrite !axis_quat_zero. by rewrite !quat_mul_identity_l.
  - rewrite Hl, !axis_quat_zero, !quat_mul_identity_r.
    unfold axis_quat. by rewrite cos_PI2, sin_PI2.
  - rewrite Hr. replace (- 0)%R with 0%R by lra.
    rewrite !axis_quat_zero, !quat_mul_identity_r.
    unfold axis_quat. replace (- PI / 2)%R with (- (PI / 2))%R by lra.
    by rewrite cos_neg, sin_neg, cos_PI2, sin_PI2.
  - rewrite Hl, axis_quat_zero, quat_mul_identity_r, quat_mul_identity_l.
    intros Heq. apply (f_equal Gf.imag_k) in Heq.
    unfold axis_quat, Gf.quat_mul in Heq; simpl in Heq.
    pose proof sin_quarter_turn_pos as Hs.
    nra.
Qed.

(** ** What the calls preserve *)

Section Preservation.
Variable I : OpenXR -> Prop.

Lemma preserves_ret {A} (a : A) : preserves I (ret a).
Proof. by intros w. Qed.

Lemma preserves_raise {A} (e : exn) : preserves I (@raise A e).
Proof. by intros w. Qed.

Lemma preserves_get_self : preserves I get_self.
Proof. by intros w. Qed.

Lemma preserves_emit (e : event) : preserves I (emit e).
Proof. by intros w. Qed.

Lemma preserves_assign (f : OpenXR -> OpenXR) :
  (forall o, I o -> I (f o)) -> preserves I (assign f).
Proof. intros Hf w Hw. by apply Hf. Qed.

Lemma preserves_bind {A B} (m : M A) (k : A -> M B) :
  preserves I m -> (forall a, preserves I (k a)) -> preserves I (bind m k).
Proof.
  intros Hm Hk w Hw. unfold bind.
  specialize (Hm w Hw). destruct (m w) as [[a|e] w']; simpl in *.
  - by apply Hk.
  - exact Hm.
Qed.

Lemma preserves_call_runtime {A} (answer : A) : preserves I (call_runtime answer).
Proof.
  intros w Hw. unfold call_runtime. run_monad. by destruct (_app (self w)).
Qed.

Lemma preserves_invoke_callback callbacks path v :
  preserves I (invoke_callback callbacks path v).
Proof.
  intros w Hw. unfold invoke_callback. run_monad.
  by destruct (callbacks (self w) !! path) as [[cb|]|].
Qed.
End Preservation.

Ltac preserve_step :=
  first
    [ apply preserves_ret
    | apply preserves_raise
    | apply preserves_get_self
    | apply preserves_emit
    | apply preserves_call_runtime
    | apply preserves_invoke_callback
    | apply preserves_bind; [|intros ?]
    | match goal with
      | |- preserves _ (if ?b then _ else _) => destruct b
      | |- preserves _ (match ?x with _ => _ end) => destruct x
      end ].

Ltac preserve := repeat preserve_step.

Lemma preserves_poll_actions_loop I use_ctypes states :
  preserves I (poll_actions_loop use_ctypes states).
Proof.
  induction states as [|state rest IH]; simpl; preserve; exact IH.
Qed.

Lemma preserves_render_views_loop I states :
  preserves I (render_views_loop states).
Proof.
  induction states as [|state rest IH]; simpl; preserve; exact IH.
Qed.

Lemma dom_subseteq_insert_r (p e : gmap string (option callback)) path cb :
  dom p ⊆ dom e -> dom p ⊆ dom (<[path := cb]> e).
Proof. intros H. etrans; [exact H | apply dom_insert_subseteq]. Qed.

Lemma dom_subseteq_insert_both (p e : gmap string (option callback)) path cb cb' :
  dom p ⊆ dom e -> dom (<[path := cb]> p) ⊆ dom (<[path := cb']> e).
Proof. intros H. rewrite !dom_insert_L. by apply union_mono_l. Qed.

Lemma invariant_subscribe_action_event path cb action_type reference_space rt_added :
  preserves facade_invariant
    (subscribe_action_event path cb action_type reference_space rt_added).
Proof.
  intros w [Hm Hdom]. unfold subscribe_action_event.
  assert (Hgo : forall t,
    facade_invariant (self (snd (
      (if bool_decide (cb = None) && negb (t =? XR_ACTION_TYPE_VIBRATION_OUTPUT)%Z
       then raise ValueError
       else
         do o <- get_self;
         assign (set__callback_action_events (<[path := cb]> (_callback_action_events o))) ;;
         (if (t =? XR_ACTION_TYPE_POSE_INPUT)%Z then
            do o <- get_self;
            assign (set__callback_action_pose_events
                      (<[path := cb]> (_callback_action_pose_events o)))
          else ret tt) ;;
         do o <- get_self;
         if _disable_openxr o then ret true
         else call_runtime rt_added) w)))).
  { intros t.
    destruct (bool_decide (cb = None) && negb (t =? XR_ACTION_TYPE_VIBRATION_OUTPUT)%Z).
    - by split.
    - run_monad.
      destruct (t =? XR_ACTION_TYPE_POSE_INPUT)%Z; simpl;
        destruct (_disable_openxr (self w)); simpl;
        try destruct (_app (self w)); simpl;
        (split; [exact Hm |]);
        first [ by apply dom_subseteq_insert_both | by apply dom_subseteq_insert_r ]. }
  destruct action_type as [t|].
  - exact (Hgo t).
  - unfold bind at 1. destruct (infer_action_type path) as [t|e].
    + exact (Hgo t).
    + by split.
Qed.

Ltac preserve_frame :=
  repeat first
    [ preserve_step
    | apply preserves_poll_actions_loop
    | apply preserves_render_views_loop
    | apply preserves_assign; let o := fresh "o" in
                              let H := fresh "H" in intros o H; exact H ].

Lemma invariant_perform (c : call) : preserves facade_invariant (perform c).
Proof.
  destruct c; simpl.
  - unfold discard, init. preserve_frame.
  - unfold discard, create_instance. preserve_frame.
  - unfold discard, get_system. preserve_frame.
  - unfold discard, create_session. preserve_frame.
  - unfold discard, poll_events. preserve_frame.
  - unfold discard, poll_actions. preserve_frame.
  - unfold discard, render_views, subscribe_render_event, preview. preserve_frame.
  - unfold discard. apply preserves_bind; [|intros ?; apply preserves_ret].
    apply invariant_subscribe_action_event.
  - unfold subscribe_render_event. preserve_frame.
  - unfold set_reference_system_pose. preserve_frame.
  - unfold set_stereo_rectification, imul_left, imul_right. preserve_frame.
  - unfold set_meters_per_unit.
    destruct (Req_dec_T meters_per_unit 0) as [|Hne]; [apply preserves_raise|].
    apply preserves_assign. intros o [_ Hdom]. by split.
  - unfold set_frame_transformations. preserve_frame.
  - preserve_frame.
Qed.

Lemma invariant_perform_all (calls : list call) (w : world) :
  facade_invariant (self w) -> facade_invariant (self (perform_all calls w)).
Proof.
  revert w. induction calls as [|c calls IH]; intros w Hw; [exact Hw|].
  simpl. apply IH. by apply invariant_perform.
Qed.

Lemma invariant_acquire (disable_openxr : bool) :
  facade_invariant (acquire_openxr_interface disable_openxr).
Proof. split; simpl; [exact R1_neq_R0 | done]. Qed.

Lemma invariant_reachable (o : OpenXR) : reachable o -> facade_invariant o.
Proof.
  intros (d & calls & ->). apply invariant_perform_all. apply invariant_acquire.
Qed.

(** ** Unit scale *)

(** C8.  [set_meters_per_unit 0] fails at the call, with an assertion
    error and [self] untouched; every non-zero value is stored as given;
    and since no other call writes the scale, it is non-zero in every
    state a caller can bring about, so that no pose conversion ever
    divides by zero. *)
Theorem C8_meters_per_unit (w : world) :
  set_meters_per_unit 0 w = (Raise AssertionError, w)
  /\ (forall m, m <> 0%R ->
        fst (set_meters_per_unit m w) = Ok tt
        /\ _meters_per_unit (self (snd (set_meters_per_unit m w))) = m)
  /\ (forall o, reachable o -> _meters_per_unit o <> 0%R).
Proof.
  split; [|split].
  - unfold set_meters_per_unit. by destruct (Req_dec_T 0 0).
  - intros m Hm. unfold set_meters_per_unit.
    by destruct (Req_dec_T m 0).
  - intros o Ho. by destruct (invariant_reachable o Ho).
Qed.

Lemma C8_meters_per_unit_witness :
  let w := mkWorld (acquire_openxr_interface false) [] in
  (2 <> 0)%R
  /\ fst (set_meters_per_unit 2 w) = Ok tt
  /\ _meters_per_unit (self (snd (set_meters_per_unit 2 w))) = 2%R.
Proof.
  intros w.
  assert (H : (2 <> 0)%R) by lra.
  split; [exact H|].
  exact (proj1 (proj2 (C8_meters_per_unit w)) 2%R H).
Defined.

(** ** Action registry *)

Lemma append_empty_r (s : string) : s +:+ EmptyString = s.
Proof.
  induction s as [|c rest IH]; [done|].
  change (String c (rest +:+ EmptyString) = String c rest). by rewrite IH.
Qed.

Lemma append_snoc (s rest : string) (c : ascii) :
  (s +:+ String c EmptyString) +:+ rest = s +:+ String c rest.
Proof.
  induction s as [|c' s IH]; [done|].
  change (String c' ((s +:+ String c EmptyString) +:+ rest)
          = String c' (s +:+ String c rest)).
  by rewrite IH.
Qed.

Lemma split_from_no_separator (sep : ascii) (s current : string) :
  occurs sep s = false -> split_from sep current s = [current +:+ s].
Proof.
  revert current. induction s as [|c rest IH]; intros current Hs; simpl in *.
  - by rewrite append_empty_r.
  - apply orb_false_elim in Hs as [Hc Hrest]. rewrite Hc.
    rewrite IH by exact Hrest. by rewrite append_snoc.
Qed.

Lemma split_from_not_nil (sep : ascii) (s current : string) :
  split_from sep current s <> [].
Proof.
  revert current. induction s as [|c rest IH]; intros current; simpl; [done|].
  destruct (Ascii.eqb c sep); [done | apply IH].
Qed.

Lemma last_cons_not_nil {A} (x : A) (l : list A) (d : A) :
  l <> [] -> List.last (x :: l) d = List.last l d.
Proof. by destruct l. Qed.

Lemma last_segment_of_path (prefix segment : string) :
  occurs "/"%char segment = false ->
  last_segment (prefix +:+ String "/"%char segment) = segment.
Proof.
  intros Hseg. unfold last_segment, split.
  assert (H : forall current d,
             List.last (split_from "/"%char current
                          (prefix +:+ String "/"%char segment)) d = segment);
    [|apply H].
  induction prefix as [|c rest IH]; intros current d.
  - change (EmptyString +:+ String "/"%char segment) with (String "/"%char segment).
    simpl. rewrite split_from_no_separator by exact Hseg. reflexivity.
  - change (String c rest +:+ String "/"%char segment)
      with (String c (rest +:+ String "/"%char segment)).
    simpl. destruct (Ascii.eqb c "/"%char).
    + rewrite last_cons_not_nil by apply split_from_not_nil. apply IH.
    + apply IH.
Qed.

Lemma subscribe_action_event_effect (w : world) (path : string) (cb : option callback)
    (action_type reference_space : option Z) (rt_added : bool) (t : Z) :
  resolved_action_type path action_type = Ok t ->
  (cb = None -> t = XR_ACTION_TYPE_VIBRATION_OUTPUT) ->
  let r := subscribe_action_event path cb action_type reference_space rt_added w in
  _callback_action_events (self (snd r)) =
    <[path := cb]> (_callback_action_events (self w))
  /\ _callback_action_pose_events (self (snd r)) =
       (if (t =? XR_ACTION_TYPE_POSE_INPUT)%Z
        then <[path := cb]> (_callback_action_pose_events (self w))
        else _callback_action_pose_events (self w))
  /\ fst r =
       (if _disable_openxr (self w) then Ok true
        else match _app (self w) with
             | Some _ => Ok rt_added
             | None => Raise AttributeError
             end)
  /\ trace (snd r) = trace w.
Proof.
  intros Ht Hcb r. subst r. unfold subscribe_action_event.
  assert (Hguard : bool_decide (cb = None)
                   && negb (t =? XR_ACTION_TYPE_VIBRATION_OUTPUT)%Z = false).
  { destruct cb as [f|]; [reflexivity|].
    rewrite (Hcb eq_refl). reflexivity. }
  assert (Hresolve :
    (match action_type with
     | Some t0 => ret t0
     | None => match infer_action_type path with
               | Ok t0 => ret t0
               | Raise e => raise e
               end
     end) w = (Ok t, w)).
  { destruct action_type as [t0|]; simpl in Ht.
    - by inversion Ht.
    - by rewrite Ht. }
  unfold call_runtime, bind. rewrite !Hresolve. simpl. rewrite !Hguard.
  run_monad.
  destruct (t =? XR_ACTION_TYPE_POSE_INPUT)%Z; simpl;
    destruct (_disable_openxr (self w)); simpl;
    try destruct (_app (self w)); simpl; done.
Qed.

Lemma subscribe_action_event_rejected (w : world) (path : string)
    (action_type reference_space : option Z) (rt_added : bool) (t : Z) :
  resolved_action_type path action_type = Ok t ->
  t <> XR_ACTION_TYPE_VIBRATION_OUTPUT ->
  subscribe_action_event path None action_type reference_space rt_added w =
    (Raise ValueError, w).
Proof.
  intros Ht Hne. unfold subscribe_action_event.
  apply Z.eqb_neq in Hne.
  destruct action_type as [t0|]; simpl in Ht.
  - inversion Ht; subst t0. unfold bind, ret. rewrite Hne.
    by rewrite bool_decide_eq_true_2.
  - unfold bind. rewrite Ht. unfold ret. rewrite Hne.
    by rewrite bool_decide_eq_true_2.
Qed.

Lemma subscribe_action_event_uninferred (w : world) (path : string)
    (cb : option callback) (reference_space : option Z) (rt_added : bool) :
  infer_action_type path = Raise ValueError ->
  subscribe_action_event path cb None reference_space rt_added w =
    (Raise ValueError, w).
Proof.
  intros Hinfer. unfold subscribe_action_event, bind. by rewrite Hinfer.
Qed.

Ltac decide_suffix :=
  repeat match goal with
         | H : _ ∈ _ :: _ |- _ => apply elem_of_cons in H as [H|H]
         | H : _ ∈ [] |- _ => by apply elem_of_nil in H
         | H : ¬ _ ∈ _ :: _ |- _ => apply not_elem_of_cons in H as [? H]
         | H : ?s = String _ _ |- _ => subst s
         end.

Lemma infer_action_type_classes (path : string) :
  let s := last_segment path in
  (infer_action_type path = Ok XR_ACTION_TYPE_BOOLEAN_INPUT <-> s ∈ ["click"; "touch"])
  /\ (infer_action_type path = Ok XR_ACTION_TYPE_FLOAT_INPUT <-> s ∈ ["value"; "force"])
  /\ (infer_action_type path = Ok XR_ACTION_TYPE_VECTOR2F_INPUT <-> s ∈ ["x"; "y"])
  /\ (infer_action_type path = Ok XR_ACTION_TYPE_POSE_INPUT <-> s ∈ ["pose"])
  /\ (infer_action_type path = Ok XR_ACTION_TYPE_VIBRATION_OUTPUT <->
        s ∈ ["haptic"; "haptic_left"; "haptic_right";
             "haptic_left_trigger"; "haptic_right_trigger"])
  /\ (infer_action_type path = Raise ValueError <-> s ∉ known_suffixes).
Proof.
  intros s. unfold infer_action_type, known_suffixes. fold s.
  generalize s. clear s path. intros s.
  repeat case_bool_decide;
    repeat split; intros Hx; try discriminate Hx; try done;
    try (exfalso; decide_suffix; discriminate);
    try (decide_suffix; done).
  all: try (exfalso; apply Hx; decide_suffix;
            repeat first [ apply list_elem_of_here | apply list_elem_of_further ]).
  all: try (intros Hin; decide_suffix; congruence).
Qed.

(** C5 (as the code has it).  Without an explicit action type the type
    is read off the last path segment by the five suffix classes, and any
    other segment is a configuration error that leaves [self] untouched;
    a missing callback is a configuration error for every type but
    vibration output; for a vibration output the callback is optional:
    with or without one the subscription is accepted and recorded. *)
Theorem C5_action_type_and_callback (w : world) (path : string)
    (cb : option callback) (reference_space : option Z) (rt_added : bool) :
  let s := last_segment path in
  (infer_action_type path = Ok XR_ACTION_TYPE_BOOLEAN_INPUT <-> s ∈ ["click"; "touch"])
  /\ (infer_action_type path = Ok XR_ACTION_TYPE_FLOAT_INPUT <-> s ∈ ["value"; "force"])
  /\ (infer_action_type path = Ok XR_ACTION_TYPE_VECTOR2F_INPUT <-> s ∈ ["x"; "y"])
  /\ (infer_action_type path = Ok XR_ACTION_TYPE_POSE_INPUT <-> s ∈ ["pose"])
  /\ (infer_action_type path = Ok XR_ACTION_TYPE_VIBRATION_OUTPUT <->
        s ∈ ["haptic"; "haptic_left"; "haptic_right";
             "haptic_left_trigger"; "haptic_right_trigger"])
  /\ (infer_action_type path = Raise ValueError <-> s ∉ known_suffixes)
  /\ (forall prefix segment,
        occurs "/"%char segment = false ->
        last_segment (prefix +:+ String "/"%char segment) = segment)
  /\ (s ∉ known_suffixes ->
        subscribe_action_event path cb None reference_space rt_added w =
          (Raise ValueError, w))
  /\ (forall action_type t,
        resolved_action_type path action_type = Ok t ->
        t <> XR_ACTION_TYPE_VIBRATION_OUTPUT ->
        subscribe_action_event path None action_type reference_space rt_added w =
          (Raise ValueError, w))
  /\ (forall action_type,
        resolved_action_type path action_type = Ok XR_ACTION_TYPE_VIBRATION_OUTPUT ->
        let r := subscribe_action_event path cb action_type reference_space rt_added w in
        fst r = (if _disable_openxr (self w) then Ok true
                 else match _app (self w) with
                      | Some _ => Ok rt_added
                      | None => Raise AttributeError
                      end)
        /\ _callback_action_events (self (snd r)) !! path = Some cb).
Proof.
  intros s.
  destruct (infer_action_type_classes path) as (H1 & H2 & H3 & H4 & H5 & H6).
  repeat (split; [assumption|]).
  split; [intros prefix segment; apply last_segment_of_path|].
  split; [|split].
  - intros Hs. apply subscribe_action_event_uninferred. by apply H6.
  - intros action_type t Ht Hne. by apply subscribe_action_event_rejected with t.
  - intros action_type Ht r.
    destruct (subscribe_action_event_effect w path cb action_type reference_space
                rt_added _ Ht (fun _ => eq_refl)) as (Hev & _ & Hret & _).
    split; [exact Hret|].
    subst r. rewrite Hev. apply lookup_insert_eq.
Qed.

Lemma C5_action_type_and_callback_witness :
  let w := mkWorld (acquire_openxr_interface true) [] in
  resolved_action_type "/user/hand/left/input/trigger/value" None
    = Ok XR_ACTION_TYPE_FLOAT_INPUT
  /\ XR_ACTION_TYPE_FLOAT_INPUT <> XR_ACTION_TYPE_VIBRATION_OUTPUT
  /\ subscribe_action_event "/user/hand/left/input/trigger/value" None None
       (Some 2%Z) true w = (Raise ValueError, w).
Proof.
  intros w.
  assert (Ht : resolved_action_type "/user/hand/left/input/trigger/value" None
               = Ok XR_ACTION_TYPE_FLOAT_INPUT) by reflexivity.
  assert (Hne : XR_ACTION_TYPE_FLOAT_INPUT <> XR_ACTION_TYPE_VIBRATION_OUTPUT)
    by discriminate.
  split; [exact Ht|]. split; [exact Hne|].
  destruct (C5_action_type_and_callback w "/user/hand/left/input/trigger/value"
              None (Some 2%Z) true) as (_ & _ & _ & _ & _ & _ & _ & _ & Hrej & _).
  exact (Hrej None _ Ht Hne).
Defined.

(** A callback supplied for a vibration output is accepted and stored:
    the subscription returns [True]. *)
Lemma C5_counterexample :
  let r := subscribe_action_event "/user/hand/left/output/haptic" (Some 0%nat) None
             (Some 2%Z) true (mkWorld (acquire_openxr_interface true) []) in
  fst r = Ok true
  /\ fst r <> Raise ValueError
  /\ _callback_action_events (self (snd r)) !! "/user/hand/left/output/haptic"
     = Some (Some 0%nat).
Proof.
  simpl. split; [reflexivity|]. split; [discriminate|]. reflexivity.
Qed.

(** C10.  A subscription that passes the argument checks writes the
    callback into the action map, and for a pose action into the pose map
    as well, before the runtime is asked: the entries are there whatever
    the runtime answers, also when it answers [False] and when the call on
    it raises.  The paths of the pose map stay among the paths of the
    action map, after this call and in every state a caller can bring
    about. *)
Theorem C10_registration_persists (w : world) (path : string) (cb : option callback)
    (action_type reference_space : option Z) (rt_added : bool) (t : Z) :
  resolved_action_type path action_type = Ok t ->
  (cb = None -> t = XR_ACTION_TYPE_VIBRATION_OUTPUT) ->
  let r := subscribe_action_event path cb action_type reference_space rt_added w in
  _callback_action_events (self (snd r)) !! path = Some cb
  /\ (t = XR_ACTION_TYPE_POSE_INPUT ->
        _callback_action_pose_events (self (snd r)) !! path = Some cb)
  /\ (_disable_openxr (self w) = false -> _app (self w) = Some tt ->
        fst r = Ok rt_added)
  /\ (_disable_openxr (self w) = false -> _app (self w) = None ->
        fst r = Raise AttributeError)
  /\ (dom (_callback_action_pose_events (self w))
        ⊆ dom (_callback_action_events (self w)) ->
      dom (_callback_action_pose_events (self (snd r)))
        ⊆ dom (_callback_action_events (self (snd r))))
  /\ (forall o, reachable o ->
        dom (_callback_action_pose_events o) ⊆ dom (_callback_action_events o)).
Proof.
  intros Ht Hcb r.
  destruct (subscribe_action_event_effect w path cb action_type reference_space
              rt_added t Ht Hcb) as (Hev & Hpose & Hret & _).
  fold r in Hev, Hpose, Hret.
  split; [rewrite Hev; apply lookup_insert_eq|].
  split; [|split; [|split; [|split]]].
  - intros ->. rewrite Hpose. simpl. apply lookup_insert_eq.
  - intros Hd Happ. by rewrite Hret, Hd, Happ.
  - intros Hd Happ. by rewrite Hret, Hd, Happ.
  - intros Hdom. rewrite Hev, Hpose.
    destruct (t =? XR_ACTION_TYPE_POSE_INPUT)%Z.
    + by apply dom_subseteq_insert_both.
    + by apply dom_subseteq_insert_r.
  - intros o Ho. by destruct (invariant_reachable o Ho).
Qed.

Lemma C10_registration_persists_witness :
  let w := mkWorld (set__app (Some tt) (acquire_openxr_interface false)) [] in
  let r := subscribe_action_event "/user/hand/left/input/grip/pose" (Some 3%nat) None
             (Some 2%Z) false w in
  resolved_action_type "/user/hand/left/input/grip/pose" None
    = Ok XR_ACTION_TYPE_POSE_INPUT
  /\ fst r = Ok false
  /\ _callback_action_events (self (snd r)) !! "/user/hand/left/input/grip/pose"
     = Some (Some 3%nat)
  /\ _callback_action_pose_events (self (snd r)) !! "/user/hand/left/input/grip/pose"
     = Some (Some 3%nat).
Proof.
  intros w r.
  assert (Ht : resolved_action_type "/user/hand/left/input/grip/pose" None
               = Ok XR_ACTION_TYPE_POSE_INPUT) by reflexivity.
  destruct (C10_registration_persists w "/user/hand/left/input/grip/pose" (Some 3%nat)
              None (Some 2%Z) false XR_ACTION_TYPE_POSE_INPUT Ht
              ltac:(discriminate))
    as (Hev & Hpose & Hret & _).
  split; [exact Ht|].
  split; [exact (Hret eq_refl eq_refl)|].
  split; [exact Hev | exact (Hpose eq_refl)].
Defined.

(** ** Session facade *)

Lemma valid_system_arguments (form_factor blend_mode view_configuration_type : Z) :
  form_factor ∈ [XR_FORM_FACTOR_HEAD_MOUNTED_DISPLAY; XR_FORM_FACTOR_HANDHELD_DISPLAY] ->
  blend_mode ∈ [XR_ENVIRONMENT_BLEND_MODE_OPAQUE; XR_ENVIRONMENT_BLEND_MODE_ADDITIVE;
                XR_ENVIRONMENT_BLEND_MODE_ALPHA_BLEND] ->
  view_configuration_type ∈
    [XR_VIEW_CONFIGURATION_TYPE_PRIMARY_MONO; XR_VIEW_CONFIGURATION_TYPE_PRIMARY_STEREO] ->
  forall rt_obtained w,
    get_system form_factor blend_mode view_configuration_type rt_obtained w =
      (if _disable_openxr (self w) then (Ok true, w)
       else match _app (self w) with
            | Some _ => (Ok rt_obtained, w)
            | None => (Raise AttributeError, w)
            end).
Proof.
  intros Hf Hb Hv rt_obtained w. unfold get_system.
  rewrite !bool_decide_eq_true_2 by assumption. simpl.
  run_monad. destruct (_disable_openxr (self w)); [done|].
  by destruct (_app (self w)).
Qed.

Lemma create_session_result (rt_created : bool) (w : world) :
  create_session rt_created w =
    (if _disable_openxr (self w) then (Ok true, w)
     else match _app (self w) with
          | Some _ => (Ok rt_created, w)
          | None => (Raise AttributeError, w)
          end).
Proof.
  unfold create_session. run_monad.
  destruct (_disable_openxr (self w)); [done|]. by destruct (_app (self w)).
Qed.

Lemma create_instance_result (rt_created : bool) (w : world) :
  create_instance rt_created w =
    (if _disable_openxr (self w) then (Ok true, w)
     else match _app (self w) with
          | Some _ => (Ok rt_created, w)
          | None => (Raise AttributeError, w)
          end).
Proof.
  unfold create_instance. run_monad.
  destruct (_disable_openxr (self w)); [done|]. by destruct (_app (self w)).
Qed.

(** C7 (as the code has it).  The facade makes no check of the set-up
    stage and keeps no record of it: [get_system] with valid arguments
    and [create_session] leave the object as it was, whatever the runtime
    answers.  [create_session] looks at the stub flag and at the
    application object only: in stub mode it returns [True]; with the
    application object created it returns the boolean the runtime
    reports, so that rejecting a call made out of order is left to the
    runtime; without the application object it raises [AttributeError]
    and returns no boolean. *)
Theorem C7_setup_stage_is_the_runtimes (w : world) (rt_system rt_session : bool) :
  let get := get_system XR_FORM_FACTOR_HEAD_MOUNTED_DISPLAY
               XR_ENVIRONMENT_BLEND_MODE_OPAQUE
               XR_VIEW_CONFIGURATION_TYPE_PRIMARY_STEREO rt_system in
  snd (get w) = w
  /\ snd (create_session rt_session w) = w
  /\ (_disable_openxr (self w) = true ->
        fst (get w) = Ok true
        /\ fst (create_session rt_session w) = Ok true)
  /\ (_disable_openxr (self w) = false -> _app (self w) = Some tt ->
        fst (get w) = Ok rt_system
        /\ fst (create_session rt_session w) = Ok rt_session)
  /\ (_disable_openxr (self w) = false -> _app (self w) = None ->
        fst (get w) = Raise AttributeError
        /\ fst (create_session rt_session w) = Raise AttributeError).
Proof.
  intros get.
  assert (Hget : get w =
            (if _disable_openxr (self w) then (Ok true, w)
             else match _app (self w) with
                  | Some _ => (Ok rt_system, w)
                  | None => (Raise AttributeError, w)
                  end)).
  { apply valid_system_arguments; unfold XR_FORM_FACTOR_HEAD_MOUNTED_DISPLAY,
      XR_ENVIRONMENT_BLEND_MODE_OPAQUE, XR_VIEW_CONFIGURATION_TYPE_PRIMARY_STEREO;
      repeat first [ apply list_elem_of_here | apply list_elem_of_further ]. }
  rewrite Hget, create_session_result.
  split; [|split; [|split; [|split]]].
  - destruct (_disable_openxr (self w)); [done|]. by destruct (_app (self w)).
  - destruct (_disable_openxr (self w)); [done|]. by destruct (_app (self w)).
  - intros Hstub. by rewrite Hstub.
  - intros Hstub Happ. by rewrite Hstub, Happ.
  - intros Hstub Happ. by rewrite Hstub, Happ.
Qed.

Lemma C7_setup_stage_is_the_runtimes_witness :
  let w := mkWorld (set__app (Some tt) (acquire_openxr_interface false)) [] in
  _disable_openxr (self w) = false
  /\ _app (self w) = Some tt
  /\ fst (create_session true w) = Ok true
  /\ fst (create_session false w) = Ok false.
Proof.
  intros w. split; [reflexivity|]. split; [reflexivity|].
  split.
  - destruct (C7_setup_stage_is_the_runtimes w false true)
      as (_ & _ & _ & Hrun & _).
    exact (proj2 (Hrun eq_refl eq_refl)).
  - destruct (C7_setup_stage_is_the_runtimes w false false)
      as (_ & _ & _ & Hrun & _).
    exact (proj2 (Hrun eq_refl eq_refl)).
Defined.

(** On a stub object on which [get_system] was never called,
    [create_session] returns [True]. *)
Lemma C7_counterexample :
  fst (run (create_session false) (acquire_openxr_interface true)) = Ok true
  /\ fst (run (create_session false) (acquire_openxr_interface true)) <> Ok false.
Proof. split; [reflexivity | discriminate]. Qed.

(** C9.  On an object acquired with the runtime disabled, initialisation,
    [create_instance], [get_system], [create_session] and one
    [poll_events] / [poll_actions] / [render_views] cycle each return
    [True], whatever the runtime would have answered: it is never asked.
    No action is registered, no callback or scene-graph call is made, and
    the only change to the object is the configuration recorded by [init]
    and the default render callback installed by [render_views]. *)
Theorem C9_stub_cycle (use_ctypes rt_loaded rt_instance rt_system rt_session : bool)
    (rt_events : bool * bool) (rt_actions : bool) (rt_action_states : list ActionState)
    (rt_render : bool) (rt_pose_states : list ActionPoseState) :
  let r := run (setup_and_cycle use_ctypes rt_loaded rt_instance rt_system rt_session
                  rt_events rt_actions rt_action_states rt_render rt_pose_states)
               (acquire_openxr_interface true) in
  fst r = Ok [true; true; true; true; true; true; true]
  /\ _callback_action_events (self (snd r)) = ∅
  /\ _callback_action_pose_events (self (snd r)) = ∅
  /\ trace (snd r) = []
  /\ _app (self (snd r)) = None
  /\ self (snd r) =
       set__callback_render (Some InternalRender)
         (set__graphics (Some XR_KHR_OPENGL_ENABLE_EXTENSION_NAME)
            (set__use_ctypes use_ctypes (acquire_openxr_interface true))).
Proof.
  by repeat split.
Qed.

(** ** Action dispatch *)

Lemma poll_actions_loop_trace (use_ctypes : bool) (states : list ActionState) (w : world) :
  forallb (action_registered (self w)) (scanned use_ctypes states) = true ->
  poll_actions_loop use_ctypes states w =
    (Ok tt, mkWorld (self w)
              (trace w ++ flat_map (action_dispatch (self w)) (scanned use_ctypes states))).
Proof.
  revert w. induction states as [|state rest IH]; intros w Hreg.
  - unfold scanned. destruct use_ctypes; simpl; unfold ret;
      rewrite app_nil_r; by destruct w.
  - simpl. destruct use_ctypes; simpl in *.
    + destruct (as_type state =? 0)%Z; simpl in *.
      * unfold ret. rewrite app_nil_r. by destruct w.
      * apply andb_prop in Hreg as [Hstate Hrest].
        unfold action_registered in Hstate. unfold action_dispatch at 1.
        destruct (decode_action state) as [v|].
        -- unfold invoke_callback. run_monad.
           destruct (_callback_action_events (self w) !! as_path state)
             as [[cb|]|]; try discriminate.
           rewrite (IH (mkWorld (self w) (trace w ++ [Invoke cb (as_path state) v])))
             by exact Hrest.
           simpl. by rewrite <- app_assoc.
        -- rewrite (IH w) by exact Hrest. reflexivity.
    + apply andb_prop in Hreg as [Hstate Hrest].
      unfold action_registered in Hstate. unfold action_dispatch at 1.
      destruct (decode_action state) as [v|].
      * unfold invoke_callback. run_monad.
        destruct (_callback_action_events (self w) !! as_path state)
          as [[cb|]|]; try discriminate.
        rewrite (IH (mkWorld (self w) (trace w ++ [Invoke cb (as_path state) v])))
          by exact Hrest.
        simpl. by rewrite <- app_assoc.
      * rewrite (IH w) by exact Hrest. reflexivity.
Qed.

Lemma scan_prefix_stops (before after : list ActionState) (state : ActionState) :
  as_type state = 0%Z ->
  forallb (fun s => negb (as_type s =? 0)%Z) before = true ->
  scan_prefix (before ++ state :: after) = before.
Proof.
  intros Hzero. induction before as [|s rest IH]; intros Hbefore; simpl in *.
  - by rewrite Hzero.
  - apply andb_prop in Hbefore as [Hs Hrest].
    apply negb_true_iff in Hs. rewrite Hs. by rewrite IH.
Qed.

(** C6.  One [poll_actions] cycle on an initialised object returns the
    runtime's result and calls, in order, the registered callback of each
    record it looks at whose type is boolean, float or vector2, once, with
    the path and the boolean, the float or the pair [(x, y)]; pose and
    vibration records cause no call.  The pybind11 transport looks at
    every record; the ctypes transport stops at the first record whose
    type is zero and calls nothing for the records behind it. *)
Theorem C6_poll_dispatch (w : world) (rt_result : bool) (rt_states : list ActionState) :
  let o := self w in
  let records :=
    if _use_ctypes o
    then scan_prefix (ctypes_array ActionState_zero (size (_callback_action_events o))
                        rt_states)
    else rt_states in
  _disable_openxr o = false ->
  _app o = Some tt ->
  forallb (action_registered o) records = true ->
  poll_actions rt_result rt_states w =
    (Ok rt_result, mkWorld o (trace w ++ flat_map (action_dispatch o) records))
  /\ (forall state cb,
        _callback_action_events o !! as_path state = Some (Some cb) ->
        (as_type state = XR_ACTION_TYPE_BOOLEAN_INPUT ->
           action_dispatch o state = [Invoke cb (as_path state) (VBool (stateBool state))])
        /\ (as_type state = XR_ACTION_TYPE_FLOAT_INPUT ->
              action_dispatch o state =
                [Invoke cb (as_path state) (VFloat (stateFloat state))])
        /\ (as_type state = XR_ACTION_TYPE_VECTOR2F_INPUT ->
              action_dispatch o state =
                [Invoke cb (as_path state)
                   (VVector2 (stateVectorX state) (stateVectorY state))]))
  /\ (forall state,
        as_type state = XR_ACTION_TYPE_POSE_INPUT
        \/ as_type state = XR_ACTION_TYPE_VIBRATION_OUTPUT ->
        action_dispatch o state = [])
  /\ (forall before state after,
        as_type state = 0%Z ->
        forallb (fun s => negb (as_type s =? 0)%Z) before = true ->
        forallb (action_registered o) before = true ->
        poll_actions_loop true (before ++ state :: after) w =
          (Ok tt, mkWorld o (trace w ++ flat_map (action_dispatch o) before))).
Proof.
  intros o records Hstub Happ Hreg. subst o records.
  split; [|split; [|split]].
  - unfold poll_actions. run_monad. rewrite Hstub.
    destruct (_use_ctypes (self w)); simpl; rewrite Happ; simpl.
    + rewrite (poll_actions_loop_trace true) by exact Hreg. reflexivity.
    + rewrite (poll_actions_loop_trace false) by exact Hreg. reflexivity.
  - intros state cb Hcb. unfold action_dispatch, decode_action.
    repeat split; intros ->; simpl; by rewrite Hcb.
  - intros state [Ht|Ht]; unfold action_dispatch, decode_action; by rewrite Ht.
  - intros before state after Hzero Hbefore Hregb.
    rewrite poll_actions_loop_trace; unfold scanned;
      rewrite scan_prefix_stops by assumption; [reflexivity | exact Hregb].
Qed.

Lemma C6_poll_dispatch_witness :
  let click := "/user/hand/left/input/menu/click" in
  let trigger := "/user/hand/left/input/trigger/value" in
  let pose := "/user/hand/left/input/grip/pose" in
  let o := set__use_ctypes true
             (set__callback_action_events
                {[ click := Some 1%nat; trigger := Some 2%nat; pose := Some 3%nat ]}
                (set__app (Some tt) (acquire_openxr_interface false))) in
  let states :=
    [ mkActionState XR_ACTION_TYPE_BOOLEAN_INPUT click true true 0 0 0;
      mkActionState XR_ACTION_TYPE_POSE_INPUT pose true false 0 0 0;
      ActionState_zero;
      mkActionState XR_ACTION_TYPE_FLOAT_INPUT trigger true false 1 0 0 ] in
  poll_actions true states (mkWorld o []) =
    (Ok true, mkWorld o [Invoke 1%nat click (VBool true)]).
Proof.
  intros click trigger pose o states.
  exact (proj1 (C6_poll_dispatch (mkWorld o []) true states eq_refl eq_refl eq_refl)).
Defined.

(** ** Frame transformer: the aspect-ratio arithmetic *)

Lemma py_div_int_positive (a b : nat) :
  (0 < a)%nat -> (0 < b)%nat ->
  py_div_int a b = Ok (true_div a b).
Proof.
  intros Ha Hb. unfold py_div_int.
  destruct a as [|a]; [lia|]. destruct b as [|b]; [lia|]. reflexivity.
Qed.

Lemma magnitude_nonneg (p : positive) (e : Z) :
  (0 <= if (0 <=? e)%Z then (Z.pos p * 2 ^ e)%Z else (Z.pos p / 2 ^ (- e))%Z)%Z.
Proof.
  destruct (Z.leb_spec 0 e).
  - pose proof (Z.pow_nonneg 2 e ltac:(lia)). nia.
  - apply Z.div_pos; [lia|]. apply Z.pow_pos_nonneg; lia.
Qed.

(** Half of an absolute value never truncates to a negative margin. *)
Lemma py_int_half_abs_nonneg (x : float) (m : Z) :
  py_int (PrimFloat.abs x / 2)%float = Ok m -> (0 <= m)%Z.
Proof.
  unfold py_int. rewrite div_spec, abs_spec.
  set (two := Prim2SF 2%float). vm_compute in two. subst two.
  destruct (Prim2SF x) as [s|s| |s mx ex]; simpl SFabs; unfold SF64div, SFdiv.
  - simpl. intros [= <-]. lia.
  - discriminate.
  - discriminate.
  - destruct (SFdiv_core_binary _ _ _ _ _ _) as [[mz ez] lz].
    unfold binary_round_aux.
    destruct (shr_fexp _ _ _ _ _) as [mrs1 e1].
    destruct (shr_fexp _ _ _ _ _) as [mrs2 e2].
    destruct (shr_m mrs2) as [|p|p]; simpl xorb.
    + intros [= <-]. lia.
    + destruct (Z.leb _ _); [|discriminate].
      intros [= <-]. exact (magnitude_nonneg p e2).
    + discriminate.
Qed.

(** ** Frame transformer: images, views and the heap *)

Lemma rectangular_rows (img : image) (h w : nat) :
  rectangular img h w = true ->
  length img = h /\ Forall (fun row => length row = w) img.
Proof.
  unfold rectangular. intros H. apply andb_prop in H as [Hlen Hrows].
  apply Nat.eqb_eq in Hlen. split; [exact Hlen|].
  clear Hlen. induction img as [|row rest IH]; [constructor|].
  simpl in Hrows. apply andb_prop in Hrows as [Hrow Hrest].
  apply Nat.eqb_eq in Hrow. constructor; [exact Hrow | by apply IH].
Qed.

Lemma rows_rectangular (img : image) (w : nat) :
  Forall (fun row => length row = w) img -> rectangular img (length img) w = true.
Proof.
  intros Hrows. unfold rectangular. rewrite Nat.eqb_refl. simpl.
  induction Hrows as [|row rest Hrow Hrest IH]; [reflexivity|].
  simpl. rewrite IH. by apply Nat.eqb_eq in Hrow as ->.
Qed.

Lemma rectangular_shape (img : image) (h w : nat) :
  rectangular img h w = true -> (0 < h)%nat -> shape0 img = h /\ shape1 img = w.
Proof.
  intros Hrect Hh. apply rectangular_rows in Hrect as [Hlen Hrows].
  split; [exact Hlen|].
  destruct img as [|row rest]; simpl in *; [lia|].
  by inversion Hrows.
Qed.

Lemma content_view_app (h : heap) (frame : ndarray) (img : image) (ops : list view_op) :
  content h frame = Some img ->
  content h (mkNdarray (base frame) (view frame ++ ops)) =
    Some (fold_left apply_view_op ops img).
Proof.
  unfold content; simpl. destruct (h !! base frame) as [buffer|]; [|done].
  intros [= <-]. by rewrite fold_left_app.
Qed.

Lemma fold_left_flipped (axes : list nat) (img : image) :
  fold_left apply_view_op (map Flipped axes) img = flipped axes img.
Proof.
  unfold flipped. revert img. induction axes as [|a rest IH]; intros img; [done|].
  simpl. apply IH.
Qed.

Lemma py_slice_nonzero {A} (m : nat) (l : list A) :
  m <> 0%nat -> py_slice m l = take (length l - 2 * m) (drop m l).
Proof.
  intros Hm. unfold py_slice. destruct m as [|k]; [done|]. simpl.
  f_equal. lia.
Qed.

Lemma crop_columns_zero (img : image) : crop_columns 0 img = img.
Proof.
  unfold crop_columns. induction img as [|row rest IH]; [done|].
  simpl. f_equal; [|exact IH]. rewrite Nat.sub_0_r. apply firstn_all.
Qed.

Lemma crop_rows_zero (img : image) : crop_rows 0 img = img.
Proof. unfold crop_rows. simpl. rewrite Nat.sub_0_r. apply firstn_all. Qed.

Lemma crop_columns_rectangular (m : nat) (img : image) (h w : nat) :
  rectangular img h w = true -> rectangular (crop_columns m img) h (w - 2 * m) = true.
Proof.
  intros Hrect. apply rectangular_rows in Hrect as [Hlen Hrows]. subst h.
  replace (length img) with (length (crop_columns m img))
    by (unfold crop_columns; apply length_map).
  apply rows_rectangular. unfold crop_columns.
  induction Hrows as [|row rest Hrow Hrest IH]; simpl; constructor; [|exact IH].
  rewrite length_take, length_drop. lia.
Qed.

Lemma crop_rows_rectangular (m : nat) (img : image) (h w : nat) :
  rectangular img h w = true -> rectangular (crop_rows m img) (h - 2 * m) w = true.
Proof.
  intros Hrect. apply rectangular_rows in Hrect as [Hlen Hrows]. subst h.
  replace (length img - 2 * m)%nat with (length (crop_rows m img)).
  - apply rows_rectangular. unfold crop_rows.
    apply Forall_take, Forall_drop, Hrows.
  - unfold crop_rows. rewrite length_take, length_drop. lia.
Qed.

Lemma rectangular_flip_content (axis : nat) (img : image) (h w : nat) :
  rectangular img h w = true -> rectangular (flip_content axis img) h w = true.
Proof.
  intros Hrect. apply rectangular_rows in Hrect as [Hlen Hrows]. subst h.
  destruct axis as [|[|axis]]; simpl.
  - replace (length img) with (length (rev img)) by apply length_rev.
    apply rows_rectangular. by apply Forall_rev.
  - replace (length img) with (length (map (@rev pixel) img)) by apply length_map.
    apply rows_rectangular. apply Forall_map.
    eapply Forall_impl; [exact Hrows|]. intros row Hrow. simpl.
    by rewrite length_rev.
  - replace (length img) with (length (map (map (@rev Z)) img)) by apply length_map.
    apply rows_rectangular. apply Forall_map.
    eapply Forall_impl; [exact Hrows|]. intros row Hrow. simpl.
    by rewrite length_map.
Qed.

Lemma rectangular_flipped (axes : list nat) (img : image) (h w : nat) :
  rectangular img h w = true -> rectangular (flipped axes img) h w = true.
Proof.
  unfold flipped. revert img. induction axes as [|a rest IH]; intros img Hrect; [done|].
  simpl. apply IH. by apply rectangular_flip_content.
Qed.

(** ** Frame transformer: fit and copy *)

Lemma content_alloc (h : heap) (img : image) :
  content (snd (alloc h img)) (fst (alloc h img)) = Some img.
Proof. unfold content, alloc. simpl. by rewrite list_lookup_middle. Qed.

Section FrameProperties.
Variable interpolate : image -> nat -> nat -> image.

Lemma cv2_resize_allocates (h : heap) (src : ndarray) (img : image) (hh ww W H : nat) :
  content h src = Some img ->
  rectangular img hh ww = true ->
  (0 < hh)%nat -> (0 < ww)%nat -> (0 < W)%nat -> (0 < H)%nat ->
  cv2_resize interpolate h src (W, H) = Ok (alloc h (interpolate img W H)).
Proof.
  intros Hc Hrect Hh Hw HW HH. unfold cv2_resize. rewrite Hc.
  destruct (rectangular_shape img hh ww Hrect Hh) as [-> ->]. simpl.
  destruct hh, ww, W, H; simpl; try lia. reflexivity.
Qed.

Lemma cv2_resize_returns (h : heap) (src : ndarray) (dsize : nat * nat)
    (r : ndarray * heap) :
  cv2_resize interpolate h src dsize = Ok r ->
  exists source, r = alloc h (interpolate source (fst dsize) (snd dsize)).
Proof.
  unfold cv2_resize. destruct (content h src) as [img|]; [|discriminate].
  destruct (_ || _); [discriminate|]. intros [= <-]. by exists img.
Qed.

Lemma cv2_resize_empty (h : heap) (src : ndarray) (img : image) (dsize : nat * nat) :
  content h src = Some img ->
  shape0 img = 0%nat \/ shape1 img = 0%nat ->
  cv2_resize interpolate h src dsize = Raise Cv2Error.
Proof.
  intros Hc Hempty. unfold cv2_resize. rewrite Hc.
  destruct Hempty as [-> | ->]; simpl; [reflexivity|].
  by rewrite orb_true_r.
Qed.

(** The scaler looks at what its argument shows, not at where it lives. *)
Lemma cv2_resize_on_any_heap (h h0 : heap) (src src0 : ndarray) (img : image)
    (dsize : nat * nat) :
  content h src = Some img ->
  content h0 src0 = Some img ->
  cv2_resize interpolate h src dsize =
    match
      match cv2_resize interpolate h0 src0 dsize with
      | Raise e => Raise e
      | Ok (out, h') =>
          match content h' out with
          | Some scaled => Ok scaled
          | None => Raise Cv2Error
          end
      end
    with
    | Raise e => Raise e
    | Ok scaled => Ok (alloc h scaled)
    end.
Proof.
  intros Hc Hc0. unfold cv2_resize. rewrite Hc, Hc0.
  destruct (_ || _); [reflexivity|].
  pose proof (content_alloc h0 (interpolate img (fst dsize) (snd dsize))) as Hshown.
  destruct (alloc h0 (interpolate img (fst dsize) (snd dsize))) as [out h'].
  simpl in Hshown. by rewrite Hshown.
Qed.

Lemma content_crop_columns (h : heap) (frame : ndarray) (img : image) (m : nat) :
  m <> 0%nat ->
  content h frame = Some img ->
  content h (mkNdarray (base frame) (view frame ++ [Columns m])) =
    Some (crop_columns m img).
Proof.
  intros Hm Hc. rewrite (content_view_app h frame img) by exact Hc. simpl.
  f_equal. unfold crop_columns. apply map_ext. intros row.
  by apply py_slice_nonzero.
Qed.

Lemma content_crop_rows (h : heap) (frame : ndarray) (img : image) (m : nat) :
  m <> 0%nat ->
  content h frame = Some img ->
  content h (mkNdarray (base frame) (view frame ++ [Rows m])) =
    Some (crop_rows m img).
Proof.
  intros Hm Hc. rewrite (content_view_app h frame img) by exact Hc. simpl.
  f_equal. unfold crop_rows. by apply py_slice_nonzero.
Qed.

(** [fit] depends on the frame through the image it shows only, and
    allocates its result on the heap it is given. *)
Lemma fit_result (h : heap) (cv : XrViewConfigurationView) (frame : ndarray)
    (img : image) :
  content h frame = Some img ->
  fit interpolate h cv frame =
    match fitted_image interpolate img cv with
    | Raise e => Raise e
    | Ok scaled => Ok (alloc h scaled)
    end.
Proof.
  intros Hc.
  assert (Hc0 : content [img] (mkNdarray 0 []) = Some img) by reflexivity.
  unfold fitted_image, fit. rewrite Hc, Hc0.
  destruct (py_div_int (shape1 img) (shape0 img)) as [current_ratio|]; [|reflexivity].
  destruct (py_div_int _ _) as [recommended_ratio|]; [|reflexivity].
  cbv zeta. destruct (PrimFloat.ltb recommended_ratio current_ratio).
  - destruct (py_int _) as [m|]; [|reflexivity].
    destruct (m =? 0)%Z.
    + by apply cv2_resize_on_any_heap with img.
    + apply cv2_resize_on_any_heap with (map (py_slice (Z.to_nat m)) img).
      * by rewrite (content_view_app h frame img).
      * reflexivity.
  - destruct (py_div _ _) as [scaled|]; [|reflexivity].
    destruct (py_int _) as [m|]; [|reflexivity].
    destruct (m =? 0)%Z.
    + by apply cv2_resize_on_any_heap with img.
    + apply cv2_resize_on_any_heap with (py_slice (Z.to_nat m) img).
      * by rewrite (content_view_app h frame img).
      * reflexivity.
Qed.

Lemma fit_returns (h : heap) (cv : XrViewConfigurationView) (frame : ndarray)
    (r : ndarray * heap) :
  fit interpolate h cv frame = Ok r ->
  exists source,
    r = alloc h (interpolate source (recommendedImageRectWidth cv)
                                    (recommendedImageRectHeight cv)).
Proof.
  unfold fit. destruct (content h frame) as [img|]; [|discriminate].
  destruct (py_div_int (shape1 img) (shape0 img)) as [current_ratio|]; [|discriminate].
  destruct (py_div_int _ _) as [recommended_ratio|]; [|discriminate].
  cbv zeta. destruct (PrimFloat.ltb recommended_ratio current_ratio).
  - destruct (py_int _) as [m|]; [|discriminate]. apply cv2_resize_returns.
  - destruct (py_div _ _) as [scaled|]; [|discriminate].
    destruct (py_int _) as [m|]; [|discriminate]. apply cv2_resize_returns.
Qed.

Lemma content_base_allocated (h : heap) (frame : ndarray) (img : image) :
  content h frame = Some img -> (base frame < length h)%nat.
Proof.
  unfold content. destruct (h !! base frame) as [buffer|] eqn:E; [|done].
  intros _. by apply lookup_lt_Some in E.
Qed.

Lemma content_extend (h ext : heap) (frame : ndarray) (img : image) :
  content h frame = Some img -> content (h ++ ext) frame = Some img.
Proof.
  intros Hc. pose proof (content_base_allocated h frame img Hc) as Hlt.
  unfold content in *. by rewrite lookup_app_l.
Qed.

Lemma alloc_is_fresh (h ext : heap) (copy : image) (frame : ndarray) (img : image) :
  content h frame = Some img ->
  let out := fst (alloc (h ++ ext) copy) in
  let h' := snd (alloc (h ++ ext) copy) in
  view out = []
  /\ (length h <= base out)%nat
  /\ h !! base out = None
  /\ base out <> base frame
  /\ content h' out = Some copy
  /\ (forall a, (a < length h)%nat -> h' !! a = h !! a)
  /\ content h' frame = Some img
  /\ (forall written, content (<[base out := written]> h') frame = Some img).
Proof.
  intros Hc out h'. subst out h'. unfold alloc. simpl.
  pose proof (content_base_allocated h frame img Hc) as Hlt.
  assert (Hlen : (length h <= length (h ++ ext))%nat) by (rewrite length_app; lia).
  split; [reflexivity|]. split; [exact Hlen|].
  split; [by apply lookup_ge_None|].
  split; [lia|].
  split.
  { unfold content; simpl. by rewrite list_lookup_middle. }
  split.
  { intros a Ha. rewrite <- app_assoc. by rewrite lookup_app_l. }
  split.
  { rewrite <- app_assoc. by apply content_extend. }
  intros written. unfold content.
  rewrite list_lookup_insert_ne by lia.
  rewrite <- app_assoc. rewrite lookup_app_l by exact Hlt.
  exact Hc.
Qed.

(** The scaler returns an image of the size it is asked for. *)
Hypothesis interpolate_shape :
  forall img W H, rectangular (interpolate img W H) H W = true.

(** C3.  The ratios and the margin are computed in double precision, as
    the code computes them.  For a non-empty frame and a non-empty
    recommended size: when the ratio of the frame exceeds the recommended
    one, the margin is [int(|recommended_ratio * height - width| / 2)] and
    the fit transform takes that many columns off each side; otherwise the
    margin is [int(|width / recommended_ratio - height| / 2)] and it takes
    that many rows off the top and the bottom.  The margin is never
    negative; with a zero margin the frame is scaled as it is; with a
    margin that leaves a column, or a row, the cropped frame is scaled;
    with a margin that leaves nothing the scaler rejects the empty frame.
    Whenever the fit transform returns, its result has exactly the
    recommended width and height.  A 640 by 480 frame fitted to 1280 by 720
    loses 60 rows on each side and comes out 1280 by 720. *)
Theorem C3_fit_transform (h : heap) (cv : XrViewConfigurationView) (frame : ndarray)
    (img : image) (hh ww : nat) :
  let W := recommendedImageRectWidth cv in
  let H := recommendedImageRectHeight cv in
  let current_ratio := true_div ww hh in
  let recommended_ratio := true_div W H in
  content h frame = Some img ->
  rectangular img hh ww = true ->
  (0 < hh)%nat -> (0 < ww)%nat -> (0 < W)%nat -> (0 < H)%nat ->
  (forall m,
     PrimFloat.ltb recommended_ratio current_ratio = true ->
     py_int (PrimFloat.abs (recommended_ratio * float_of_nat hh - float_of_nat ww) / 2)%float
       = Ok m ->
     (0 <= m)%Z
     /\ (m = 0%Z -> fit interpolate h cv frame = Ok (alloc h (interpolate img W H)))
     /\ ((0 < m)%Z -> (2 * Z.to_nat m < ww)%nat ->
           fit interpolate h cv frame =
             Ok (alloc h (interpolate (crop_columns (Z.to_nat m) img) W H))
           /\ rectangular (crop_columns (Z.to_nat m) img) hh (ww - 2 * Z.to_nat m) = true)
     /\ ((0 < m)%Z -> (ww <= 2 * Z.to_nat m)%nat ->
           fit interpolate h cv frame = Raise Cv2Error))
  /\ (forall m,
        PrimFloat.ltb recommended_ratio current_ratio = false ->
        PrimFloat.eqb recommended_ratio PrimFloat.zero = false ->
        py_int (PrimFloat.abs (float_of_nat ww / recommended_ratio - float_of_nat hh) / 2)%float
          = Ok m ->
        (0 <= m)%Z
        /\ (m = 0%Z -> fit interpolate h cv frame = Ok (alloc h (interpolate img W H)))
        /\ ((0 < m)%Z -> (2 * Z.to_nat m < hh)%nat ->
              fit interpolate h cv frame =
                Ok (alloc h (interpolate (crop_rows (Z.to_nat m) img) W H))
              /\ rectangular (crop_rows (Z.to_nat m) img) (hh - 2 * Z.to_nat m) ww = true)
        /\ ((0 < m)%Z -> (hh <= 2 * Z.to_nat m)%nat ->
              fit interpolate h cv frame = Raise Cv2Error))
  /\ (forall out h',
        fit interpolate h cv frame = Ok (out, h') ->
        exists scaled,
          content h' out = Some scaled /\ rectangular scaled H W = true)
  /\ (hh = 480%nat -> ww = 640%nat -> W = 1280%nat -> H = 720%nat ->
        fit interpolate h cv frame =
          Ok (alloc h (interpolate (crop_rows 60 img) 1280 720))
        /\ rectangular (crop_rows 60 img) 360 640 = true
        /\ rectangular (interpolate (crop_rows 60 img) 1280 720) 720 1280 = true).
Proof.
  intros W H current_ratio recommended_ratio Hc Hrect Hh Hw HW HH.
  destruct (rectangular_shape img hh ww Hrect Hh) as [E0 E1].
  assert (Hcolumns : forall m,
            PrimFloat.ltb recommended_ratio current_ratio = true ->
            py_int (PrimFloat.abs (recommended_ratio * float_of_nat hh
                                   - float_of_nat ww) / 2)%float = Ok m ->
            fit interpolate h cv frame =
              cv2_resize interpolate h
                (if (m =? 0)%Z then frame
                 else mkNdarray (base frame) (view frame ++ [Columns (Z.to_nat m)]))
                (W, H)).
  { intros m Hwider Hm. unfold fit. rewrite Hc, E0, E1.
    rewrite !py_div_int_positive by assumption. cbv zeta.
    subst current_ratio recommended_ratio W H. by rewrite Hwider, Hm. }
  assert (Hrows : forall m,
            PrimFloat.ltb recommended_ratio current_ratio = false ->
            PrimFloat.eqb recommended_ratio PrimFloat.zero = false ->
            py_int (PrimFloat.abs (float_of_nat ww / recommended_ratio
                                   - float_of_nat hh) / 2)%float = Ok m ->
            fit interpolate h cv frame =
              cv2_resize interpolate h
                (if (m =? 0)%Z then frame
                 else mkNdarray (base frame) (view frame ++ [Rows (Z.to_nat m)]))
                (W, H)).
  { intros m Hwider Hratio Hm. unfold fit, py_div. rewrite Hc, E0, E1.
    rewrite !py_div_int_positive by assumption. cbv zeta.
    subst current_ratio recommended_ratio W H. by rewrite Hwider, Hratio, Hm. }
  assert (Hrowcrop : forall m,
            PrimFloat.ltb recommended_ratio current_ratio = false ->
            PrimFloat.eqb recommended_ratio PrimFloat.zero = false ->
            py_int (PrimFloat.abs (float_of_nat ww / recommended_ratio
                                   - float_of_nat hh) / 2)%float = Ok m ->
            (0 < m)%Z -> (2 * Z.to_nat m < hh)%nat ->
            fit interpolate h cv frame =
              Ok (alloc h (interpolate (crop_rows (Z.to_nat m) img) W H))
            /\ rectangular (crop_rows (Z.to_nat m) img) (hh - 2 * Z.to_nat m) ww = true).
  { intros m Hwider Hratio Hm Hpos Hfits.
    rewrite (Hrows m Hwider Hratio Hm).
    replace (m =? 0)%Z with false by (symmetry; apply Z.eqb_neq; lia).
    split; [|by apply crop_rows_rectangular].
    apply cv2_resize_allocates with (hh - 2 * Z.to_nat m)%nat ww; try assumption;
      [apply content_crop_rows; [lia | exact Hc]
      | by apply crop_rows_rectangular | lia]. }
  split; [|split; [|split]].
  - intros m Hwider Hm.
    split; [by apply py_int_half_abs_nonneg in Hm|].
    rewrite (Hcolumns m Hwider Hm). split; [|split].
    + intros ->. by apply cv2_resize_allocates with hh ww.
    + intros Hpos Hfits.
      replace (m =? 0)%Z with false by (symmetry; apply Z.eqb_neq; lia).
      split; [|by apply crop_columns_rectangular].
      apply cv2_resize_allocates with hh (ww - 2 * Z.to_nat m)%nat; try assumption;
        [apply content_crop_columns; [lia | exact Hc]
        | by apply crop_columns_rectangular | lia].
    + intros Hpos Hnone.
      replace (m =? 0)%Z with false by (symmetry; apply Z.eqb_neq; lia).
      apply cv2_resize_empty with (crop_columns (Z.to_nat m) img);
        [apply content_crop_columns; [lia | exact Hc]|].
      right.
      pose proof (crop_columns_rectangular (Z.to_nat m) img hh ww Hrect) as Hcrop.
      apply (rectangular_shape _ _ _ Hcrop) in Hh as [_ ->]. lia.
  - intros m Hwider Hratio Hm.
    split; [by apply py_int_half_abs_nonneg in Hm|].
    split; [|split; [by apply Hrowcrop|]].
    + intros ->. rewrite (Hrows 0%Z Hwider Hratio Hm).
      by apply cv2_resize_allocates with hh ww.
    + intros Hpos Hnone. rewrite (Hrows m Hwider Hratio Hm).
      replace (m =? 0)%Z with false by (symmetry; apply Z.eqb_neq; lia).
      apply cv2_resize_empty with (crop_rows (Z.to_nat m) img);
        [apply content_crop_rows; [lia | exact Hc]|].
      left. unfold shape0, crop_rows. rewrite length_take, length_drop.
      apply rectangular_rows in Hrect as [-> _]. lia.
  - intros out h' Hfit.
    destruct (fit_returns h cv frame (out, h') Hfit) as (source & Hout).
    exists (interpolate source W H). split; [|apply interpolate_shape].
    pose proof (content_alloc h (interpolate source W H)) as Hshown.
    fold W H in Hout. rewrite <- Hout in Hshown. exact Hshown.
  - intros -> -> EW EH.
    subst current_ratio recommended_ratio. rewrite EW, EH in *.
    destruct (Hrowcrop 60%Z) as [Hfit Hcrop];
      [reflexivity | reflexivity | reflexivity | lia | simpl; lia |].
    split; [exact Hfit|]. split; [exact Hcrop|]. apply interpolate_shape.
Qed.

Lemma flip_step (o : OpenXR) (h : heap) (frame : ndarray) (img : image)
    (axes : list nat) :
  content h frame = Some img ->
  flip_axes o = Ok axes ->
  exists flipped_frame,
    match _transform_flip o with
    | Some axis =>
        match np_flip frame axis with
        | Raise e => Raise e
        | Ok a => Ok (true, a)
        end
    | None => Ok (false, frame)
    end = Ok (bool_decide (_transform_flip o <> None), flipped_frame)
    /\ content h flipped_frame = Some (flipped axes img)
    /\ (_transform_flip o = None -> flipped_frame = frame).
Proof.
  intros Hc Haxes. unfold flip_axes in Haxes.
  destruct (_transform_flip o) as [axis|].
  - unfold np_flip. rewrite Haxes. eexists. split; [reflexivity|].
    split; [|done]. rewrite (content_view_app h frame img) by exact Hc.
    by rewrite fold_left_flipped.
  - inversion Haxes; subst axes. exists frame. by repeat split.
Qed.

(** C4.  With neither flip nor fit configured, [_transform] returns the
    array it was given and allocates nothing.  With a flip configured, or
    with a fit that returns, it returns a new array that owns a buffer
    which did not exist before and shows the flipped and then fitted
    image, [scaled] being the image the fit transform computes for the
    flipped frame; the buffers that existed are unchanged, and writing
    into the returned buffer does not change what the input array
    shows. *)
Theorem C4_transform_copy (o : OpenXR) (h : heap) (cv : XrViewConfigurationView)
    (frame : ndarray) (img scaled : image) (axes : list nat) :
  let expected := if _transform_fit o then scaled else flipped axes img in
  content h frame = Some img ->
  flip_axes o = Ok axes ->
  (_transform_fit o = true ->
     fitted_image interpolate (flipped axes img) cv = Ok scaled) ->
  (_transform_flip o = None -> _transform_fit o = false ->
     _transform interpolate o h cv frame = Ok (frame, h))
  /\ (_transform_flip o <> None \/ _transform_fit o = true ->
        exists out h',
          _transform interpolate o h cv frame = Ok (out, h')
          /\ view out = []
          /\ (length h <= base out)%nat
          /\ h !! base out = None
          /\ base out <> base frame
          /\ content h' out = Some expected
          /\ (forall a, (a < length h)%nat -> h' !! a = h !! a)
          /\ content h' frame = Some img
          /\ (forall written, content (<[base out := written]> h') frame = Some img)).
Proof.
  intros expected Hc Haxes Hfit.
  destruct (flip_step o h frame img axes Hc Haxes) as (frame1 & Hflip & Hc1 & Hsame).
  unfold _transform. rewrite Hflip.
  split.
  - intros Hnone Hnofit. rewrite Hnofit.
    rewrite bool_decide_eq_false_2 by (intros Hne; by apply Hne).
    by rewrite Hsame.
  - intros Hconfigured. subst expected.
    destruct (_transform_fit o) eqn:Efit.
    + rewrite (fit_result h cv frame1 (flipped axes img) Hc1), (Hfit eq_refl).
      unfold alloc at 1.
      replace (content (h ++ [scaled]) (mkNdarray (length h) []))
        with (Some scaled)
        by (unfold content; simpl; by rewrite list_lookup_middle).
      eexists _, _. split; [reflexivity|].
      exact (alloc_is_fresh h [scaled] scaled frame img Hc).
    + destruct Hconfigured as [Hflipped|]; [|done].
      rewrite bool_decide_eq_true_2 by exact Hflipped.
      rewrite Hc1.
      eexists _, _. split; [reflexivity|].
      pose proof (alloc_is_fresh h [] (flipped axes img) frame img Hc) as Hfresh.
      by rewrite app_nil_r in Hfresh.
Qed.

End FrameProperties.

(** A scaler that answers a blank image of the requested size, to
    exercise the statements above. *)
Lemma blank_is_rectangular (img : image) (W H : nat) :
  rectangular ((fun _ W H => replicate H (replicate W [])) img W H) H W = true.
Proof.
  simpl. replace H with (length (replicate H (replicate W ([] : pixel)))) at 2
    by apply length_replicate.
  apply rows_rectangular. apply Forall_replicate. apply length_replicate.
Qed.

Lemma C3_fit_transform_witness :
  let blank : image -> nat -> nat -> image :=
    fun _ W H => replicate H (replicate W []) in
  let img : image := replicate 4 (replicate 8 [0%Z; 0%Z; 0%Z]) in
  let cv := mkXrViewConfigurationView 4 4 4 4 1 1 in
  fit blank [img] cv (mkNdarray 0 []) =
    Ok (alloc [img] (blank (crop_columns 2 img) 4%nat 4%nat)).
Proof.
  intros blank img cv.
  destruct (C3_fit_transform blank blank_is_rectangular [img] cv (mkNdarray 0 [])
              img 4 8 eq_refl eq_refl) as (Hcolumns & _); try (simpl; lia).
  destruct (Hcolumns 2%Z eq_refl eq_refl) as (_ & _ & Hcrop & _).
  destruct Hcrop as [Hfit _]; [lia | simpl; lia |].
  exact Hfit.
Defined.

Lemma C4_transform_copy_witness :
  let same : image -> nat -> nat -> image := fun source _ _ => source in
  let img : image := [[[1%Z]; [2%Z]; [3%Z]; [4%Z]]; [[5%Z]; [6%Z]; [7%Z]; [8%Z]]] in
  let cv := mkXrViewConfigurationView 2 2 2 2 1 1 in
  let o := set__transform true (Some (FlipInt 1)) (acquire_openxr_interface false) in
  exists out h',
    _transform same o [img] cv (mkNdarray 0 []) = Ok (out, h')
    /\ base out <> 0%nat
    /\ content h' out = Some [[[3%Z]; [2%Z]]; [[7%Z]; [6%Z]]].
Proof.
  intros same img cv o.
  destruct (C4_transform_copy same o [img] cv (mkNdarray 0 []) img
              [[[3%Z]; [2%Z]]; [[7%Z]; [6%Z]]] [1%nat]
              eq_refl eq_refl ltac:(reflexivity)) as [_ Hcopy].
  destruct Hcopy as (out & h' & Hrun & _ & _ & _ & Hbase & Hc & _);
    [left; discriminate|].
  exists out, h'. split; [exact Hrun|]. split; [exact Hbase | exact Hc].
Defined.

(** * Further properties *)

(** ** Initialisation and the set-up calls *)

Ltac names :=
  unfold unimplemented_graphics, XR_KHR_OPENGL_ENABLE_EXTENSION_NAME,
    XR_KHR_OPENGL_ES_ENABLE_EXTENSION_NAME, XR_KHR_VULKAN_ENABLE_EXTENSION_NAME,
    XR_KHR_D3D11_ENABLE_EXTENSION_NAME, XR_KHR_D3D12_ENABLE_EXTENSION_NAME in *.

(** X1.  [init] records the transport before it looks at the graphics
    name, so also when it raises.  For [OpenGL] it returns [True] in stub
    mode and otherwise whether the libraries could be loaded, creating the
    application object only in the latter case; for the four other known
    graphics names it raises [NotImplementedError]; for any other name it
    raises [ValueError] and leaves the recorded graphics extension as it
    was.  It never changes the stub flag. *)
Theorem X1_init_outcome (graphics : string) (use_ctypes rt_loaded : bool) (w : world) :
  let r := init graphics use_ctypes rt_loaded w in
  _use_ctypes (self (snd r)) = use_ctypes
  /\ _disable_openxr (self (snd r)) = _disable_openxr (self w)
  /\ (graphics ∈ ["OpenGL"; XR_KHR_OPENGL_ENABLE_EXTENSION_NAME] ->
        fst r = Ok (_disable_openxr (self w) || rt_loaded)
        /\ _graphics (self (snd r)) = Some XR_KHR_OPENGL_ENABLE_EXTENSION_NAME
        /\ _app (self (snd r)) =
             (if negb (_disable_openxr (self w)) && rt_loaded
              then Some tt else _app (self w)))
  /\ (graphics ∈ unimplemented_graphics ->
        fst r = Raise NotImplementedError
        /\ _app (self (snd r)) = _app (self w))
  /\ (graphics ∉ "OpenGL" :: XR_KHR_OPENGL_ENABLE_EXTENSION_NAME :: unimplemented_graphics ->
        fst r = Raise ValueError
        /\ _graphics (self (snd r)) = _graphics (self w)
        /\ _app (self (snd r)) = _app (self w)).
Proof.
  intros r. subst r. unfold init. names.
  destruct (_disable_openxr (self w)) eqn:Estub; destruct rt_loaded;
    repeat case_bool_decide; run_monad; rewrite ?Estub; simpl;
    (split; [reflexivity|]); (split; [by rewrite ?Estub|]);
    (split; [|split]); intros Hin;
    try (repeat split; reflexivity);
    try (exfalso; decide_suffix; discriminate);
    try (exfalso; apply Hin; decide_suffix;
         repeat first [ apply list_elem_of_here | apply list_elem_of_further ]);
    try (exfalso; decide_suffix; congruence).
Qed.

Lemma valid_system_checks (form_factor blend_mode view_configuration_type : Z) :
  valid_system form_factor blend_mode view_configuration_type ->
  bool_decide (form_factor ∈
     [XR_FORM_FACTOR_HEAD_MOUNTED_DISPLAY; XR_FORM_FACTOR_HANDHELD_DISPLAY]) = true
  /\ bool_decide (blend_mode ∈
       [XR_ENVIRONMENT_BLEND_MODE_OPAQUE; XR_ENVIRONMENT_BLEND_MODE_ADDITIVE;
        XR_ENVIRONMENT_BLEND_MODE_ALPHA_BLEND]) = true
  /\ bool_decide (view_configuration_type ∈
       [XR_VIEW_CONFIGURATION_TYPE_PRIMARY_MONO;
        XR_VIEW_CONFIGURATION_TYPE_PRIMARY_STEREO]) = true.
Proof.
  intros (Hf & Hb & Hv). by rewrite !bool_decide_eq_true_2.
Qed.

(** X2.  [get_system] checks its three arguments before anything else:
    if one of them is outside its enumeration the call raises
    [ValueError] and leaves the object alone, in stub mode too; otherwise
    it returns [True] in stub mode, the runtime's answer on an initialised
    object, and raises [AttributeError] on an uninitialised one. *)
Theorem X2_get_system_validation (form_factor blend_mode view_configuration_type : Z)
    (rt_obtained : bool) (w : world) :
  (~ valid_system form_factor blend_mode view_configuration_type ->
     get_system form_factor blend_mode view_configuration_type rt_obtained w =
       (Raise ValueError, w))
  /\ (valid_system form_factor blend_mode view_configuration_type ->
        get_system form_factor blend_mode view_configuration_type rt_obtained w =
          (if _disable_openxr (self w) then (Ok true, w)
           else match _app (self w) with
                | Some _ => (Ok rt_obtained, w)
                | None => (Raise AttributeError, w)
                end)).
Proof.
  split.
  - intros Hinvalid. unfold get_system.
    repeat case_bool_decide; simpl; try reflexivity.
    exfalso. apply Hinvalid. by repeat split.
  - intros (Hf & Hb & Hv). by apply valid_system_arguments.
Qed.

Lemma set__app_same (o : OpenXR) : set__app (_app o) o = o.
Proof. by destruct o. Qed.

Lemma destroy_result (rt_destroyed : bool) (w : world) :
  destroy rt_destroyed w =
    (Ok (match _app (self w) with Some _ => rt_destroyed | None => true end), w).
Proof.
  unfold destroy. run_monad. destruct (_app (self w)) eqn:E; simpl.
  - by rewrite E.
  - rewrite <- E at 1. rewrite set__app_same. by destruct w.
Qed.

(** X3.  [destroy] never clears the handles: on an object with an
    application object it returns what the runtime answers and leaves the
    object exactly as it was, so that later calls still reach the runtime
    and a second [destroy] asks it again; on an object without one (never
    initialised, or stub) it returns [True]. *)
Theorem X3_destroy_keeps_the_handles (rt_destroyed rt_again rt_created : bool) (w : world) :
  snd (destroy rt_destroyed w) = w
  /\ (_app (self w) = Some tt ->
        fst (destroy rt_destroyed w) = Ok rt_destroyed
        /\ fst (destroy rt_again (snd (destroy rt_destroyed w))) = Ok rt_again
        /\ create_session rt_created (snd (destroy rt_destroyed w)) =
             create_session rt_created w)
  /\ (_app (self w) = None -> fst (destroy rt_destroyed w) = Ok true).
Proof.
  rewrite !destroy_result. simpl. split; [reflexivity|]. split.
  - intros Happ. rewrite Happ. by repeat split.
  - by intros ->.
Qed.

Lemma loop_keeps_self_poll (use_ctypes : bool) (states : list ActionState) (w : world) :
  self (snd (poll_actions_loop use_ctypes states w)) = self w.
Proof.
  symmetry.
  exact (preserves_poll_actions_loop (fun o => self w = o) use_ctypes states w eq_refl).
Qed.

Lemma loop_keeps_self_render (states : list ActionPoseState) (w : world) :
  self (snd (render_views_loop states w)) = self w.
Proof.
  symmetry.
  exact (preserves_render_views_loop (fun o => self w = o) states w eq_refl).
Qed.

Lemma queries_preserve (I : OpenXR -> Prop) :
  (forall rt, preserves I (create_instance rt))
  /\ (forall f b v rt, preserves I (get_system f b v rt))
  /\ (forall rt, preserves I (create_session rt))
  /\ (forall rt, preserves I (poll_events rt))
  /\ (forall rt states, preserves I (poll_actions rt states))
  /\ (forall rt, preserves I (is_session_running rt))
  /\ (forall path d rt, preserves I (apply_haptic_feedback path d rt))
  /\ (forall path rt, preserves I (stop_haptic_feedback path rt))
  /\ (forall ok views, preserves I (get_recommended_resolutions ok views)).
Proof.
  repeat split; intros;
    unfold create_instance, get_system, create_session, poll_events, poll_actions,
      is_session_running, apply_haptic_feedback, stop_haptic_feedback,
      get_recommended_resolutions;
    preserve_frame.
Qed.

(** X4.  The set-up, polling, status and haptic calls never write an
    attribute of the object, whatever the runtime answers and whether they
    return or raise: after [create_instance], [get_system],
    [create_session], [poll_events], [poll_actions],
    [is_session_running], [apply_haptic_feedback],
    [stop_haptic_feedback] and [get_recommended_resolutions] the object is
    the one it was. *)
Theorem X4_queries_leave_the_object (w : world) :
  (forall rt, self (snd (create_instance rt w)) = self w)
  /\ (forall f b v rt, self (snd (get_system f b v rt w)) = self w)
  /\ (forall rt, self (snd (create_session rt w)) = self w)
  /\ (forall rt, self (snd (poll_events rt w)) = self w)
  /\ (forall rt states, self (snd (poll_actions rt states w)) = self w)
  /\ (forall rt, self (snd (is_session_running rt w)) = self w)
  /\ (forall path d rt, self (snd (apply_haptic_feedback path d rt w)) = self w)
  /\ (forall path rt, self (snd (stop_haptic_feedback path rt w)) = self w)
  /\ (forall ok views, self (snd (get_recommended_resolutions ok views w)) = self w).
Proof.
  destruct (queries_preserve (fun o => self w = o))
    as (H1 & H2 & H3 & H4 & H5 & H6 & H7 & H8 & H9).
  repeat split; intros; symmetry;
    first [ by apply H1 | by apply H2 | by apply H3 | by apply H4 | by apply H5
          | by apply H6 | by apply H7 | by apply H8 | by apply H9 ].
Qed.

(** X5.  On an object that is neither a stub nor initialised (no [init]
    yet, or an [init] that returned [False]), the calls that need the
    runtime do not return [False]: they raise [AttributeError].  A failed
    [init] leaves the object in this state.  [render_views] installs the
    default render callback before it fails. *)
Theorem X5_uninitialised_calls_raise (w : world) :
  _disable_openxr (self w) = false ->
  _app (self w) = None ->
  (forall rt, create_instance rt w = (Raise AttributeError, w))
  /\ (forall f b v rt, valid_system f b v ->
        get_system f b v rt w = (Raise AttributeError, w))
  /\ (forall rt, create_session rt w = (Raise AttributeError, w))
  /\ (forall rt, poll_events rt w = (Raise AttributeError, w))
  /\ (forall rt states, poll_actions rt states w = (Raise AttributeError, w))
  /\ (forall rt, is_session_running rt w = (Raise AttributeError, w))
  /\ (forall path rt, stop_haptic_feedback path rt w = (Raise AttributeError, w))
  /\ (forall rs rt states,
        fst (render_views rs rt states w) = Raise AttributeError
        /\ trace (snd (render_views rs rt states w)) = trace w
        /\ _callback_render (self (snd (render_views rs rt states w))) =
             Some match _callback_render (self w) with
                  | Some c => c
                  | None => InternalRender
                  end)
  /\ (forall use_ctypes,
        let w' := snd (init "OpenGL" use_ctypes false w) in
        fst (init "OpenGL" use_ctypes false w) = Ok false
        /\ _disable_openxr (self w') = false /\ _app (self w') = None).
Proof.
  intros Hstub Happ.
  split; [|split; [|split; [|split; [|split; [|split; [|split; [|split]]]]]]].
  - intros rt. by rewrite create_instance_result, Hstub, Happ.
  - intros f b v rt Hvalid.
    destruct Hvalid as (Hf & Hb & Hv).
    rewrite valid_system_arguments by assumption. by rewrite Hstub, Happ.
  - intros rt. by rewrite create_session_result, Hstub, Happ.
  - intros rt. unfold poll_events. run_monad. by rewrite Hstub, Happ.
  - intros rt states. unfold poll_actions. run_monad. rewrite Hstub.
    destruct (_use_ctypes (self w)); simpl; by rewrite Happ.
  - intros rt. unfold is_session_running. run_monad. by rewrite Hstub, Happ.
  - intros path rt. unfold stop_haptic_feedback. run_monad. by rewrite Hstub, Happ.
  - intros rs rt states. unfold render_views, subscribe_render_event. run_monad.
    destruct (_callback_render (self w)) as [c|] eqn:Ecb; simpl;
      rewrite ?Hstub; simpl; rewrite ?Happ; simpl.
    + destruct (_use_ctypes (self w)); simpl; rewrite Happ; simpl; by rewrite ?Ecb.
    + done.
  - intros use_ctypes. unfold init. run_monad. rewrite Hstub. simpl.
    by rewrite Hstub, Happ.
Qed.

Lemma X5_uninitialised_calls_raise_witness :
  let w := mkWorld (acquire_openxr_interface false) [] in
  _disable_openxr (self w) = false
  /\ _app (self w) = None
  /\ create_session true w = (Raise AttributeError, w)
  /\ poll_actions true [] w = (Raise AttributeError, w).
Proof.
  intros w.
  destruct (X5_uninitialised_calls_raise w eq_refl eq_refl)
    as (_ & _ & Hsession & _ & Hpoll & _).
  split; [reflexivity|]. split; [reflexivity|].
  split; [apply Hsession | apply Hpoll].
Defined.

(** ** What never changes *)

Lemma init_flags (graphics : string) (use_ctypes rt_loaded : bool) (w : world) :
  let r := init graphics use_ctypes rt_loaded w in
  _disable_openxr (self (snd r)) = _disable_openxr (self w)
  /\ (_disable_openxr (self w) = true -> _app (self (snd r)) = _app (self w)).
Proof.
  unfold init.
  destruct (_disable_openxr (self w)) eqn:Estub; destruct rt_loaded;
    repeat case_bool_decide; run_monad; rewrite ?Estub; simpl;
    split; try done; by rewrite ?Estub.
Qed.

Lemma handles_perform (c : call) (I : OpenXR -> Prop) :
  is_init c = false ->
  (forall o o', _disable_openxr o' = _disable_openxr o -> _app o' = _app o ->
                _use_ctypes o' = _use_ctypes o -> I o -> I o') ->
  preserves I (perform c).
Proof.
  intros Hc HI.
  assert (Hset : forall f : OpenXR -> OpenXR,
            (forall o, _disable_openxr (f o) = _disable_openxr o
                       /\ _app (f o) = _app o /\ _use_ctypes (f o) = _use_ctypes o) ->
            preserves I (assign f)).
  { intros f Hf. apply preserves_assign. intros o Ho.
    destruct (Hf o) as (H1 & H2 & H3). by apply (HI o). }
  destruct c; try discriminate Hc; simpl;
    unfold discard, create_instance, get_system, create_session, poll_events,
      poll_actions, render_views, subscribe_render_event, preview,
      subscribe_action_event, set_reference_system_pose, set_stereo_rectification,
      imul_left, imul_right, set_meters_per_unit, set_frame_transformations;
    repeat first
      [ preserve_step
      | apply preserves_poll_actions_loop
      | apply preserves_render_views_loop
      | apply Hset; intros; by repeat split ].
Qed.

(** X6.  No sequence of calls changes the stub flag; a stub object never
    acquires an application object; and the transport changes only in
    [init]: every other call leaves it as it was. *)
Theorem X6_mode_is_fixed (calls : list call) (w : world) :
  _disable_openxr (self (perform_all calls w)) = _disable_openxr (self w)
  /\ (_disable_openxr (self w) = true ->
        _app (self (perform_all calls w)) = _app (self w))
  /\ (forallb (fun c => negb (is_init c)) calls = true ->
        _use_ctypes (self (perform_all calls w)) = _use_ctypes (self w)
        /\ _app (self (perform_all calls w)) = _app (self w)).
Proof.
  revert w. induction calls as [|c calls IH]; intros w; [done|].
  simpl. destruct (IH (snd (perform c w))) as (IH1 & IH2 & IH3).
  assert (Hstep : _disable_openxr (self (snd (perform c w))) = _disable_openxr (self w)
                  /\ (_disable_openxr (self w) = true ->
                      _app (self (snd (perform c w))) = _app (self w))
                  /\ (is_init c = false ->
                      _use_ctypes (self (snd (perform c w))) = _use_ctypes (self w)
                      /\ _app (self (snd (perform c w))) = _app (self w))).
  { destruct (is_init c) eqn:Ec.
    - destruct c; try discriminate Ec. simpl. unfold discard.
      destruct (init_flags graphics use_ctypes rt_loaded w) as [Hflag Happ].
      unfold bind.
      destruct (init graphics use_ctypes rt_loaded w) as [[b|e] w']; simpl in *;
        by repeat split.
    - pose proof (handles_perform c
                    (fun o => _disable_openxr o = _disable_openxr (self w)
                              /\ _app o = _app (self w)
                              /\ _use_ctypes o = _use_ctypes (self w)) Ec) as Hp.
      destruct (Hp ltac:(intros o o' H1 H2 H3 (? & ? & ?); repeat split; congruence)
                   w ltac:(done)) as (H1 & H2 & H3).
      by repeat split. }
  destruct Hstep as (S1 & S2 & S3).
  split; [by rewrite IH1|]. split.
  - intros Hstub. rewrite IH2 by (by rewrite S1). by apply S2.
  - intros Hcalls. apply andb_prop in Hcalls as [Hc Hrest].
    apply negb_true_iff in Hc. destruct (S3 Hc) as [S3a S3b].
    destruct (IH3 Hrest) as [IH3a IH3b]. split; congruence.
Qed.

(** ** Stub mode *)

(** X7.  On a stub object, in whatever state and with whatever is
    registered, the runtime is never consulted: the set-up, polling,
    status and haptic calls return [True] and leave object and trace
    untouched, [poll_actions] invokes no callback, a valid subscription
    returns [True] whatever the runtime would have said, [render_views]
    does not depend on the runtime's answer either, and [set_frames]
    returns [True] without transforming or allocating anything. *)
Theorem X7_stub_never_asks (w : world) :
  _disable_openxr (self w) = true ->
  (forall rt, create_instance rt w = (Ok true, w))
  /\ (forall f b v rt, valid_system f b v -> get_system f b v rt w = (Ok true, w))
  /\ (forall rt, create_session rt w = (Ok true, w))
  /\ (forall rt, poll_events rt w = (Ok true, w))
  /\ (forall rt states, poll_actions rt states w = (Ok true, w))
  /\ (forall rt, is_session_running rt w = (Ok true, w))
  /\ (forall path d rt, apply_haptic_feedback path d rt w = (Ok true, w))
  /\ (forall path rt, stop_haptic_feedback path rt w = (Ok true, w))
  /\ (forall ok views,
        get_recommended_resolutions ok views w =
          (Ok [(512, 512); (1024, 1024)]%nat, w))
  /\ (forall path cb action_type rs rt t,
        resolved_action_type path action_type = Ok t ->
        (cb = None -> t = XR_ACTION_TYPE_VIBRATION_OUTPUT) ->
        fst (subscribe_action_event path cb action_type rs rt w) = Ok true)
  /\ (forall rs rt rt' states states',
        render_views rs rt states w = render_views rs rt' states' w)
  /\ (forall interpolate h views left right rt img,
        content h left = Some img ->
        set_frames interpolate (self w) h views left right rt =
          Ok (mkSubmission true None None (shape2 img =? 4)%nat h)).
Proof.
  intros Hstub.
  split; [|split; [|split; [|split; [|split; [|split; [|split; [|split;
    [|split; [|split; [|split]]]]]]]]]].
  - intros rt. by rewrite create_instance_result, Hstub.
  - intros f b v rt (Hf & Hb & Hv).
    rewrite valid_system_arguments by assumption. by rewrite Hstub.
  - intros rt. by rewrite create_session_result, Hstub.
  - intros rt. unfold poll_events. run_monad. by rewrite Hstub.
  - intros rt states. unfold poll_actions. run_monad. by rewrite Hstub.
  - intros rt. unfold is_session_running. run_monad. by rewrite Hstub.
  - intros path d rt. unfold apply_haptic_feedback. run_monad. by rewrite Hstub.
  - intros path rt. unfold stop_haptic_feedback. run_monad. by rewrite Hstub.
  - intros ok views. unfold get_recommended_resolutions. run_monad. by rewrite Hstub.
  - intros path cb action_type rs rt t Ht Hcb.
    destruct (subscribe_action_event_effect w path cb action_type rs rt t Ht Hcb)
      as (_ & _ & Hret & _).
    by rewrite Hret, Hstub.
  - intros rs rt rt' states states'. unfold render_views, subscribe_render_event.
    run_monad.
    destruct (_callback_render (self w)); simpl; repeat (rewrite Hstub; simpl);
      reflexivity.
  - intros interpolate h views left right rt img Hc. unfold set_frames.
    by rewrite Hc, Hstub.
Qed.

Lemma X7_stub_never_asks_witness :
  let w := mkWorld
             (set__callback_action_events {[ "/user/hand/left/input/menu/click" := Some 1%nat ]}
                (acquire_openxr_interface true)) [] in
  _disable_openxr (self w) = true
  /\ poll_actions false
       [mkActionState XR_ACTION_TYPE_BOOLEAN_INPUT "/user/hand/left/input/menu/click"
          true true 0 0 0] w = (Ok true, w).
Proof.
  intros w.
  destruct (X7_stub_never_asks w eq_refl) as (_ & _ & _ & _ & Hpoll & _).
  split; [reflexivity | apply Hpoll].
Defined.

(** ** The render cycle *)

Lemma render_views_unfold (rs : Z) (rt_result : bool) (rt_states : list ActionPoseState) :
  render_views rs rt_result rt_states =
    (do o <- get_self;
     (match _callback_render o with
      | None => subscribe_render_event None
      | Some _ => ret tt
      end) ;;
     render_dispatch rt_result rt_states).
Proof. reflexivity. Qed.

Lemma preserves_render_dispatch I rt_result rt_states :
  preserves I (render_dispatch rt_result rt_states).
Proof. unfold render_dispatch, preview. preserve_frame. Qed.

Lemma render_dispatch_self (rt_result : bool) (rt_states : list ActionPoseState)
    (w : world) :
  self (snd (render_dispatch rt_result rt_states w)) = self w.
Proof.
  symmetry.
  exact (preserves_render_dispatch (fun o => self w = o) rt_result rt_states w eq_refl).
Qed.

Lemma render_views_self (rs : Z) (rt_result : bool) (rt_states : list ActionPoseState)
    (w : world) :
  self (snd (render_views rs rt_result rt_states w)) = with_render_callback (self w).
Proof.
  rewrite render_views_unfold. unfold with_render_callback.
  unfold bind at 1, get_self at 1.
  destruct (_callback_render (self w)) as [c|] eqn:Ecb.
  - unfold bind, ret. apply render_dispatch_self.
  - unfold subscribe_render_event, call_runtime, bind, get_self, assign, ret, raise.
    simpl. destruct (_disable_openxr (self w)); simpl.
    + by rewrite render_dispatch_self.
    + destruct (_app (self w)); simpl; [|reflexivity].
      by rewrite render_dispatch_self.
Qed.

(** X8.  [render_views] installs the internal render callback when none
    is registered.  On a stub object that is all it changes; on any other
    object it also records the wrapper handed to the runtime in
    [_callback_middle_render], a C function pointer around the internal
    callback on the ctypes transport and the [_middle_callback] closure on
    the pybind11 one, and changes nothing else.  A callback that is
    registered, the caller's or the internal one, is never replaced, so a
    second [render_views] leaves the object as the first one left it. *)
Theorem X8_render_callback_installed_once (rs rs' : Z) (rt rt' : bool)
    (states states' : list ActionPoseState) (w : world) :
  let w' := snd (render_views rs rt states w) in
  _callback_render (self w') = Some (installed (self w))
  /\ (_callback_render (self w) = None -> _disable_openxr (self w) = true ->
        self w' = set__callback_render (Some InternalRender) (self w))
  /\ (_callback_render (self w) = None -> _disable_openxr (self w) = false ->
        self w' =
          set__callback_middle_render
            (Some (if _use_ctypes (self w) then CFunction InternalRender
                   else MiddleCallback))
            (set__callback_render (Some InternalRender) (self w)))
  /\ (forall c, _callback_render (self w) = Some c -> self w' = self w)
  /\ (forall cb,
        _callback_render
          (self (snd (render_views rs rt states
                        (snd (subscribe_render_event (Some cb) w))))) =
          Some (UserRender cb))
  /\ self (snd (render_views rs' rt' states' w')) = self w'.
Proof.
  intros w'. subst w'. rewrite !render_views_self.
  unfold with_render_callback, installed.
  split; [|split; [|split; [|split; [|split]]]].
  - destruct (_callback_render (self w)) as [c|] eqn:Ecb; [exact Ecb|].
    by destruct (_disable_openxr (self w)).
  - by intros -> ->.
  - by intros -> ->.
  - by intros c ->.
  - intros cb. rewrite render_views_self. unfold with_render_callback.
    unfold subscribe_render_event. run_monad.
    destruct (_disable_openxr (self w)); simpl; [reflexivity|].
    by destruct (_app (self w)).
  - destruct (_callback_render (self w)) as [c|] eqn:Ecb.
    + by rewrite Ecb.
    + by destruct (_disable_openxr (self w)).
Qed.

Lemma length_ctypes_array {A} (zero : A) (n : nat) (written : list A) :
  length (ctypes_array zero n written) = n.
Proof.
  unfold ctypes_array. rewrite length_take, length_app, length_replicate. lia.
Qed.

Lemma length_pose_dispatch (o : OpenXR) (states : list ActionPoseState) :
  (length (flat_map (pose_dispatch o) states) <= length states)%nat.
Proof.
  induction states as [|state rest IH]; simpl; [lia|].
  rewrite length_app. unfold pose_dispatch at 1.
  destruct ((aps_type state =? XR_ACTION_TYPE_POSE_INPUT)%Z && aps_isActive state);
    [|simpl; lia].
  destruct (_callback_action_pose_events o !! aps_path state) as [[cb|]|]; simpl; lia.
Qed.

Lemma forallb_pointwise {A} (f g : A -> bool) (l : list A) :
  (forall x, f x = g x) -> forallb f l = forallb g l.
Proof.
  intros Hfg. induction l as [|x rest IH]; [done|]. simpl. by rewrite Hfg, IH.
Qed.

(** X9.  On an initialised object [render_views] returns the runtime's
    result and invokes, in order, the pose callback of every record that
    is pose-typed and active, with the converted pose; a record that is
    inactive or of another type invokes nothing.  The pybind11 transport
    looks at every record the runtime returns; the ctypes transport looks
    at exactly as many records as there are registered pose paths, so it
    makes at most that many invocations. *)
Theorem X9_render_dispatch (rs : Z) (rt_result : bool) (rt_states : list ActionPoseState)
    (w : world) :
  let o := self w in
  let records :=
    if _use_ctypes o
    then ctypes_array ActionPoseState_zero (size (_callback_action_pose_events o)) rt_states
    else rt_states in
  _disable_openxr o = false ->
  _app o = Some tt ->
  forallb (pose_registered o) records = true ->
  fst (render_views rs rt_result rt_states w) = Ok rt_result
  /\ trace (snd (render_views rs rt_result rt_states w)) =
       trace w ++ flat_map (pose_dispatch o) records
  /\ (forall state,
        aps_isActive state = false \/ aps_type state <> XR_ACTION_TYPE_POSE_INPUT ->
        pose_dispatch o state = [])
  /\ (length (flat_map (pose_dispatch o) records) <= length records)%nat
  /\ (_use_ctypes o = true ->
        length records = size (_callback_action_pose_events o)).
Proof.
  intros o records Hstub Happ Hreg. subst o.
  assert (Hrun : forall w1 : world,
            self w1 = self w \/
            self w1 = with_render_callback
                        (set__callback_render None (self w)) ->
            trace w1 = trace w ->
            fst (render_dispatch rt_result rt_states w1) = Ok rt_result
            /\ trace (snd (render_dispatch rt_result rt_states w1)) =
                 trace w ++ flat_map (pose_dispatch (self w)) records).
  { intros w1 Hself Htrace.
    assert (Hinstalled : with_render_callback (set__callback_render None (self w)) =
              set__callback_middle_render
                (Some (if _use_ctypes (self w) then CFunction InternalRender
                       else MiddleCallback))
                (set__callback_render (Some InternalRender) (self w))).
    { unfold with_render_callback. simpl. by rewrite Hstub. }
    rewrite Hinstalled in Hself.
    assert (E1 : _disable_openxr (self w1) = false) by (destruct Hself as [->| ->]; done).
    assert (E2 : _app (self w1) = Some tt) by (destruct Hself as [->| ->]; done).
    assert (E3 : _use_ctypes (self w1) = _use_ctypes (self w))
      by (destruct Hself as [->| ->]; done).
    assert (E4 : _callback_action_pose_events (self w1)
                 = _callback_action_pose_events (self w))
      by (destruct Hself as [->| ->]; done).
    assert (E5 : forall s, pose_dispatch (self w1) s = pose_dispatch (self w) s).
    { intros s. unfold pose_dispatch. rewrite E4.
      by destruct Hself as [->| ->]. }
    assert (E6 : forall s, pose_registered (self w1) s = pose_registered (self w) s).
    { intros s. unfold pose_registered. by rewrite E4. }
    unfold render_dispatch. run_monad. rewrite E1, E3. subst records.
    destruct (_use_ctypes (self w)); simpl; rewrite E2; simpl.
    - rewrite E4. rewrite render_views_loop_trace; simpl.
      + rewrite Htrace. split; [reflexivity|]. f_equal.
        apply flat_map_ext. intros s. apply E5.
      + rewrite <- Hreg. apply forallb_pointwise. intros s. apply E6.
    - rewrite render_views_loop_trace; simpl.
      + rewrite Htrace. split; [reflexivity|]. f_equal.
        apply flat_map_ext. intros s. apply E5.
      + rewrite <- Hreg. apply forallb_pointwise. intros s. apply E6. }
  assert (Hw1 : exists w1,
            (self w1 = self w
             \/ self w1 = with_render_callback
                            (set__callback_render None (self w)))
            /\ trace w1 = trace w
            /\ render_views rs rt_result rt_states w =
                 render_dispatch rt_result rt_states w1).
  { rewrite render_views_unfold.
    unfold subscribe_render_event, call_runtime, bind, get_self, assign, ret, raise.
    simpl. destruct (_callback_render (self w)) as [c|].
    - exists w. by repeat split; [left|..].
    - rewrite Hstub. simpl. rewrite Happ.
      exists (mkWorld (with_render_callback (set__callback_render None (self w)))
                      (trace w)).
      split; [by right|]. split; [reflexivity|].
      unfold with_render_callback. simpl. by rewrite Hstub. }
  assert (Hboth : fst (render_views rs rt_result rt_states w) = Ok rt_result
                  /\ trace (snd (render_views rs rt_result rt_states w)) =
                       trace w ++ flat_map (pose_dispatch (self w)) records).
  { destruct Hw1 as (w1 & Hself & Htrace & ->). by apply Hrun. }
  destruct Hboth as [H1 H2].
  split; [exact H1|]. split; [exact H2|]. split; [|split].
  - intros state [Hinactive|Htype]; unfold pose_dispatch.
    + by rewrite Hinactive, andb_false_r.
    + apply Z.eqb_neq in Htype. by rewrite Htype.
  - apply length_pose_dispatch.
  - intros Hctypes. subst records. rewrite Hctypes. apply length_ctypes_array.
Qed.

Lemma X9_render_dispatch_witness :
  let grip := "/user/hand/left/input/grip/pose" in
  let o := set__use_ctypes true
             (set__callback_action_pose_events {[ grip := Some 7%nat ]}
                (set__app (Some tt) (acquire_openxr_interface false))) in
  let pose := mkXrPosef (mkXrQuaternionf 0 0 0 1) (mkXrVector3f 1 2 3) in
  let states :=
    [ mkActionPoseState XR_ACTION_TYPE_POSE_INPUT grip true pose;
      mkActionPoseState XR_ACTION_TYPE_POSE_INPUT grip true pose ] in
  fst (render_views 2 true states (mkWorld o [])) = Ok true
  /\ length (trace (snd (render_views 2 true states (mkWorld o [])))) = 1%nat.
Proof.
  intros grip o pose states.
  destruct (X9_render_dispatch 2 true states (mkWorld o []) eq_refl eq_refl eq_refl)
    as (Hret & Htrace & _).
  split; [exact Hret|]. by rewrite Htrace.
Defined.

(** ** The poll cycle *)

Lemma poll_loop_invocations (use_ctypes : bool) (states : list ActionState) (w : world) :
  exists added,
    trace (snd (poll_actions_loop use_ctypes states w)) = trace w ++ added
    /\ (length added <= length states)%nat
    /\ Forall (fun e => exists cb path v,
                 e = Invoke cb path v
                 /\ _callback_action_events (self w) !! path = Some (Some cb)) added.
Proof.
  revert w. induction states as [|state rest IH]; intros w.
  - exists []. simpl. unfold ret. simpl. rewrite app_nil_r. by repeat split.
  - simpl. destruct (use_ctypes && (as_type state =? 0)%Z).
    + exists []. unfold ret. simpl. rewrite app_nil_r.
      repeat split; [simpl; lia | constructor].
    + destruct (decode_action state) as [v|].
      * unfold invoke_callback. run_monad.
        destruct (_callback_action_events (self w) !! as_path state)
          as [[cb|]|] eqn:Ecb; simpl.
        -- destruct (IH (mkWorld (self w) (trace w ++ [Invoke cb (as_path state) v])))
             as (added & Htrace & Hlen & Hall).
           exists (Invoke cb (as_path state) v :: added). simpl in *.
           rewrite Htrace, <- app_assoc. repeat split; [simpl; lia|].
           constructor; [by eauto | exact Hall].
        -- exists []. rewrite app_nil_r. repeat split; [simpl; lia | constructor].
        -- exists []. rewrite app_nil_r. repeat split; [simpl; lia | constructor].
      * destruct (IH w) as (added & Htrace & Hlen & Hall).
        exists added. repeat split; [exact Htrace | lia | exact Hall].
Qed.

(** X10.  Whatever the runtime returns and whether the cycle ends
    normally or raises, [poll_actions] only ever invokes a callback that
    is registered in the action map, with the path it is registered
    under; it makes at most one invocation per record it is given, and on
    the ctypes transport at most as many as there are registered paths. *)
Theorem X10_poll_invocations_are_registered (rt_result : bool)
    (rt_states : list ActionState) (w : world) :
  exists added,
    trace (snd (poll_actions rt_result rt_states w)) = trace w ++ added
    /\ (length added <=
          if _use_ctypes (self w) then size (_callback_action_events (self w))
          else length rt_states)%nat
    /\ Forall (fun e => exists cb path v,
                 e = Invoke cb path v
                 /\ _callback_action_events (self w) !! path = Some (Some cb)) added.
Proof.
  unfold poll_actions. run_monad.
  destruct (_disable_openxr (self w)); simpl.
  { exists []. rewrite app_nil_r. repeat split; [simpl; lia | constructor]. }
  destruct (_use_ctypes (self w)); simpl;
    (destruct (_app (self w)); simpl;
     [| exists []; rewrite app_nil_r; repeat split; [simpl; lia | constructor]]).
  - destruct (poll_loop_invocations true
                (ctypes_array ActionState_zero (size (_callback_action_events (self w)))
                   rt_states) w) as (added & Htrace & Hlen & Hall).
    rewrite length_ctypes_array in Hlen.
    exists added.
    destruct (poll_actions_loop true _ w) as [[?|?] w']; simpl in *; by repeat split.
  - destruct (poll_loop_invocations false rt_states w)
      as (added & Htrace & Hlen & Hall).
    exists added.
    destruct (poll_actions_loop false rt_states w) as [[?|?] w']; simpl in *;
      by repeat split.
Qed.

Lemma poll_loop_app (use_ctypes : bool) (before rest : list ActionState) (w : world) :
  forallb (fun s => negb (as_type s =? 0)%Z) before = true ->
  forallb (action_registered (self w)) before = true ->
  poll_actions_loop use_ctypes (before ++ rest) w =
    poll_actions_loop use_ctypes rest
      (mkWorld (self w) (trace w ++ flat_map (action_dispatch (self w)) before)).
Proof.
  revert w. induction before as [|state before IH]; intros w Hnonzero Hreg.
  - simpl. rewrite app_nil_r. by destruct w.
  - simpl in *. apply andb_prop in Hnonzero as [Hs Hnonzero].
    apply andb_prop in Hreg as [Hstate Hreg].
    apply negb_true_iff in Hs. rewrite Hs, andb_false_r.
    unfold action_registered in Hstate. unfold action_dispatch at 1.
    destruct (decode_action state) as [v|].
    + unfold invoke_callback. run_monad.
      destruct (_callback_action_events (self w) !! as_path state)
        as [[cb|]|]; try discriminate.
      rewrite (IH (mkWorld (self w) (trace w ++ [Invoke cb (as_path state) v])))
        by assumption.
      simpl. by rewrite <- app_assoc.
    + by rewrite (IH w).
Qed.

(** X11.  A record of a dispatched type whose path is not in the action
    map stops the poll with [KeyError], and one whose path is registered
    without a callback stops it with [TypeError]: the callbacks of the
    records before it have been invoked, those of the records after it
    are not, and the object is unchanged. *)
Theorem X11_unregistered_record_stops_the_poll (use_ctypes : bool)
    (before after : list ActionState) (bad : ActionState) (v : value) (w : world) :
  forallb (fun s => negb (as_type s =? 0)%Z) before = true ->
  forallb (action_registered (self w)) before = true ->
  decode_action bad = Some v ->
  as_type bad <> 0%Z ->
  let dispatched :=
    mkWorld (self w) (trace w ++ flat_map (action_dispatch (self w)) before) in
  (_callback_action_events (self w) !! as_path bad = None ->
     poll_actions_loop use_ctypes (before ++ bad :: after) w = (Raise KeyError, dispatched))
  /\ (_callback_action_events (self w) !! as_path bad = Some None ->
        poll_actions_loop use_ctypes (before ++ bad :: after) w =
          (Raise TypeError, dispatched)).
Proof.
  intros Hnonzero Hreg Hdecode Htype dispatched.
  apply Z.eqb_neq in Htype.
  split; intros Hcb; rewrite poll_loop_app by assumption; simpl;
    rewrite Htype, andb_false_r, Hdecode; unfold invoke_callback; run_monad;
    by rewrite Hcb.
Qed.

Lemma X11_unregistered_record_stops_the_poll_witness :
  let click := "/user/hand/left/input/menu/click" in
  let o := set__callback_action_events {[ click := Some 1%nat ]}
             (set__app (Some tt) (acquire_openxr_interface false)) in
  let known := mkActionState XR_ACTION_TYPE_BOOLEAN_INPUT click true true 0 0 0 in
  let unknown := mkActionState XR_ACTION_TYPE_FLOAT_INPUT "/unknown/value" true false 0 0 0 in
  poll_actions_loop false ([known] ++ unknown :: [known]) (mkWorld o []) =
    (Raise KeyError, mkWorld o [Invoke 1%nat click (VBool true)]).
Proof.
  intros click o known unknown.
  exact (proj1 (X11_unregistered_record_stops_the_poll false [known] [known] unknown
                  (VFloat 0) (mkWorld o []) eq_refl eq_refl eq_refl ltac:(discriminate))
               eq_refl).
Defined.

Lemma poll_loop_transports (states : list ActionState) (k : nat) (w : world) :
  forallb (fun s => negb (as_type s =? 0)%Z) states = true ->
  poll_actions_loop true (states ++ replicate k ActionState_zero) w =
    poll_actions_loop false states w.
Proof.
  revert w. induction states as [|state rest IH]; intros w Hnonzero.
  - simpl. by destruct k.
  - simpl in *. apply andb_prop in Hnonzero as [Hs Hnonzero].
    apply negb_true_iff in Hs. rewrite Hs. simpl.
    destruct (decode_action state) as [v|]; [|by apply IH].
    unfold bind. destruct (invoke_callback _ _ _ w) as [[u|e] w']; [|reflexivity].
    by apply IH.
Qed.

(** X12.  The two transports dispatch alike as long as the runtime
    reports typed records only and no more of them than there are
    registered paths: on two initialised objects that differ in the
    transport alone, [poll_actions] gives the same result and makes the
    same invocations. *)
Theorem X12_transports_agree (rt_result : bool) (rt_states : list ActionState)
    (o : OpenXR) (events : list event) :
  _disable_openxr o = false ->
  _app o = Some tt ->
  forallb (fun s => negb (as_type s =? 0)%Z) rt_states = true ->
  (length rt_states <= size (_callback_action_events o))%nat ->
  let by_ctypes := poll_actions rt_result rt_states
                     (mkWorld (set__use_ctypes true o) events) in
  let by_pybind := poll_actions rt_result rt_states
                     (mkWorld (set__use_ctypes false o) events) in
  fst by_ctypes = fst by_pybind
  /\ trace (snd by_ctypes) = trace (snd by_pybind).
Proof.
  intros Hstub Happ Hnonzero Hlen by_ctypes by_pybind.
  subst by_ctypes by_pybind. unfold poll_actions. run_monad.
  rewrite !Hstub. simpl. rewrite !Happ. simpl.
  set (n := size (_callback_action_events o)) in *.
  assert (Harray : ctypes_array ActionState_zero n rt_states =
                   rt_states ++ replicate (n - length rt_states) ActionState_zero).
  { unfold ctypes_array.
    replace n with (length rt_states + (n - length rt_states))%nat at 1 by lia.
    rewrite take_app_add. f_equal.
    rewrite take_replicate. f_equal. lia. }
  rewrite Harray.
  assert (Hloops : forall o1 o2,
            _callback_action_events o1 = _callback_action_events o2 ->
            forall states ev,
              fst (poll_actions_loop false states (mkWorld o1 ev)) =
                fst (poll_actions_loop false states (mkWorld o2 ev))
              /\ trace (snd (poll_actions_loop false states (mkWorld o1 ev))) =
                   trace (snd (poll_actions_loop false states (mkWorld o2 ev)))).
  { intros o1 o2 Hmaps states. induction states as [|s rest IH]; intros ev; [done|].
    simpl. destruct (decode_action s) as [v|]; [|apply IH].
    unfold invoke_callback. run_monad. rewrite Hmaps.
    destruct (_callback_action_events o2 !! as_path s) as [[cb|]|]; simpl;
      [apply IH | done | done]. }
  rewrite poll_loop_transports by exact Hnonzero.
  destruct (Hloops (set__use_ctypes true o) (set__use_ctypes false o) eq_refl
              rt_states events) as [Hfst Htrace].
  destruct (poll_actions_loop false rt_states (mkWorld (set__use_ctypes true o) events))
    as [[u1|e1] w1];
    destruct (poll_actions_loop false rt_states (mkWorld (set__use_ctypes false o) events))
    as [[u2|e2] w2]; simpl in *; try discriminate; split; congruence.
Qed.

Lemma X12_transports_agree_witness :
  let click := "/user/hand/left/input/menu/click" in
  let o := set__callback_action_events {[ click := Some 1%nat ]}
             (set__app (Some tt) (acquire_openxr_interface false)) in
  let states := [mkActionState XR_ACTION_TYPE_BOOLEAN_INPUT click true true 0 0 0] in
  trace (snd (poll_actions true states (mkWorld (set__use_ctypes true o) []))) =
    trace (snd (poll_actions true states (mkWorld (set__use_ctypes false o) []))).
Proof.
  intros click o states.
  exact (proj2 (X12_transports_agree true states o [] eq_refl eq_refl eq_refl
                  ltac:(vm_compute; lia))).
Defined.

(** ** The registry over time *)

Lemma subscribe_maps (path : string) (cb : option callback)
    (action_type reference_space : option Z) (rt_added : bool) (w : world) :
  let o' := self (snd (subscribe_action_event path cb action_type reference_space
                         rt_added w)) in
  (_callback_action_events o' = _callback_action_events (self w)
   \/ _callback_action_events o' = <[path := cb]> (_callback_action_events (self w)))
  /\ (_callback_action_pose_events o' = _callback_action_pose_events (self w)
      \/ _callback_action_pose_events o' =
           <[path := cb]> (_callback_action_pose_events (self w))).
Proof.
  unfold subscribe_action_event.
  assert (Hgo : forall t,
    let o' := self (snd (
      (if bool_decide (cb = None) && negb (t =? XR_ACTION_TYPE_VIBRATION_OUTPUT)%Z
       then raise ValueError
       else
         do o <- get_self;
         assign (set__callback_action_events (<[path := cb]> (_callback_action_events o))) ;;
         (if (t =? XR_ACTION_TYPE_POSE_INPUT)%Z then
            do o <- get_self;
            assign (set__callback_action_pose_events
                      (<[path := cb]> (_callback_action_pose_events o)))
          else ret tt) ;;
         do o <- get_self;
         if _disable_openxr o then ret true
         else call_runtime rt_added) w)) in
    (_callback_action_events o' = _callback_action_events (self w)
     \/ _callback_action_events o' = <[path := cb]> (_callback_action_events (self w)))
    /\ (_callback_action_pose_events o' = _callback_action_pose_events (self w)
        \/ _callback_action_pose_events o' =
             <[path := cb]> (_callback_action_pose_events (self w)))).
  { intros t.
    destruct (bool_decide (cb = None) && negb (t =? XR_ACTION_TYPE_VIBRATION_OUTPUT)%Z).
    - simpl. by split; left.
    - run_monad.
      destruct (t =? XR_ACTION_TYPE_POSE_INPUT)%Z; simpl;
        destruct (_disable_openxr (self w)); simpl;
        try destruct (_app (self w)); simpl;
        (split; [by right | first [by right | by left]]). }
  destruct action_type as [t|].
  - exact (Hgo t).
  - unfold bind at 1. destruct (infer_action_type path) as [t|e].
    + exact (Hgo t).
    + simpl. by split; left.
Qed.

Lemma maps_perform (c : call) (I : OpenXR -> Prop) :
  (forall p, subscribes p c = false) ->
  (forall o o',
     _callback_action_events o' = _callback_action_events o ->
     _callback_action_pose_events o' = _callback_action_pose_events o ->
     I o -> I o') ->
  preserves I (perform c).
Proof.
  intros Hc HI.
  assert (Hset : forall f : OpenXR -> OpenXR,
            (forall o, _callback_action_events (f o) = _callback_action_events o
                       /\ _callback_action_pose_events (f o)
                          = _callback_action_pose_events o) ->
            preserves I (assign f)).
  { intros f Hf. apply preserves_assign. intros o Ho.
    destruct (Hf o) as (H1 & H2). by apply (HI o). }
  destruct c;
    try (specialize (Hc path); simpl in Hc;
         by rewrite bool_decide_eq_true_2 in Hc);
    simpl;
    unfold discard, init, create_instance, get_system, create_session, poll_events,
      poll_actions, render_views, subscribe_render_event, preview,
      set_reference_system_pose, set_stereo_rectification,
      imul_left, imul_right, set_meters_per_unit, set_frame_transformations;
    repeat first
      [ preserve_step
      | apply preserves_poll_actions_loop
      | apply preserves_render_views_loop
      | apply Hset; intros; by repeat split ].
Qed.

Lemma non_subscribing_keeps_maps (c : call) (w : world) :
  (forall p, subscribes p c = false) ->
  _callback_action_events (self (snd (perform c w))) = _callback_action_events (self w)
  /\ _callback_action_pose_events (self (snd (perform c w)))
     = _callback_action_pose_events (self w).
Proof.
  intros Hc.
  apply (maps_perform c
           (fun o' => _callback_action_events o' = _callback_action_events (self w)
                      /\ _callback_action_pose_events o'
                         = _callback_action_pose_events (self w)) Hc).
  - intros o o' H1 H2 [H3 H4]. split; congruence.
  - by split.
Qed.

Lemma registry_step (c : call) (w : world) (path : string) :
  let o := self w in
  let o' := self (snd (perform c w)) in
  dom (_callback_action_events o) ⊆ dom (_callback_action_events o')
  /\ dom (_callback_action_pose_events o) ⊆ dom (_callback_action_pose_events o')
  /\ (subscribes path c = false ->
        _callback_action_events o' !! path = _callback_action_events o !! path
        /\ _callback_action_pose_events o' !! path
           = _callback_action_pose_events o !! path).
Proof.
  intros o o'. subst o o'.
  destruct c as [| | | | | | |p cb t rs rt| | | | | |];
    try (match goal with
         | |- context [perform ?c w] =>
             destruct (non_subscribing_keeps_maps c w) as [-> ->];
             [intros; reflexivity|]
         end; by repeat split).
  simpl. unfold discard.
  destruct (subscribe_maps p cb t rs rt w) as [Hev Hpose].
  unfold bind.
  destruct (subscribe_action_event p cb t rs rt w) as [[b|e] w']; simpl in *.
  all: split; [destruct Hev as [->| ->]; [done | apply dom_insert_subseteq]|].
  all: split; [destruct Hpose as [->| ->]; [done | apply dom_insert_subseteq]|].
  all: intros Hne; apply bool_decide_eq_false in Hne.
  all: split; [destruct Hev as [->| ->]; [done | by apply lookup_insert_ne]
              | destruct Hpose as [->| ->]; [done | by apply lookup_insert_ne]].
Qed.

(** X13.  There is no way to remove a registration: over any sequence
    of calls the paths of the action map and of the pose map only grow,
    and the callback recorded for a path changes only in a call that
    subscribes that very path. *)
Theorem X13_registrations_only_grow (calls : list call) (w : world) (path : string) :
  let o := self w in
  let o' := self (perform_all calls w) in
  dom (_callback_action_events o) ⊆ dom (_callback_action_events o')
  /\ dom (_callback_action_pose_events o) ⊆ dom (_callback_action_pose_events o')
  /\ (forallb (fun c => negb (subscribes path c)) calls = true ->
        _callback_action_events o' !! path = _callback_action_events o !! path
        /\ _callback_action_pose_events o' !! path
           = _callback_action_pose_events o !! path).
Proof.
  revert w. induction calls as [|c calls IH]; intros w; [done|].
  simpl. destruct (IH (snd (perform c w))) as (IH1 & IH2 & IH3).
  destruct (registry_step c w path) as (S1 & S2 & S3).
  split; [by etrans|]. split; [by etrans|].
  intros Hcalls. apply andb_prop in Hcalls as [Hc Hrest].
  apply negb_true_iff in Hc.
  destruct (S3 Hc) as [S3a S3b]. destruct (IH3 Hrest) as [IH3a IH3b].
  split; congruence.
Qed.

(** X14.  Subscribing a path again replaces its callback in the action
    map without adding a path, so the number of registered paths, which
    sizes the ctypes array, stays the same.  When the new subscription is
    not pose-typed the pose map is left alone: a path that was subscribed
    as a pose keeps its old pose callback, and [render_views] goes on
    delivering poses to it. *)
Theorem X14_resubscription (w : world) (path : string) (cb : option callback)
    (action_type reference_space : option Z) (rt_added : bool) (t : Z) :
  resolved_action_type path action_type = Ok t ->
  (cb = None -> t = XR_ACTION_TYPE_VIBRATION_OUTPUT) ->
  let o := self w in
  let o' := self (snd (subscribe_action_event path cb action_type reference_space
                         rt_added w)) in
  _callback_action_events o' !! path = Some cb
  /\ (path ∈ dom (_callback_action_events o) ->
        size (_callback_action_events o') = size (_callback_action_events o))
  /\ (path ∉ dom (_callback_action_events o) ->
        size (_callback_action_events o') = S (size (_callback_action_events o)))
  /\ (t <> XR_ACTION_TYPE_POSE_INPUT ->
        _callback_action_pose_events o' = _callback_action_pose_events o
        /\ forall state, pose_dispatch o' state = pose_dispatch o state).
Proof.
  intros Ht Hcb o o'. subst o o'.
  destruct (subscribe_action_event_effect w path cb action_type reference_space
              rt_added t Ht Hcb) as (Hev & Hpose & _ & _).
  assert (Hm : _meters_per_unit
                 (self (snd (subscribe_action_event path cb action_type
                               reference_space rt_added w)))
               = _meters_per_unit (self w)).
  { clear Hev Hpose. unfold subscribe_action_event.
    unfold call_runtime, bind. destruct action_type as [t0|]; simpl in Ht.
    - inversion Ht; subst t0. unfold ret at 1.
      destruct (bool_decide (cb = None)
                && negb (t =? XR_ACTION_TYPE_VIBRATION_OUTPUT)%Z); [done|].
      run_monad.
      destruct (t =? XR_ACTION_TYPE_POSE_INPUT)%Z; simpl;
        destruct (_disable_openxr (self w)); simpl;
        try destruct (_app (self w)); done.
    - rewrite Ht. unfold ret at 1.
      destruct (bool_decide (cb = None)
                && negb (t =? XR_ACTION_TYPE_VIBRATION_OUTPUT)%Z); [done|].
      run_monad.
      destruct (t =? XR_ACTION_TYPE_POSE_INPUT)%Z; simpl;
        destruct (_disable_openxr (self w)); simpl;
        try destruct (_app (self w)); done. }
  rewrite Hev. split; [apply lookup_insert_eq|]. split; [|split].
  - intros Hin. apply elem_of_dom in Hin. by apply map_size_insert_Some.
  - intros Hnotin. apply not_elem_of_dom in Hnotin.
    by apply map_size_insert_None.
  - intros Hne. apply Z.eqb_neq in Hne. rewrite Hne in Hpose.
    split; [exact Hpose|].
    intros state. unfold pose_dispatch. by rewrite Hpose, Hm.
Qed.

Lemma X14_resubscription_witness :
  let grip := "/user/hand/left/input/grip/pose" in
  let w := mkWorld
             (set__callback_action_pose_events {[ grip := Some 1%nat ]}
                (set__callback_action_events {[ grip := Some 1%nat ]}
                   (acquire_openxr_interface true))) [] in
  let o' := self (snd (subscribe_action_event grip (Some 2%nat)
                         (Some XR_ACTION_TYPE_BOOLEAN_INPUT) (Some 2%Z) true w)) in
  _callback_action_events o' !! grip = Some (Some 2%nat)
  /\ _callback_action_pose_events o' !! grip = Some (Some 1%nat).
Proof.
  intros grip w o'.
  destruct (X14_resubscription w grip (Some 2%nat) (Some XR_ACTION_TYPE_BOOLEAN_INPUT)
              (Some 2%Z) true XR_ACTION_TYPE_BOOLEAN_INPUT eq_refl ltac:(discriminate))
    as (Hev & _ & _ & Hpose).
  split; [exact Hev|].
  destruct (Hpose ltac:(discriminate)) as [Hmap _].
  subst o'. by rewrite Hmap.
Defined.

(** ** Rectification and the camera pose *)

Lemma norm2_mul (p q : Gf.Quatd) : norm2 (Gf.quat_mul p q) = (norm2 p * norm2 q)%R.
Proof. destruct p, q. unfold norm2, Gf.quat_mul. simpl. ring. Qed.

Lemma norm2_axis_quat (axis : nat) (a : R) : norm2 (axis_quat axis a) = 1%R.
Proof.
  pose proof (sin2_cos2 (a / 2)) as H. unfold Rsqr in H.
  destruct axis as [|[|axis]]; unfold norm2, axis_quat; simpl; lra.
Qed.

Lemma rectification_after (x y z : R) (w : world) :
  _rectification_quat_left (self (snd (set_stereo_rectification x y z w))) =
    Gf.quat_mul (Gf.quat_mul (axis_quat 0 x) (axis_quat 1 y)) (axis_quat 2 z)
  /\ _rectification_quat_right (self (snd (set_stereo_rectification x y z w))) =
       Gf.quat_mul (Gf.quat_mul (axis_quat 0 (- x)) (axis_quat 1 (- y)))
                   (axis_quat 2 (- z)).
Proof.
  destruct (set_stereo_rectification_steps x y z w) as (_ & _ & -> & ->).
  by rewrite !rectify_step_mul, !quat_mul_identity_l.
Qed.

Lemma rectification_perform (c : call) (I : OpenXR -> Prop) :
  is_rectification c = false ->
  (forall o o',
     _rectification_quat_left o' = _rectification_quat_left o ->
     _rectification_quat_right o' = _rectification_quat_right o ->
     I o -> I o') ->
  preserves I (perform c).
Proof.
  intros Hc HI.
  assert (Hset : forall f : OpenXR -> OpenXR,
            (forall o, _rectification_quat_left (f o) = _rectification_quat_left o
                       /\ _rectification_quat_right (f o)
                          = _rectification_quat_right o) ->
            preserves I (assign f)).
  { intros f Hf. apply preserves_assign. intros o Ho.
    destruct (Hf o) as (H1 & H2). by apply (HI o). }
  destruct c; try discriminate Hc; simpl;
    unfold discard, init, create_instance, get_system, create_session, poll_events,
      poll_actions, render_views, subscribe_render_event, preview,
      subscribe_action_event, set_reference_system_pose,
      set_meters_per_unit, set_frame_transformations;
    repeat first
      [ preserve_step
      | apply preserves_poll_actions_loop
      | apply preserves_render_views_loop
      | apply Hset; intros; by repeat split ].
Qed.

Lemma unit_rectification_perform (c : call) (w : world) :
  norm2 (_rectification_quat_left (self w)) = 1%R
  /\ norm2 (_rectification_quat_right (self w)) = 1%R ->
  norm2 (_rectification_quat_left (self (snd (perform c w)))) = 1%R
  /\ norm2 (_rectification_quat_right (self (snd (perform c w)))) = 1%R.
Proof.
  intros Hw. destruct (is_rectification c) eqn:Ec.
  - destruct c; try discriminate Ec. simpl.
    destruct (rectification_after x y z w) as [-> ->].
    rewrite !norm2_mul, !norm2_axis_quat. split; ring.
  - apply (rectification_perform c
             (fun o => norm2 (_rectification_quat_left o) = 1%R
                       /\ norm2 (_rectification_quat_right o) = 1%R) Ec);
      [|exact Hw].
    intros o o' -> ->. done.
Qed.

(** X15.  The rectification quaternions always have norm one: after
    every [set_stereo_rectification], and hence in every state a caller
    can bring about.  So a unit tracking orientation is still a unit
    quaternion when the internal render callback hands it to the camera.
    When a single angle is set, the right quaternion is the conjugate of
    the left one, and the two cancel. *)
Theorem X15_rectification_is_unit (w : world) (x y z : R) :
  let after := self (snd (set_stereo_rectification x y z w)) in
  norm2 (_rectification_quat_left after) = 1%R
  /\ norm2 (_rectification_quat_right after) = 1%R
  /\ (forall o, reachable o ->
        norm2 (_rectification_quat_left o) = 1%R
        /\ norm2 (_rectification_quat_right o) = 1%R
        /\ forall q, norm2 (convert_orientation q) = 1%R ->
             norm2 (Gf.quat_mul (convert_orientation q)
                                (_rectification_quat_left o)) = 1%R
             /\ norm2 (Gf.quat_mul (convert_orientation q)
                                   (_rectification_quat_right o)) = 1%R)
  /\ (forall axis a,
        conjugate (axis_quat axis a) = axis_quat axis (- a)
        /\ Gf.quat_mul (axis_quat axis a) (axis_quat axis (- a)) = Gf.mkQuatd 1 0 0 0)
  /\ (y = 0%R -> z = 0%R ->
        _rectification_quat_right after = conjugate (_rectification_quat_left after)
        /\ Gf.quat_mul (_rectification_quat_left after)
                       (_rectification_quat_right after) = Gf.mkQuatd 1 0 0 0).
Proof.
  intros after. subst after.
  assert (Haxis : forall axis a,
            conjugate (axis_quat axis a) = axis_quat axis (- a)
            /\ Gf.quat_mul (axis_quat axis a) (axis_quat axis (- a)) = Gf.mkQuatd 1 0 0 0).
  { intros axis a.
    pose proof (sin2_cos2 (a / 2)) as H. unfold Rsqr in H.
    assert (Hc : cos (- a / 2) = cos (a / 2))
      by (replace (- a / 2)%R with (- (a / 2))%R by lra; apply cos_neg).
    assert (Hs : sin (- a / 2) = (- sin (a / 2))%R)
      by (replace (- a / 2)%R with (- (a / 2))%R by lra; apply sin_neg).
    destruct axis as [|[|axis]]; unfold conjugate, axis_quat, Gf.quat_mul; simpl;
      rewrite Hc, Hs; split; f_equal; lra. }
  destruct (rectification_after x y z w) as [Hl Hr].
  split; [rewrite Hl, !norm2_mul, !norm2_axis_quat; ring|].
  split; [rewrite Hr, !norm2_mul, !norm2_axis_quat; ring|].
  split; [|split; [exact Haxis|]].
  - intros o (d & calls & ->).
    assert (Hunit : forall w0,
              norm2 (_rectification_quat_left (self w0)) = 1%R
              /\ norm2 (_rectification_quat_right (self w0)) = 1%R ->
              norm2 (_rectification_quat_left (self (perform_all calls w0))) = 1%R
              /\ norm2 (_rectification_quat_right (self (perform_all calls w0))) = 1%R).
    { induction calls as [|c calls IH]; intros w0 Hw0; [exact Hw0|].
      simpl. apply IH. by apply unit_rectification_perform. }
    destruct (Hunit (mkWorld (acquire_openxr_interface d) [])) as [H1 H2].
    { unfold norm2; simpl. split; ring. }
    split; [exact H1|]. split; [exact H2|].
    intros q Hq. rewrite !norm2_mul, Hq, H1, H2. split; ring.
  - intros -> ->. rewrite Hl, Hr.
    replace (- 0)%R with 0%R by lra.
    rewrite !axis_quat_zero, !quat_mul_identity_r.
    destruct (Haxis 0%nat x) as [Hconj Hcancel]. by rewrite Hconj.
Qed.

Lemma recommended_resolutions_keep (rt_ok : bool) (rt_views : list XrViewConfigurationView)
    (w : world) :
  snd (get_recommended_resolutions rt_ok rt_views w) = w.
Proof.
  unfold get_recommended_resolutions. run_monad.
  destruct (_disable_openxr (self w)); [done|].
  destruct (_app (self w)); [|done]. simpl.
  by destruct (_use_ctypes (self w) && negb rt_ok).
Qed.

(** X16.  The internal render callback depends on the cameras having
    been set up.  Without a left camera prim it raises [AttributeError]
    before anything is moved; when the right camera prim is missing, the
    left camera has already been moved when it raises; and unless exactly
    two views are announced the right camera is never moved, however many
    views are supplied.  Handed a list, as on the pybind11 transport, it
    raises [IndexError] for a view the list does not hold, after moving
    the left camera when it is the second one.  Handed a pointer, as on
    the ctypes transport, it raises [ValueError] when the pointer is null
    and never [IndexError]: with two views announced it moves the right
    camera to whatever lies behind the first view; where the memory holds
    the views of a list, it does what it does for the list. *)
Theorem X16_internal_render_needs_cameras (w : world) (v : XrView) (rest : list XrView)
    (rt_ok : bool) (rt_views : list XrViewConfigurationView) :
  let moved quat target view :=
    Teleport target
      match _reference_position (self w) with
      | Some r => Gf.vec_add r (convert_position (_meters_per_unit (self w))
                                  (position (view_pose view)))
      | None => convert_position (_meters_per_unit (self w)) (position (view_pose view))
      end
      (_reference_rotation (self w))
      (Gf.quat_mul (convert_orientation (orientation (view_pose view)))
                   (quat (self w))) in
  let moved_left := moved _rectification_quat_left in
  let moved_right := moved _rectification_quat_right in
  (forall n, _internal_render n [] rt_ok rt_views w = (Raise IndexError, w))
  /\ (forall n, _prim_left (self w) = None ->
        _internal_render n (v :: rest) rt_ok rt_views w = (Raise AttributeError, w))
  /\ (forall target, _prim_left (self w) = Some target ->
        _internal_render 2 [v] rt_ok rt_views w =
          (Raise IndexError, mkWorld (self w) (trace w ++ [moved_left target v])))
  /\ (forall target v', _prim_left (self w) = Some target ->
        _prim_right (self w) = None ->
        _internal_render 2 (v :: v' :: rest) rt_ok rt_views w =
          (Raise AttributeError, mkWorld (self w) (trace w ++ [moved_left target v])))
  /\ (forall target n, _prim_left (self w) = Some target -> n <> 2%Z ->
        snd (_internal_render n (v :: rest) rt_ok rt_views w) =
          mkWorld (self w) (trace w ++ [moved_left target v]))
  /\ (forall n,
        _internal_render n (ViewPointer None) rt_ok rt_views w = (Raise ValueError, w))
  /\ (forall n memory,
        fst (_internal_render n (ViewPointer (Some memory)) rt_ok rt_views w)
          <> Raise IndexError)
  /\ (forall left_target right_target memory,
        _prim_left (self w) = Some left_target ->
        _prim_right (self w) = Some right_target ->
        snd (_internal_render 2 (ViewPointer (Some memory)) rt_ok rt_views w) =
          mkWorld (self w)
            (trace w ++ [moved_left left_target (memory 0%nat);
                         moved_right right_target (memory 1%nat)]))
  /\ (forall n memory (views : list XrView),
        (forall i view, views !! i = Some view -> memory i = view) ->
        ((if (n =? 2)%Z then 2 else 1) <= length views)%nat ->
        _internal_render n (ViewPointer (Some memory)) rt_ok rt_views w =
          _internal_render n views rt_ok rt_views w).
Proof.
  intros moved moved_left moved_right. subst moved_left moved_right moved.
  assert (Hkeep : forall w0 : world,
            snd (discard (get_recommended_resolutions rt_ok rt_views) w0) = w0
            /\ fst (discard (get_recommended_resolutions rt_ok rt_views) w0)
                <> Raise IndexError).
  { intros w0. unfold get_recommended_resolutions. run_monad.
    destruct (_disable_openxr (self w0)); [done|].
    destruct (_app (self w0)); [|done]. simpl.
    by destruct (_use_ctypes (self w0) && negb rt_ok). }
  split; [|split; [|split; [|split; [|split; [|split; [|split; [|split]]]]]]].
  - intros n. reflexivity.
  - intros n Hleft. unfold _internal_render, view_at, teleport_prim. run_monad.
    by rewrite Hleft.
  - intros target Hleft. unfold _internal_render, view_at, teleport_prim. run_monad.
    by rewrite Hleft.
  - intros target v' Hleft Hright. unfold _internal_render, view_at, teleport_prim.
    run_monad. by rewrite Hleft, Hright.
  - intros target n Hleft Hn. apply Z.eqb_neq in Hn.
    unfold _internal_render, view_at, teleport_prim.
    unfold bind, get_self, ret, raise, emit. simpl.
    rewrite Hleft, Hn. simpl.
    match goal with
    | |- context [get_recommended_resolutions rt_ok rt_views ?w0] =>
        pose proof (recommended_resolutions_keep rt_ok rt_views w0) as Hsame;
        destruct (get_recommended_resolutions rt_ok rt_views w0) as [[r|e] w']
    end; simpl in *; exact Hsame.
  - intros n. reflexivity.
  - intros n memory. unfold _internal_render, view_at, teleport_prim.
    unfold bind, get_self, ret, raise, emit. simpl.
    destruct (_prim_left (self w)); simpl; [|discriminate].
    destruct (n =? 2)%Z; simpl.
    + destruct (_prim_right (self w)); simpl; [|discriminate].
      match goal with
      | |- context [get_recommended_resolutions rt_ok rt_views ?w0] =>
          pose proof (proj2 (Hkeep w0)) as Hno; unfold discard, bind, ret in Hno;
          destruct (get_recommended_resolutions rt_ok rt_views w0) as [[r|e] w']
      end; simpl in *; [discriminate | exact Hno].
    + match goal with
      | |- context [get_recommended_resolutions rt_ok rt_views ?w0] =>
          pose proof (proj2 (Hkeep w0)) as Hno; unfold discard, bind, ret in Hno;
          destruct (get_recommended_resolutions rt_ok rt_views w0) as [[r|e] w']
      end; simpl in *; [discriminate | exact Hno].
  - intros left_target right_target memory Hleft Hright.
    unfold _internal_render, view_at, teleport_prim.
    unfold bind, get_self, ret, raise, emit. simpl.
    rewrite Hleft. simpl. rewrite Hright. simpl.
    rewrite <- app_assoc. simpl.
    match goal with
    | |- context [get_recommended_resolutions rt_ok rt_views ?w0] =>
        pose proof (recommended_resolutions_keep rt_ok rt_views w0) as Hsame;
        destruct (get_recommended_resolutions rt_ok rt_views w0) as [[r|e] w']
    end; simpl in *; exact Hsame.
  - intros n memory views Hmemory Hlength.
    unfold _internal_render, view_at.
    destruct views as [|v0 views]; [destruct (n =? 2)%Z; simpl in Hlength; lia|].
    rewrite (Hmemory 0%nat v0 eq_refl).
    destruct (n =? 2)%Z eqn:En; [|reflexivity].
    destruct views as [|v1 views]; [simpl in Hlength; lia|].
    by rewrite (Hmemory 1%nat v1 eq_refl).
Qed.

(** X17.  The three configuration calls compose with the render
    callback: after [set_reference_system_pose], [set_meters_per_unit]
    with a non-zero scale and [set_stereo_rectification], the internal
    render callback moves the left camera to the reference position plus
    [(x, -z, y) / m], writes the reference rotation, and turns the camera
    by the tracking orientation times the X, Y and Z rectification
    factors.  With the reference position unset, or set to the origin,
    the camera goes to [(x, -z, y) / m] itself. *)
Theorem X17_configuration_reaches_the_camera (w : world) (target : prim)
    (pos rot : option Gf.Vec3d) (m x y z : R) (q : XrQuaternionf) (P : XrVector3f)
    (fv : XrFovf) (rt_ok : bool) (rt_views : list XrViewConfigurationView) :
  _prim_left (self w) = Some target ->
  m <> 0%R ->
  let configured :=
    snd ((set_reference_system_pose pos rot ;;
          set_meters_per_unit m ;;
          set_stereo_rectification x y z) w) in
  let host := Gf.mkVec3d (px P / m) (- pz P / m) (py P / m) in
  trace (snd (_internal_render 1 [mkXrView (mkXrPosef q P) fv] rt_ok rt_views
                configured)) =
    trace w ++
    [Teleport target
       match pos with
       | Some r => Gf.vec_add r host
       | None => host
       end
       rot
       (Gf.quat_mul (Gf.mkQuatd (qw q) (qx q) (qy q) (qz q))
          (Gf.quat_mul (Gf.quat_mul (axis_quat 0 x) (axis_quat 1 y)) (axis_quat 2 z)))]
  /\ Gf.vec_add (Gf.mkVec3d 0 0 0) host = host.
Proof.
  intros Hleft Hm configured host.
  assert (Hconfigured :
    exists w1,
      configured = snd (set_stereo_rectification x y z w1)
      /\ trace w1 = trace w
      /\ _prim_left (self w1) = Some target
      /\ _meters_per_unit (self w1) = m
      /\ _reference_position (self w1) = pos
      /\ _reference_rotation (self w1) = rot).
  { exists (mkWorld (set__meters_per_unit m (set__reference pos rot (self w))) (trace w)).
    subst configured. unfold set_reference_system_pose, set_meters_per_unit.
    destruct (Req_dec_T m 0) as [|_]; [done|].
    unfold bind at 1 2, assign at 1 2. simpl. by repeat split. }
  destruct Hconfigured as (w1 & -> & Htrace & Hprim & Hscale & Hpos & Hrot).
  destruct (set_stereo_rectification_steps x y z w1) as (_ & Htr & _ & _).
  destruct (rectification_after x y z w1) as [Hl _].
  set (w2 := snd (set_stereo_rectification x y z w1)) in *.
  assert (Hkeep : _prim_left (self w2) = Some target
                  /\ _meters_per_unit (self w2) = m
                  /\ _reference_position (self w2) = pos
                  /\ _reference_rotation (self w2) = rot).
  { subst w2. unfold set_stereo_rectification, imul_left, imul_right. run_monad.
    destruct (truthy x), (truthy y), (truthy z); simpl; by repeat split. }
  destruct Hkeep as (Hprim2 & Hscale2 & Hpos2 & Hrot2).
  split.
  - unfold _internal_render, view_at, teleport_prim, get_recommended_resolutions.
    unfold call_runtime, discard, bind, get_self, ret, raise, emit. simpl.
    rewrite Hprim2, Hscale2, Hpos2, Hrot2, Hl, Htr, Htrace. simpl.
    rewrite convert_position_host. unfold host_position, convert_orientation. simpl.
    destruct (_disable_openxr (self w2)); simpl; [reflexivity|].
    destruct (_app (self w2)); simpl; [|reflexivity].
    destruct (_use_ctypes (self w2) && negb rt_ok); reflexivity.
  - subst host. unfold Gf.vec_add. simpl. f_equal; ring.
Qed.

Lemma X17_configuration_reaches_the_camera_witness :
  let w := mkWorld (set__views (Some 1%nat) None None None None None
                      (acquire_openxr_interface true)) [] in
  let configured :=
    snd ((set_reference_system_pose None None ;;
          set_meters_per_unit 2 ;;
          set_stereo_rectification 0 0 0) w) in
  _prim_left (self w) = Some 1%nat
  /\ (2 <> 0)%R
  /\ length (trace (snd (_internal_render 1
                           [mkXrView (mkXrPosef (mkXrQuaternionf 0 0 0 1)
                                                (mkXrVector3f 2 4 6))
                                     (mkXrFovf 0 0 0 0)]
                           true [] configured))) = 1%nat.
Proof.
  intros w configured.
  assert (H : (2 <> 0)%R) by lra.
  split; [reflexivity|]. split; [exact H|].
  subst configured.
  by rewrite (proj1 (X17_configuration_reaches_the_camera w 1%nat None None 2 0 0 0
                      (mkXrQuaternionf 0 0 0 1) (mkXrVector3f 2 4 6) (mkXrFovf 0 0 0 0)
                      true [] eq_refl H)).
Defined.

(** ** Frames: flipping *)

Lemma map_rev_involutive {A} (l : list (list A)) : map (@rev A) (map (@rev A) l) = l.
Proof.
  induction l as [|x rest IH]; [done|]. simpl. by rewrite rev_involutive, IH.
Qed.

Lemma flip_content_involutive (axis : nat) (img : image) :
  flip_content axis (flip_content axis img) = img.
Proof.
  destruct axis as [|[|axis]]; simpl.
  - apply rev_involutive.
  - apply map_rev_involutive.
  - induction img as [|row rest IH]; [done|]. simpl.
    by rewrite map_rev_involutive, IH.
Qed.

Lemma flip_content_comm (a b : nat) (img : image) :
  flip_content a (flip_content b img) = flip_content b (flip_content a img).
Proof.
  destruct a as [|[|a]], b as [|[|b]]; simpl; try reflexivity;
    rewrite ?map_rev; try reflexivity.
  - induction img as [|row rest IH]; [done|]. simpl. by rewrite map_rev, IH.
  - induction img as [|row rest IH]; [done|]. simpl. by rewrite map_rev, IH.
Qed.

Lemma flipped_comm (a : nat) (axes : list nat) (img : image) :
  flip_content a (flipped axes img) = flipped axes (flip_content a img).
Proof.
  unfold flipped. revert img. induction axes as [|b rest IH]; intros img; [done|].
  simpl. rewrite IH. by rewrite flip_content_comm.
Qed.

Lemma flipped_involutive (axes : list nat) (img : image) :
  flipped axes (flipped axes img) = img.
Proof.
  revert img. induction axes as [|a rest IH]; intros img; [done|].
  change (flipped (a :: rest) (flipped (a :: rest) img))
    with (flipped rest (flip_content a (flipped rest (flip_content a img)))).
  by rewrite flipped_comm, IH, flip_content_involutive.
Qed.

Lemma transform_flip_only (interpolate : image -> nat -> nat -> image) (o : OpenXR)
    (h : heap) (cv : XrViewConfigurationView) (frame : ndarray) (img : image)
    (axes : list nat) :
  content h frame = Some img ->
  flip_axes o = Ok axes ->
  _transform_flip o <> None ->
  _transform_fit o = false ->
  _transform interpolate o h cv frame = Ok (alloc h (flipped axes img)).
Proof.
  intros Hc Haxes Hflip Hfit.
  destruct (flip_step o h frame img axes Hc Haxes) as (frame1 & Hstep & Hc1 & _).
  unfold _transform. rewrite Hstep, Hfit.
  rewrite bool_decide_eq_true_2 by exact Hflip. by rewrite Hc1.
Qed.

(** X18.  With a flip configured and no fit, [_transform] returns an
    image of the same size, and transforming its result once more gives
    back the pixels of the original frame, in a third buffer: every
    configured flip, along one axis or several, is its own inverse.  The
    original frame still shows what it showed. *)
Theorem X18_flip_round_trip (interpolate : image -> nat -> nat -> image) (o : OpenXR)
    (h : heap) (cv : XrViewConfigurationView) (frame : ndarray) (img : image)
    (axes : list nat) :
  content h frame = Some img ->
  flip_axes o = Ok axes ->
  _transform_flip o <> None ->
  _transform_fit o = false ->
  exists once h1 twice h2,
    _transform interpolate o h cv frame = Ok (once, h1)
    /\ _transform interpolate o h1 cv once = Ok (twice, h2)
    /\ content h1 once = Some (flipped axes img)
    /\ content h2 twice = Some img
    /\ content h2 frame = Some img
    /\ base twice <> base once /\ base once <> base frame
    /\ (forall hh ww, rectangular img hh ww = true ->
          rectangular (flipped axes img) hh ww = true).
Proof.
  intros Hc Haxes Hflip Hfit.
  pose proof (transform_flip_only interpolate o h cv frame img axes Hc Haxes Hflip Hfit)
    as Hfirst.
  pose proof (content_alloc h (flipped axes img)) as Hc1.
  pose proof (transform_flip_only interpolate o _ cv _ _ axes Hc1 Haxes Hflip Hfit)
    as Hsecond.
  rewrite flipped_involutive in Hsecond.
  exists (fst (alloc h (flipped axes img))), (snd (alloc h (flipped axes img))).
  eexists _, _.
  split; [by rewrite Hfirst|]. split; [exact Hsecond|].
  split; [exact Hc1|].
  pose proof (content_base_allocated h frame img Hc) as Hlt.
  unfold alloc; simpl. repeat split.
  - unfold content; simpl. by rewrite list_lookup_middle.
  - rewrite <- app_assoc. by apply content_extend.
  - rewrite length_app. simpl. lia.
  - lia.
  - intros hh ww. apply rectangular_flipped.
Qed.

Lemma X18_flip_round_trip_witness :
  let blank : image -> nat -> nat -> image :=
    fun _ W H => replicate H (replicate W []) in
  let img : image := [[[1%Z]; [2%Z]]; [[3%Z]; [4%Z]]] in
  let cv := mkXrViewConfigurationView 4 4 4 4 1 1 in
  let o := set__transform false (Some (FlipTuple [0%Z; 1%Z]))
             (acquire_openxr_interface false) in
  exists once h1 twice h2,
    _transform blank o [img] cv (mkNdarray 0 []) = Ok (once, h1)
    /\ _transform blank o h1 cv once = Ok (twice, h2)
    /\ content h1 once = Some [[[4%Z]; [3%Z]]; [[2%Z]; [1%Z]]]
    /\ content h2 twice = Some img.
Proof.
  intros blank img cv o.
  destruct (X18_flip_round_trip blank o [img] cv (mkNdarray 0 []) img [0%nat; 1%nat]
              eq_refl eq_refl ltac:(discriminate) eq_refl)
    as (once & h1 & twice & h2 & H1 & H2 & H3 & H4 & _).
  exists once, h1, twice, h2. by repeat split.
Defined.

(** ** Frames: fitting *)

Lemma fit_crops_columns (interpolate : image -> nat -> nat -> image) (h : heap)
    (cv : XrViewConfigurationView) (frame : ndarray) (img : image) (hh ww : nat) (m : Z) :
  let W := recommendedImageRectWidth cv in
  let H := recommendedImageRectHeight cv in
  let recommended_ratio := true_div W H in
  content h frame = Some img ->
  rectangular img hh ww = true ->
  (0 < hh)%nat -> (0 < W)%nat -> (0 < H)%nat ->
  PrimFloat.ltb recommended_ratio (true_div ww hh) = true ->
  py_int (PrimFloat.abs (recommended_ratio * float_of_nat hh - float_of_nat ww) / 2)%float
    = Ok m ->
  (0 < m)%Z -> (2 * Z.to_nat m < ww)%nat ->
  fit interpolate h cv frame =
    Ok (alloc h (interpolate (crop_columns (Z.to_nat m) img) W H)).
Proof.
  intros W H recommended_ratio Hc Hrect Hh HW HH Hwider Hm Hpos Hfits.
  destruct (rectangular_shape img hh ww Hrect Hh) as [E0 E1].
  unfold fit. rewrite Hc, E0, E1.
  rewrite !py_div_int_positive by (assumption || lia). cbv zeta.
  subst recommended_ratio W H. rewrite Hwider, Hm.
  replace (m =? 0)%Z with false by (symmetry; apply Z.eqb_neq; lia).
  apply cv2_resize_allocates with hh (ww - 2 * Z.to_nat m)%nat; try assumption;
    [apply content_crop_columns; [lia | exact Hc]
    | by apply crop_columns_rectangular | lia].
Qed.

(** X19.  The margin is the one that double-precision arithmetic gives,
    which is not always the exact quotient.  A frame of 720 rows and 1280
    columns fitted to 352 by 288 loses 199 columns on each side and keeps
    882, whatever it shows and wherever it lives: the recommended ratio
    times 720 is rounded to a double just above 880, so that half the
    distance to 1280 lies just below 200, the margin that exact arithmetic
    gives, [(1280 * 288 - 352 * 720) / (2 * 288)].  Rounding can also take
    the whole frame: for one row of [4 * 10^9] columns against a
    recommended 1 by [2^32 - 1] the margin is [2 * 10^9], half the width,
    where exact arithmetic leaves two columns. *)
Theorem X19_margin_in_double_precision (interpolate : image -> nat -> nat -> image)
    (h : heap) (cv : XrViewConfigurationView) (frame : ndarray) (img : image) :
  content h frame = Some img ->
  rectangular img 720 1280 = true ->
  recommendedImageRectWidth cv = 352%nat ->
  recommendedImageRectHeight cv = 288%nat ->
  fit interpolate h cv frame =
    Ok (alloc h (interpolate (crop_columns 199 img) 352 288))
  /\ rectangular (crop_columns 199 img) 720 882 = true
  /\ py_int (PrimFloat.abs (true_div 352 288 * float_of_nat 720
                            - float_of_nat 1280) / 2)%float = Ok 199%Z
  /\ ((1280 * 288 - 352 * 720) / (2 * 288) = 200)%Z
  /\ py_int (PrimFloat.abs
               (true_div 1 (Z.to_nat 4294967295) * float_of_nat 1
                - float_of_nat (Z.to_nat 4000000000)) / 2)%float = Ok 2000000000%Z
  /\ ((4000000000 * 4294967295 - 1 * 1) / (2 * 4294967295) = 1999999999)%Z.
Proof.
  intros Hc Hrect EW EH.
  split; [|split; [|split; [|split; [|split]]]].
  - pose proof (fit_crops_columns interpolate h cv frame img 720 1280 199 Hc Hrect)
      as Hfit.
    rewrite EW, EH in Hfit. apply Hfit; try lia; reflexivity.
  - exact (crop_columns_rectangular 199 img 720 1280 Hrect).
  - reflexivity.
  - reflexivity.
  - unfold float_of_nat, true_div. rewrite !Z2Nat.id by lia. reflexivity.
  - reflexivity.
Qed.

Lemma X19_margin_in_double_precision_witness :
  let blank : image -> nat -> nat -> image :=
    fun _ W H => replicate H (replicate W []) in
  let img : image := replicate 720 (replicate 1280 []) in
  let cv := mkXrViewConfigurationView 352 352 288 288 1 1 in
  fit blank [img] cv (mkNdarray 0 []) =
    Ok (alloc [img] (blank (crop_columns 199 img) 352%nat 288%nat)).
Proof.
  intros blank img cv.
  refine (proj1 (X19_margin_in_double_precision blank [img] cv (mkNdarray 0 []) img
                   eq_refl _ eq_refl eq_refl)).
  vm_compute. reflexivity.
Defined.

(** X20.  The fit transform divides before it checks anything: on a
    frame without rows, and on a recommended size without height, it
    raises [ZeroDivisionError]; so it does on a frame without columns
    when the recommended width is zero.  [_transform] passes the error on
    and returns no frame. *)
Theorem X20_fit_divides_first (interpolate : image -> nat -> nat -> image)
    (o : OpenXR) (h : heap) (cv : XrViewConfigurationView) (frame : ndarray)
    (img : image) :
  content h frame = Some img ->
  let W := recommendedImageRectWidth cv in
  let H := recommendedImageRectHeight cv in
  (shape0 img = 0%nat \/ H = 0%nat
   \/ (shape1 img = 0%nat /\ W = 0%nat) ->
     fit interpolate h cv frame = Raise ZeroDivisionError)
  /\ (_transform_flip o = None -> _transform_fit o = true ->
        shape0 img = 0%nat \/ H = 0%nat \/ (shape1 img = 0%nat /\ W = 0%nat) ->
        _transform interpolate o h cv frame = Raise ZeroDivisionError).
Proof.
  intros Hc W H.
  assert (Hfit : shape0 img = 0%nat \/ H = 0%nat \/ (shape1 img = 0%nat /\ W = 0%nat) ->
                 fit interpolate h cv frame = Raise ZeroDivisionError).
  { intros Hzero. unfold fit. rewrite Hc. fold W H.
    destruct (Nat.eq_dec (shape0 img) 0) as [E0|E0].
    { rewrite E0. reflexivity. }
    destruct (Nat.eq_dec H 0) as [EH|EH].
    { rewrite EH. unfold py_div_int.
      destruct (shape0 img =? 0)%nat; [reflexivity|].
      by destruct (shape1 img =? 0)%nat. }
    destruct Hzero as [?|[?|[E1 EW]]]; try lia.
    rewrite E1, EW. unfold py_div_int.
    apply Nat.eqb_neq in E0 as ->. apply Nat.eqb_neq in EH as ->.
    reflexivity. }
  split; [exact Hfit|].
  intros Hflip Hset Hzero. unfold _transform. rewrite Hflip, Hset.
  by rewrite (Hfit Hzero).
Qed.

Lemma X20_fit_divides_first_witness :
  let blank : image -> nat -> nat -> image :=
    fun _ W H => replicate H (replicate W []) in
  fit blank [[]] (mkXrViewConfigurationView 4 4 4 4 1 1) (mkNdarray 0 [])
    = Raise ZeroDivisionError.
Proof.
  intros blank.
  apply (proj1 (X20_fit_divides_first blank (acquire_openxr_interface false) [[]]
                  (mkXrViewConfigurationView 4 4 4 4 1 1) (mkNdarray 0 []) []
                  eq_refl)).
  by left.
Defined.

(** ** Frames: submission *)

Lemma transform_outcome (interpolate : image -> nat -> nat -> image) (o : OpenXR)
    (h : heap) (cv : XrViewConfigurationView) (frame : ndarray) (img scaled : image)
    (axes : list nat) :
  content h frame = Some img ->
  flip_axes o = Ok axes ->
  (_transform_fit o = true ->
     fitted_image interpolate (flipped axes img) cv = Ok scaled) ->
  _transform interpolate o h cv frame =
    Ok (if _transform_fit o then alloc (h ++ [scaled]) scaled
        else if bool_decide (_transform_flip o <> None)
        then alloc h (flipped axes img)
        else (frame, h)).
Proof.
  intros Hc Haxes Hfit.
  destruct (flip_step o h frame img axes Hc Haxes) as (frame1 & Hflip & Hc1 & Hsame).
  unfold _transform. rewrite Hflip.
  destruct (_transform_fit o) eqn:Efit.
  - rewrite (fit_result interpolate h cv frame1 (flipped axes img) Hc1), (Hfit eq_refl).
    unfold alloc at 1.
    unfold content at 1. simpl. by rewrite list_lookup_middle.
  - destruct (decide (_transform_flip o = None)) as [Hnone|Hsome].
    + rewrite !bool_decide_eq_false_2 by (intros Hne; by apply Hne).
      by rewrite Hsame.
    + rewrite !bool_decide_eq_true_2 by exact Hsome. by rewrite Hc1.
Qed.

(** X21.  On an initialised object [set_frames] returns the runtime's
    answer and submits the transformed frames.  With a flip configured,
    or with a fit that returns for both frames, the two submitted arrays
    own two different buffers, both new, also when the caller passes the
    same array for both eyes; with nothing configured the submitted arrays
    are the caller's own, and nothing is allocated.  Without a right frame only the left one is
    transformed; a missing configuration view raises [IndexError]. *)
Theorem X21_frames_submitted (interpolate : image -> nat -> nat -> image) (o : OpenXR)
    (h : heap) (view0 view1 : XrViewConfigurationView)
    (views : list XrViewConfigurationView) (left right : ndarray)
    (left_image right_image scaled_left scaled_right : image) (axes : list nat)
    (rt_set : bool) :
  _disable_openxr o = false ->
  _app o = Some tt ->
  content h left = Some left_image ->
  content h right = Some right_image ->
  flip_axes o = Ok axes ->
  (_transform_fit o = true ->
     fitted_image interpolate (flipped axes left_image) view0 = Ok scaled_left
     /\ fitted_image interpolate (flipped axes right_image) view1 = Ok scaled_right) ->
  (exists s,
     set_frames interpolate o h (view0 :: view1 :: views) left (Some right) rt_set = Ok s
     /\ submitted s = rt_set
     /\ use_rgba s = (shape2 left_image =? 4)%nat
     /\ exists fl fr,
          frame_left s = Some fl /\ frame_right s = Some fr
          /\ (_transform_flip o = None -> _transform_fit o = false ->
                fl = left /\ fr = right /\ heap_after s = h)
          /\ (_transform_flip o <> None \/ _transform_fit o = true ->
                base fl <> base fr
                /\ (length h <= base fl)%nat /\ (length h <= base fr)%nat
                /\ content (heap_after s) left = Some left_image
                /\ content (heap_after s) right = Some right_image))
  /\ (exists s,
        set_frames interpolate o h (view0 :: views) left None rt_set = Ok s
        /\ submitted s = rt_set /\ frame_right s = None)
  /\ set_frames interpolate o h [] left (Some right) rt_set = Raise IndexError
  /\ set_frames interpolate o h [view0] left (Some right) rt_set = Raise IndexError.
Proof.
  intros Hstub Happ Hcl Hcr Haxes Hfit.
  assert (Hfl : _transform_fit o = true ->
                fitted_image interpolate (flipped axes left_image) view0 = Ok scaled_left)
    by (intros E; by destruct (Hfit E)).
  assert (Hfr : _transform_fit o = true ->
                fitted_image interpolate (flipped axes right_image) view1 = Ok scaled_right)
    by (intros E; by destruct (Hfit E)).
  pose proof (transform_outcome interpolate o h view0 left left_image scaled_left axes
                Hcl Haxes Hfl) as Hleft.
  pose proof (content_base_allocated h left left_image Hcl) as Hbl.
  pose proof (content_base_allocated h right right_image Hcr) as Hbr.
  split; [|split; [|split]].
  - unfold set_frames. rewrite Hcl, Hstub. simpl. rewrite Hleft.
    destruct (Sumbool.sumbool_of_bool (_transform_fit o)) as [Efit|Efit];
      rewrite Efit.
    + unfold alloc at 1.
      assert (Hcr1 : content ((h ++ [scaled_left]) ++ [scaled_left]) right
                     = Some right_image)
        by (rewrite <- app_assoc; by apply content_extend).
      rewrite (transform_outcome interpolate o _ view1 right right_image scaled_right axes
                 Hcr1 Haxes Hfr).
      rewrite Efit, Happ. cbv zeta. unfold alloc.
      eexists. split; [reflexivity|]. simpl. split; [reflexivity|].
      split; [reflexivity|]. eexists _, _. split; [reflexivity|].
      split; [reflexivity|]. split; [intros _ Hcontra; discriminate Hcontra|].
      intros _. simpl. rewrite !length_app. simpl.
      repeat split; try lia.
      * rewrite <- !app_assoc. by apply content_extend.
      * rewrite <- !app_assoc. by apply content_extend.
    + destruct (decide (_transform_flip o = None)) as [Hnone|Hconfigured].
      * rewrite !bool_decide_eq_false_2 by (intros Hne; by apply Hne).
        rewrite (transform_outcome interpolate o h view1 right right_image scaled_right
                   axes Hcr Haxes Hfr).
        rewrite Efit, Happ.
        rewrite !bool_decide_eq_false_2 by (intros Hne; by apply Hne).
        eexists. split; [reflexivity|]. simpl. split; [reflexivity|].
        split; [reflexivity|]. eexists _, _. split; [reflexivity|].
        split; [reflexivity|]. split; [by intros _ _|].
        intros [Hflip|Hcontra]; [|discriminate Hcontra].
        exfalso. by apply Hflip.
      * rewrite !bool_decide_eq_true_2 by exact Hconfigured.
        unfold alloc at 1.
        assert (Hcr1 : content (h ++ [flipped axes left_image]) right
                       = Some right_image) by (by apply content_extend).
        rewrite (transform_outcome interpolate o _ view1 right right_image scaled_right
                   axes Hcr1 Haxes Hfr).
        rewrite Efit, Happ. rewrite bool_decide_eq_true_2 by exact Hconfigured.
        unfold alloc.
        eexists. split; [reflexivity|]. simpl. split; [reflexivity|].
        split; [reflexivity|]. eexists _, _. split; [reflexivity|].
        split; [reflexivity|]. split; [intros Hnone; by rewrite Hnone in Hconfigured|].
        intros _. simpl. rewrite !length_app. simpl.
        repeat split; try lia.
        -- rewrite <- !app_assoc. by apply content_extend.
        -- rewrite <- !app_assoc. by apply content_extend.
  - unfold set_frames. rewrite Hcl, Hstub. simpl. rewrite Hleft, Happ.
    destruct (_transform_fit o); [|case_bool_decide]; cbv zeta; unfold alloc;
      eexists; split; try reflexivity; by split.
  - unfold set_frames. by rewrite Hcl, Hstub.
  - unfold set_frames. rewrite Hcl, Hstub. simpl. rewrite Hleft.
    destruct (_transform_fit o); [|case_bool_decide]; reflexivity.
Qed.

Lemma X21_frames_submitted_witness :
  let blank : image -> nat -> nat -> image :=
    fun _ W H => replicate H (replicate W []) in
  let img : image := [[[1%Z]; [2%Z]]; [[3%Z]; [4%Z]]] in
  let cv := mkXrViewConfigurationView 4 4 4 4 1 1 in
  let o := set__transform true (Some (FlipInt 0))
             (set__app (Some tt) (acquire_openxr_interface false)) in
  let same := mkNdarray 0 [] in
  exists s fl fr,
    set_frames blank o [img] [cv; cv] same (Some same) true = Ok s
    /\ frame_left s = Some fl /\ frame_right s = Some fr
    /\ base fl <> base fr.
Proof.
  intros blank img cv o same.
  destruct (X21_frames_submitted blank o [img] cv cv [] same same img img
              (blank img 4%nat 4%nat) (blank img 4%nat 4%nat)
              [0%nat] true eq_refl eq_refl eq_refl eq_refl eq_refl
              ltac:(intros _; split; reflexivity))
    as ((s & Hrun & _ & _ & fl & fr & Hfl & Hfr & _ & Hfresh) & _).
  exists s, fl, fr. split; [exact Hrun|]. split; [exact Hfl|]. split; [exact Hfr|].
  apply Hfresh. left. discriminate.
Defined.

(** ** Haptics *)

Lemma c_int64_in_range (z : Z) :
  (- 2 ^ 63 <= z < 2 ^ 63)%Z -> c_int64 (Int z) = Ok z.
Proof.
  intros Hz. unfold c_int64. f_equal.
  rewrite Z.mod_small by lia. lia.
Qed.

(** X22.  The haptic request is read from three keys of the dictionary
    only, with amplitude [0.5], duration [XR_MIN_HAPTIC_DURATION] and
    frequency [XR_FREQUENCY_UNSPECIFIED] where a key is missing.  On the
    ctypes transport a duration inside the signed 64-bit range, such as
    [XR_MIN_HAPTIC_DURATION] and [XR_INFINITE_DURATION], is handed on
    unchanged, one outside it is silently reduced modulo [2^64] into that
    range, and a float duration raises [TypeError] before the runtime is
    reached; on the pybind11 transport the values are handed on as
    given. *)
Theorem X22_haptic_request (haptic_feedback other : gmap string number)
    (use_ctypes : bool) (path : string) (rt_applied : bool) (w : world) :
  ((forall key, key ∈ ["amplitude"; "duration"; "frequency"] ->
      other !! key = haptic_feedback !! key) ->
     haptic_arguments use_ctypes other = haptic_arguments use_ctypes haptic_feedback)
  /\ haptic_arguments false haptic_feedback =
       Ok (default (Float (1 / 2)) (haptic_feedback !! "amplitude"),
           default (Int XR_MIN_HAPTIC_DURATION) (haptic_feedback !! "duration"),
           default (Int XR_FREQUENCY_UNSPECIFIED) (haptic_feedback !! "frequency"))
  /\ (forall z,
        default (Int XR_MIN_HAPTIC_DURATION) (haptic_feedback !! "duration") = Int z ->
        exists amplitude d frequency,
          haptic_arguments true haptic_feedback
            = Ok (Float amplitude, Int d, Float frequency)
          /\ (- 2 ^ 63 <= d < 2 ^ 63)%Z
          /\ ((d - z) mod 2 ^ 64 = 0)%Z
          /\ ((- 2 ^ 63 <= z < 2 ^ 63)%Z -> d = z))
  /\ c_int64 (Int XR_MIN_HAPTIC_DURATION) = Ok XR_MIN_HAPTIC_DURATION
  /\ c_int64 (Int XR_INFINITE_DURATION) = Ok XR_INFINITE_DURATION
  /\ (forall f,
        haptic_feedback !! "duration" = Some (Float f) ->
        _disable_openxr (self w) = false ->
        _use_ctypes (self w) = true ->
        apply_haptic_feedback path haptic_feedback rt_applied w = (Raise TypeError, w)).
Proof.
  split; [|split; [|split; [|split; [|split]]]].
  - intros Hsame. unfold haptic_arguments.
    rewrite !Hsame; [reflexivity|..];
      repeat first [ apply list_elem_of_here | apply list_elem_of_further ].
  - reflexivity.
  - intros z Hz. unfold haptic_arguments. rewrite Hz. simpl.
    eexists _, _, _. split; [reflexivity|].
    pose proof (Z.mod_pos_bound (z + 2 ^ 63) (2 ^ 64) ltac:(lia)) as Hbound.
    split; [lia|]. split.
    + replace ((z + 2 ^ 63) mod 2 ^ 64 - 2 ^ 63 - z)%Z
        with ((z + 2 ^ 63) mod 2 ^ 64 - (z + 2 ^ 63))%Z by lia.
      rewrite Zminus_mod, Z.mod_mod by lia. rewrite Z.sub_diag. reflexivity.
    + intros Hrange. rewrite Z.mod_small by lia. lia.
  - by apply c_int64_in_range.
  - by apply c_int64_in_range.
  - intros f Hf Hstub Hctypes. unfold apply_haptic_feedback. run_monad.
    rewrite Hstub, Hctypes. unfold haptic_arguments. by rewrite Hf.
Qed.
